(** * Driving-school enrollment and scheduling rules (backend/server.py)

    A shallow embedding of the four rule-carrying request handlers of the
    FastAPI backend ([create_course], [create_schedule], [update_exam],
    [update_payment], plus [create_exam], which the scenarios need) over an
    explicit model of the MongoDB collections they read and write.

    - A collection is the list of its documents in insertion order;
      [find_one] returns the first match, [find(...).to_list(n)] the first
      [n] matches, [update_one] rewrites the first match, [insert_one]
      appends.
    - A handler is a computation in a state-and-exception monad over the
      database: a raised [HTTPException] stops the handler and keeps
      whatever was written before it.
    - [uuid4], [utcnow] and [secrets] are inputs of the handlers.
    - A [datetime] is naive and counted in microseconds from
      0001-01-01T00:00:00, so that [replace(minute=0, ...)] is rounding
      down to a multiple of an hour; the store keeps a date as it was
      given.
    - A document carries the fields the handlers read or write; floats
      (prices, scores) are only copied and stand as integers. *)

From Stdlib Require Import ZArith List String Bool Lia Arith DecimalString.
Import ListNotations.
Local Open Scope string_scope.
Local Open Scope Z_scope.

(** ** Enumerations *)

Module UserRole.
Inductive t := STUDENT | TEACHER | MANAGER | ADMIN.
Definition eqb (a b : t) : bool :=
  match a, b with
  | STUDENT, STUDENT | TEACHER, TEACHER | MANAGER, MANAGER | ADMIN, ADMIN => true
  | _, _ => false
  end.
End UserRole.

Module Gender.
Inductive t := MALE | FEMALE | OTHER.
Definition eqb (a b : t) : bool :=
  match a, b with
  | MALE, MALE | FEMALE, FEMALE | OTHER, OTHER => true
  | _, _ => false
  end.
End Gender.

Module CourseType.
Inductive t := CODE | PARKING | ROAD.
Definition eqb (a b : t) : bool :=
  match a, b with
  | CODE, CODE | PARKING, PARKING | ROAD, ROAD => true
  | _, _ => false
  end.
(** The upper-case name used in the handlers' messages. *)
Definition label (a : t) : string :=
  match a with CODE => "CODE" | PARKING => "PARKING" | ROAD => "ROAD" end.
End CourseType.

Module CourseStatus.
Inductive t := NOT_STARTED | IN_PROGRESS | COMPLETED | FAILED.
Definition eqb (a b : t) : bool :=
  match a, b with
  | NOT_STARTED, NOT_STARTED | IN_PROGRESS, IN_PROGRESS
  | COMPLETED, COMPLETED | FAILED, FAILED => true
  | _, _ => false
  end.
End CourseStatus.

Module ExamStatus.
Inductive t := SCHEDULED | PASSED | FAILED.
End ExamStatus.

Module PaymentStatus.
Inductive t := PENDING | COMPLETED | FAILED | REFUNDED.
End PaymentStatus.

(** ** Time *)

Module datetime.
(** Microseconds since 0001-01-01T00:00:00. *)
Definition t := Z.
Definition minute : Z := 60 * 1000000.
Definition hour : Z := 60 * minute.
Definition day : Z := 24 * hour.
(** First instant after [datetime.max] (9999-12-31T23:59:59.999999). *)
Definition limit : Z := 3652059 * day.
Definition in_range (d : Z) : bool := (0 <=? d) && (d <? limit).

(** [d.replace(minute=0, second=0, microsecond=0)] *)
Definition replace_minute0 (d : t) : t := d - d mod hour.
(** [d.replace(hour=0, minute=0, second=0, microsecond=0)] *)
Definition replace_hour0 (d : t) : t := d - d mod day.

(** [d + timedelta(...)]: Python raises [OverflowError] when the sum
    leaves the range of [datetime] (or the delta that of [timedelta],
    which is wider). *)
Definition add (d : t) (delta : Z) : option t :=
  if in_range (d + delta) then Some (d + delta) else None.
End datetime.

(** ** Documents *)

Module User.
Record t := mk { id : string; role : UserRole.t; gender : Gender.t }.
End User.

Module DrivingSchool.
(** Prices are floats that the handlers only copy. *)
Record t := mk {
  id : string; manager_id : string;
  price_code : Z; price_parking : Z; price_road : Z }.
End DrivingSchool.

Module Teacher.
Record t := mk {
  id : string; user_id : string; driving_school_id : string;
  gender : Gender.t }.
End Teacher.

Module CourseCreate.
Record t := mk {
  type : CourseType.t;
  student_id : string;
  teacher_id : string;
  driving_school_id : string;
  status : CourseStatus.t;
  start_date : option datetime.t;
  completion_date : option datetime.t }.
End CourseCreate.

Module Course.
Record t := mk {
  type : CourseType.t;
  student_id : string;
  teacher_id : string;
  driving_school_id : string;
  status : CourseStatus.t;
  start_date : option datetime.t;
  completion_date : option datetime.t;
  id : string;
  created_at : datetime.t;
  google_meet_link : option string }.

(** [{"$set": {"status": s}}] *)
Definition set_status (s : CourseStatus.t) (c : t) : t :=
  mk (type c) (student_id c) (teacher_id c) (driving_school_id c) s
     (start_date c) (completion_date c) (id c) (created_at c)
     (google_meet_link c).
Definition set_google_meet_link (l : option string) (c : t) : t :=
  mk (type c) (student_id c) (teacher_id c) (driving_school_id c) (status c)
     (start_date c) (completion_date c) (id c) (created_at c) l.
End Course.

Module ScheduleCreate.
Record t := mk {
  course_id : string; date : datetime.t; duration_minutes : Z }.
End ScheduleCreate.

Module Schedule.
Record t := mk {
  course_id : string; date : datetime.t; duration_minutes : Z;
  id : string; created_at : datetime.t }.
End Schedule.

Module ExamCreate.
Record t := mk {
  course_id : string; date : datetime.t; status : ExamStatus.t }.
End ExamCreate.

Module Exam.
Record t := mk {
  course_id : string; date : datetime.t; status : ExamStatus.t;
  id : string; created_at : datetime.t;
  score : option Z; feedback : option string }.
End Exam.

Module Payment.
Record t := mk {
  course_id : string; amount : Z; status : PaymentStatus.t;
  id : string; created_at : datetime.t;
  transaction_id : option string }.
Definition set_status (s : PaymentStatus.t) (p : t) : t :=
  mk (course_id p) (amount p) s (id p) (created_at p) (transaction_id p).
End Payment.

(** ** The database *)

Module DB.
Record t := mk {
  users : list User.t;
  driving_schools : list DrivingSchool.t;
  teachers : list Teacher.t;
  courses : list Course.t;
  schedules : list Schedule.t;
  exams : list Exam.t;
  payments : list Payment.t }.

Definition with_courses (f : list Course.t -> list Course.t) (d : t) : t :=
  mk (users d) (driving_schools d) (teachers d) (f (courses d))
     (schedules d) (exams d) (payments d).
Definition with_schedules (f : list Schedule.t -> list Schedule.t) (d : t) : t :=
  mk (users d) (driving_schools d) (teachers d) (courses d)
     (f (schedules d)) (exams d) (payments d).
Definition with_exams (f : list Exam.t -> list Exam.t) (d : t) : t :=
  mk (users d) (driving_schools d) (teachers d) (courses d)
     (schedules d) (f (exams d)) (payments d).
Definition with_payments (f : list Payment.t -> list Payment.t) (d : t) : t :=
  mk (users d) (driving_schools d) (teachers d) (courses d)
     (schedules d) (exams d) (f (payments d)).
End DB.

(** ** Exceptions and the handler monad *)

Inductive exn :=
| HTTPException (status_code : Z) (detail : string)
| TypeError      (* subscripting [None] *)
| OverflowError  (* date value out of range *)
| AttributeError (* an attribute the object does not have *)
| ValueError.    (* passlib's PasswordValueError and UnknownHashError *)

Inductive outcome (A : Type) :=
| Return (a : A)
| Raise (e : exn).
Arguments Return {A} a.
Arguments Raise {A} e.

Definition M (A : Type) : Type := DB.t -> outcome A * DB.t.

Definition ret {A} (a : A) : M A := fun db => (Return a, db).
Definition raise {A} (e : exn) : M A := fun db => (Raise e, db).
Definition bind {A B} (m : M A) (k : A -> M B) : M B :=
  fun db =>
    match m db with
    | (Return a, db') => k a db'
    | (Raise e, db') => (Raise e, db')
    end.

Notation "x <- m ;; k" := (bind m (fun x => k))
  (at level 61, m at next level, right associativity).
Notation "m ;;; k" := (bind m (fun _ => k))
  (at level 61, right associativity).

(** [if cond: raise e] *)
Definition raise_if (cond : bool) (e : exn) : M unit :=
  if cond then raise e else ret tt.

(** [await db.<coll>.find_one(q)] *)
Definition find_one {A} (coll : DB.t -> list A) (q : A -> bool) : M (option A) :=
  fun db => (Return (find q (coll db)), db).

(** [await db.<coll>.find(q).to_list(n)] *)
Definition find_to_list {A} (coll : DB.t -> list A) (q : A -> bool) (n : nat)
  : M (list A) :=
  fun db => (Return (firstn n (filter q (coll db))), db).

(** [update_one] rewrites the first document that matches. *)
Fixpoint update_first {A} (q : A -> bool) (f : A -> A) (l : list A) : list A :=
  match l with
  | [] => []
  | x :: r => if q x then f x :: r else x :: update_first q f r
  end.

(** [insert_one] appends the document. *)
Definition insert_one {A} (x : A) (l : list A) : list A := (l ++ [x])%list.

Definition modify (f : DB.t -> DB.t) : M unit := fun db => (Return tt, f db).

Definition run {A} (m : M A) (db : DB.t) : outcome A * DB.t := m db.

(** ** Queries of the handlers *)

Definition user_by_id (db : DB.t) (i : string) : option User.t :=
  find (fun u => String.eqb (User.id u) i) (DB.users db).
Definition teacher_by_id (db : DB.t) (i : string) : option Teacher.t :=
  find (fun x => String.eqb (Teacher.id x) i) (DB.teachers db).
Definition teacher_by_user_id (db : DB.t) (i : string) : option Teacher.t :=
  find (fun x => String.eqb (Teacher.user_id x) i) (DB.teachers db).
Definition school_by_id (db : DB.t) (i : string) : option DrivingSchool.t :=
  find (fun x => String.eqb (DrivingSchool.id x) i) (DB.driving_schools db).
Definition course_by_id (db : DB.t) (i : string) : option Course.t :=
  find (fun c => String.eqb (Course.id c) i) (DB.courses db).
Definition exam_by_id (db : DB.t) (i : string) : option Exam.t :=
  find (fun x => String.eqb (Exam.id x) i) (DB.exams db).
Definition payment_by_id (db : DB.t) (i : string) : option Payment.t :=
  find (fun x => String.eqb (Payment.id x) i) (DB.payments db).

(** [{"student_id": sid, "type": ty, "status": {"$ne": FAILED}}] *)
Definition q_live (sid : string) (ty : CourseType.t) (c : Course.t) : bool :=
  String.eqb (Course.student_id c) sid
  && CourseType.eqb (Course.type c) ty
  && negb (CourseStatus.eqb (Course.status c) CourseStatus.FAILED).

(** [{"student_id": sid, "type": ty, "status": COMPLETED}] *)
Definition q_completed (sid : string) (ty : CourseType.t) (c : Course.t) : bool :=
  String.eqb (Course.student_id c) sid
  && CourseType.eqb (Course.type c) ty
  && CourseStatus.eqb (Course.status c) CourseStatus.COMPLETED.

(** ** Error responses *)

Definition InvalidStudent := HTTPException 400 "Invalid student_id".
Definition InvalidTeacher := HTTPException 400 "Invalid teacher_id".
Definition InvalidSchool := HTTPException 400 "Invalid driving_school_id".
Definition InvalidCourse := HTTPException 400 "Invalid course_id".
Definition GenderMismatch :=
  HTTPException 400 "Teacher and student genders must match".
Definition DuplicateEnrollment (ty : CourseType.t) :=
  HTTPException 400
    ("Student already enrolled in a " ++ CourseType.label ty ++ " course").
Definition PrerequisiteNotMet (before ty : CourseType.t) :=
  HTTPException 400
    ("Student must complete " ++ CourseType.label before
     ++ " course before enrolling in " ++ CourseType.label ty ++ " course").

(** ** create_course *)

(** What the handler draws from [uuid4], [utcnow] and [secrets]. *)
Module Fresh.
Record t := mk {
  course_id : string; course_created_at : datetime.t; meet_token : string;
  payment_id : string; payment_created_at : datetime.t }.
End Fresh.

(** [new_course = Course(...)] built from all the fields of the request. *)
Definition Course_of (fr : Fresh.t) (course : CourseCreate.t) : Course.t :=
  Course.mk (CourseCreate.type course) (CourseCreate.student_id course)
    (CourseCreate.teacher_id course) (CourseCreate.driving_school_id course)
    (CourseCreate.status course) (CourseCreate.start_date course)
    (CourseCreate.completion_date course)
    (Fresh.course_id fr) (Fresh.course_created_at fr) None.

Definition course_price (school : DrivingSchool.t) (ty : CourseType.t) : Z :=
  match ty with
  | CourseType.CODE => DrivingSchool.price_code school
  | CourseType.PARKING => DrivingSchool.price_parking school
  | CourseType.ROAD => DrivingSchool.price_road school
  end.

Definition create_course (fr : Fresh.t) (course : CourseCreate.t)
    (current_user : User.t) : M Course.t :=
  let sid := CourseCreate.student_id course in
  (* Verify the student exists *)
  student <- find_one DB.users (fun u => String.eqb (User.id u) sid) ;;
  student <- match student with
             | Some s =>
                 if UserRole.eqb (User.role s) UserRole.STUDENT
                 then ret s else raise InvalidStudent
             | None => raise InvalidStudent
             end ;;
  (* Verify the teacher exists *)
  teacher <- find_one DB.teachers
               (fun x => String.eqb (Teacher.id x) (CourseCreate.teacher_id course)) ;;
  teacher <- match teacher with
             | Some x => ret x
             | None => raise InvalidTeacher
             end ;;
  (* Verify the driving school exists *)
  school <- find_one DB.driving_schools
              (fun x => String.eqb (DrivingSchool.id x)
                          (CourseCreate.driving_school_id course)) ;;
  school <- match school with
            | Some x => ret x
            | None => raise InvalidSchool
            end ;;
  (* Verify gender matching *)
  teacher_user <- find_one DB.users
                    (fun u => String.eqb (User.id u) (Teacher.user_id teacher)) ;;
  teacher_user <- match teacher_user with
                  | Some u => ret u
                  | None => raise TypeError
                  end ;;
  raise_if (negb (Gender.eqb (User.gender teacher_user) (User.gender student)))
    GenderMismatch ;;;
  match CourseCreate.type course with
  | CourseType.CODE =>
      (* For CODE course, no prerequisites *)
      existing_code_course <- find_one DB.courses (q_live sid CourseType.CODE) ;;
      match existing_code_course with
      | Some _ => raise (DuplicateEnrollment CourseType.CODE)
      | None => ret tt
      end
  | CourseType.PARKING =>
      (* For PARKING course, must have completed CODE course *)
      code_course <- find_one DB.courses (q_completed sid CourseType.CODE) ;;
      match code_course with
      | None => raise (PrerequisiteNotMet CourseType.CODE CourseType.PARKING)
      | Some _ => ret tt
      end ;;;
      existing_parking_course <- find_one DB.courses (q_live sid CourseType.PARKING) ;;
      match existing_parking_course with
      | Some _ => raise (DuplicateEnrollment CourseType.PARKING)
      | None => ret tt
      end
  | CourseType.ROAD =>
      (* For ROAD course, must have completed PARKING course *)
      parking_course <- find_one DB.courses (q_completed sid CourseType.PARKING) ;;
      match parking_course with
      | None => raise (PrerequisiteNotMet CourseType.PARKING CourseType.ROAD)
      | Some _ => ret tt
      end ;;;
      existing_road_course <- find_one DB.courses (q_live sid CourseType.ROAD) ;;
      match existing_road_course with
      | Some _ => raise (DuplicateEnrollment CourseType.ROAD)
      | None => ret tt
      end
  end ;;;
  (* Create new course *)
  let new_course := Course_of fr course in
  let new_course :=
    match CourseCreate.type course with
    | CourseType.CODE =>
        Course.set_google_meet_link
          (Some ("https://meet.google.com/" ++ Fresh.meet_token fr)) new_course
    | _ => new_course
    end in
  modify (DB.with_courses (insert_one new_course)) ;;;
  (* For payments - create a pending payment record *)
  let payment :=
    Payment.mk (Course.id new_course)
      (course_price school (CourseCreate.type course))
      PaymentStatus.PENDING (Fresh.payment_id fr) (Fresh.payment_created_at fr)
      None in
  modify (DB.with_payments (insert_one payment)) ;;;
  ret new_course.

(** ** create_schedule *)

Definition OnlyStaffSchedules :=
  HTTPException 403 "Only managers, teachers, and admins can create schedules".
Definition TeacherNotFound := HTTPException 400 "Teacher not found for this course".
Definition NotOwnCourseSchedule :=
  HTTPException 403 "Teachers can only create schedules for their own courses".
Definition CapacityExceeded :=
  HTTPException 400
    "Teacher already has the maximum number of CODE students scheduled for this time".
Definition SlotTaken :=
  HTTPException 400 "Teacher already has a student scheduled for this time".
Definition DailyCapacityExceeded (ty : CourseType.t) :=
  HTTPException 400
    ("Teacher already has the maximum number of " ++ CourseType.label ty
     ++ " students scheduled for this day").

(** [current_user.role not in [MANAGER, TEACHER, ADMIN]] *)
Definition not_staff (r : UserRole.t) : bool :=
  match r with
  | UserRole.MANAGER | UserRole.TEACHER | UserRole.ADMIN => false
  | UserRole.STUDENT => true
  end.

(** The ownership test shared by [create_schedule], [create_exam] and
    [update_exam]: [not teacher or teacher["id"] != course["teacher_id"]]. *)
Definition not_own_course (teacher_record : option Teacher.t) (course : Course.t)
  : bool :=
  match teacher_record with
  | None => true
  | Some x => negb (String.eqb (Teacher.id x) (Course.teacher_id course))
  end.

(** [x in ids] *)
Definition mem (x : string) (ids : list string) : bool :=
  existsb (String.eqb x) ids.

(** [{"date": {"$gte": lo, "$lt": hi}, "course_id": {"$in": ids}}] *)
Definition q_date_in (lo hi : datetime.t) (ids : list string) (s : Schedule.t)
  : bool :=
  (lo <=? Schedule.date s) && (Schedule.date s <? hi)
  && mem (Schedule.course_id s) ids.

(** The dictionary [day_course_types], read only through [.get(k, 0)]. *)
Definition dict : Type := CourseType.t -> option nat.
Definition dict_empty : dict := fun _ => None.
Definition dict_get (d : dict) (k : CourseType.t) (default : nat) : nat :=
  match d k with Some v => v | None => default end.
Definition dict_set (d : dict) (k : CourseType.t) (v : nat) : dict :=
  fun k' => if CourseType.eqb k' k then Some v else d k'.

(** [for x in l: acc = body(acc, x)] *)
Fixpoint for_each {A S} (l : list A) (body : S -> A -> M S) (acc : S) : M S :=
  match l with
  | [] => ret acc
  | x :: r => acc' <- body acc x ;; for_each r body acc'
  end.

(** [Schedule(...)] built from all the fields of the request. *)
Definition Schedule_of (new_id : string) (now : datetime.t)
    (schedule : ScheduleCreate.t) : Schedule.t :=
  Schedule.mk (ScheduleCreate.course_id schedule) (ScheduleCreate.date schedule)
    (ScheduleCreate.duration_minutes schedule) new_id now.

Definition create_schedule (new_id : string) (now : datetime.t)
    (schedule : ScheduleCreate.t) (current_user : User.t) : M Schedule.t :=
  (* Only managers and teachers can create schedules *)
  raise_if (not_staff (User.role current_user)) OnlyStaffSchedules ;;;
  (* Verify the course exists *)
  course <- find_one DB.courses
              (fun c => String.eqb (Course.id c) (ScheduleCreate.course_id schedule)) ;;
  course <- match course with
            | Some c => ret c
            | None => raise InvalidCourse
            end ;;
  (* Get teacher *)
  teacher <- find_one DB.teachers
               (fun x => String.eqb (Teacher.id x) (Course.teacher_id course)) ;;
  match teacher with
  | Some _ => ret tt
  | None => raise TeacherNotFound
  end ;;;
  (* Check if the teacher is creating a schedule for their own course *)
  match User.role current_user with
  | UserRole.TEACHER =>
      teacher_record <- find_one DB.teachers
                          (fun x => String.eqb (Teacher.user_id x) (User.id current_user)) ;;
      raise_if (not_own_course teacher_record course) NotOwnCourseSchedule
  | _ => ret tt
  end ;;;
  (* Check scheduling limits *)
  let schedule_date := datetime.replace_minute0 (ScheduleCreate.date schedule) in
  end_date <- match datetime.add schedule_date
                      (ScheduleCreate.duration_minutes schedule * datetime.minute) with
              | Some d => ret d
              | None => raise OverflowError
              end ;;
  (* Get all courses taught by this teacher *)
  teacher_courses <- find_to_list DB.courses
                       (fun c => String.eqb (Course.teacher_id c) (Course.teacher_id course))
                       1000 ;;
  let teacher_course_ids := map Course.id teacher_courses in
  match teacher_course_ids with
  | [] => ret tt
  | _ :: _ =>
      existing_schedules <- find_to_list DB.schedules
                              (q_date_in schedule_date end_date teacher_course_ids)
                              1000 ;;
      match Course.type course with
      | CourseType.CODE =>
          (* For CODE courses, a teacher can teach 20 students in one hour *)
          raise_if (20 <=? List.length existing_schedules)%nat CapacityExceeded
      | _ =>
          (* For PARKING and ROAD courses, a teacher can teach only 1 student
             per hour and maximum 3 PARKING and 3 ROAD students per day *)
          match existing_schedules with
          | [] => ret tt
          | _ :: _ => raise SlotTaken
          end ;;;
          (* Check daily limit (3 PARKING and 3 ROAD) *)
          let day_start := datetime.replace_hour0 schedule_date in
          day_end <- match datetime.add day_start datetime.day with
                     | Some d => ret d
                     | None => raise OverflowError
                     end ;;
          day_schedules <- find_to_list DB.schedules
                             (q_date_in day_start day_end teacher_course_ids)
                             1000 ;;
          (* Count how many PARKING and ROAD courses are scheduled for this day *)
          day_course_types <-
            for_each day_schedules
              (fun (acc : dict) ds =>
                 ds_course <- find_one DB.courses
                                (fun c => String.eqb (Course.id c) (Schedule.course_id ds)) ;;
                 match ds_course with
                 | Some c =>
                     let course_type := Course.type c in
                     ret (dict_set acc course_type (dict_get acc course_type 0 + 1)%nat)
                 | None => ret acc
                 end)
              dict_empty ;;
          raise_if (CourseType.eqb (Course.type course) CourseType.PARKING
                    && (3 <=? dict_get day_course_types CourseType.PARKING 0)%nat)
            (DailyCapacityExceeded CourseType.PARKING) ;;;
          raise_if (CourseType.eqb (Course.type course) CourseType.ROAD
                    && (3 <=? dict_get day_course_types CourseType.ROAD 0)%nat)
            (DailyCapacityExceeded CourseType.ROAD)
      end
  end ;;;
  (* Create new schedule *)
  let new_schedule := Schedule_of new_id now schedule in
  modify (DB.with_schedules (insert_one new_schedule)) ;;;
  ret new_schedule.

(** ** create_exam and update_exam *)

Definition OnlyStaffCreateExams :=
  HTTPException 403 "Only managers, teachers, and admins can create exams".
Definition NotOwnCourseCreateExam :=
  HTTPException 403 "Teachers can only create exams for their own courses".

(** In [update_exam] and [update_payment] the parameter [status] hides the
    module [status] of fastapi.  Every refusal of these two handlers
    builds its [HTTPException] with [status.HTTP_403_FORBIDDEN] or
    [status.HTTP_404_NOT_FOUND], which is looked up on the value of
    the parameter, a member of [ExamStatus] or [PaymentStatus]: the lookup
    raises [AttributeError] and no [HTTPException] is ever built. *)
Definition status_attribute_error : exn := AttributeError.

Definition create_exam (new_id : string) (now : datetime.t)
    (exam : ExamCreate.t) (current_user : User.t) : M Exam.t :=
  raise_if (not_staff (User.role current_user)) OnlyStaffCreateExams ;;;
  course <- find_one DB.courses
              (fun c => String.eqb (Course.id c) (ExamCreate.course_id exam)) ;;
  course <- match course with
            | Some c => ret c
            | None => raise InvalidCourse
            end ;;
  match User.role current_user with
  | UserRole.TEACHER =>
      teacher <- find_one DB.teachers
                   (fun x => String.eqb (Teacher.user_id x) (User.id current_user)) ;;
      raise_if (not_own_course teacher course) NotOwnCourseCreateExam
  | _ => ret tt
  end ;;;
  let new_exam :=
    Exam.mk (ExamCreate.course_id exam) (ExamCreate.date exam)
      (ExamCreate.status exam) new_id now None None in
  modify (DB.with_exams (insert_one new_exam)) ;;;
  ret new_exam.

(** [{"$set": update_data}]: the status always, score and feedback only
    when they were given. *)
Definition set_exam (status : ExamStatus.t) (score : option Z)
    (feedback : option string) (e : Exam.t) : Exam.t :=
  Exam.mk (Exam.course_id e) (Exam.date e) status (Exam.id e) (Exam.created_at e)
    (match score with Some s => Some s | None => Exam.score e end)
    (match feedback with Some f => Some f | None => Exam.feedback e end).

Definition update_exam (exam_id : string) (status : ExamStatus.t)
    (score : option Z) (feedback : option string) (current_user : User.t)
  : M Exam.t :=
  (* Only managers and teachers can update exams *)
  raise_if (not_staff (User.role current_user)) status_attribute_error ;;;
  (* Verify the exam exists *)
  exam <- find_one DB.exams (fun x => String.eqb (Exam.id x) exam_id) ;;
  exam <- match exam with
          | Some x => ret x
          | None => raise status_attribute_error
          end ;;
  (* Verify the course exists *)
  course <- find_one DB.courses
              (fun c => String.eqb (Course.id c) (Exam.course_id exam)) ;;
  course <- match course with
            | Some c => ret c
            | None => raise status_attribute_error
            end ;;
  (* Check if the teacher is updating an exam for their own course *)
  match User.role current_user with
  | UserRole.TEACHER =>
      teacher <- find_one DB.teachers
                   (fun x => String.eqb (Teacher.user_id x) (User.id current_user)) ;;
      raise_if (not_own_course teacher course) status_attribute_error
  | _ => ret tt
  end ;;;
  (* Update exam *)
  modify (DB.with_exams
            (update_first (fun x => String.eqb (Exam.id x) exam_id)
               (set_exam status score feedback))) ;;;
  (* If exam is passed, update course status *)
  match status with
  | ExamStatus.PASSED =>
      modify (DB.with_courses
                (update_first (fun c => String.eqb (Course.id c) (Course.id course))
                   (Course.set_status CourseStatus.COMPLETED)))
  | ExamStatus.FAILED =>
      modify (DB.with_courses
                (update_first (fun c => String.eqb (Course.id c) (Course.id course))
                   (Course.set_status CourseStatus.FAILED)))
  | ExamStatus.SCHEDULED => ret tt
  end ;;;
  updated_exam <- find_one DB.exams (fun x => String.eqb (Exam.id x) exam_id) ;;
  match updated_exam with
  | Some x => ret x
  | None => raise TypeError
  end.

(** ** update_payment *)

Definition is_admin (r : UserRole.t) : bool :=
  match r with UserRole.ADMIN => true | _ => false end.
Definition is_manager (r : UserRole.t) : bool :=
  match r with UserRole.MANAGER => true | _ => false end.
Definition is_completed_payment (s : PaymentStatus.t) : bool :=
  match s with PaymentStatus.COMPLETED => true | _ => false end.

Definition update_payment (payment_id : string) (status : PaymentStatus.t)
    (current_user : User.t) : M Payment.t :=
  (* Verify the payment exists *)
  payment <- find_one DB.payments (fun x => String.eqb (Payment.id x) payment_id) ;;
  payment <- match payment with
             | Some x => ret x
             | None => raise status_attribute_error
             end ;;
  (* Verify the course exists *)
  course <- find_one DB.courses
              (fun c => String.eqb (Course.id c) (Payment.course_id payment)) ;;
  course <- match course with
            | Some c => ret c
            | None => raise status_attribute_error
            end ;;
  (* Only the student associated with the course, managers, or admins *)
  raise_if (negb (is_admin (User.role current_user))
            && negb (is_manager (User.role current_user))
            && negb (String.eqb (User.id current_user) (Course.student_id course)))
    status_attribute_error ;;;
  (* Update payment *)
  modify (DB.with_payments
            (update_first (fun x => String.eqb (Payment.id x) payment_id)
               (Payment.set_status status))) ;;;
  (* If payment is completed, update course status to in progress *)
  (if is_completed_payment status
      && CourseStatus.eqb (Course.status course) CourseStatus.NOT_STARTED
   then modify (DB.with_courses
                  (update_first (fun c => String.eqb (Course.id c) (Course.id course))
                     (Course.set_status CourseStatus.IN_PROGRESS)))
   else ret tt) ;;;
  updated_payment <- find_one DB.payments
                       (fun x => String.eqb (Payment.id x) payment_id) ;;
  match updated_payment with
  | Some x => ret x
  | None => raise TypeError
  end.

(** ** Vocabulary of the statements *)

(** The student's courses of one type that are not failed. *)
Definition live_courses (db : DB.t) (sid : string) (ty : CourseType.t)
  : list Course.t :=
  filter (q_live sid ty) (DB.courses db).

(** At most one live course per student and type. *)
Definition single_live_course (db : DB.t) : Prop :=
  forall sid ty, (List.length (live_courses db sid ty) <= 1)%nat.

(** The ids of an enrollment request resolve: the first three checks of
    [create_course] pass and the teacher's user document exists. *)
Record resolves (db : DB.t) (course : CourseCreate.t)
    (student : User.t) (teacher : Teacher.t) (school : DrivingSchool.t)
    (teacher_user : User.t) : Prop := {
  res_student : user_by_id db (CourseCreate.student_id course) = Some student;
  res_role : User.role student = UserRole.STUDENT;
  res_teacher : teacher_by_id db (CourseCreate.teacher_id course) = Some teacher;
  res_school :
    school_by_id db (CourseCreate.driving_school_id course) = Some school;
  res_teacher_user : user_by_id db (Teacher.user_id teacher) = Some teacher_user }.

(** The course document and the payment document a successful
    [create_course] inserts. *)
Definition new_course_of (fr : Fresh.t) (course : CourseCreate.t) : Course.t :=
  match CourseCreate.type course with
  | CourseType.CODE =>
      Course.set_google_meet_link
        (Some ("https://meet.google.com/" ++ Fresh.meet_token fr))
        (Course_of fr course)
  | _ => Course_of fr course
  end.
Definition new_payment_of (fr : Fresh.t) (course : CourseCreate.t)
    (school : DrivingSchool.t) : Payment.t :=
  Payment.mk (Fresh.course_id fr)
    (course_price school (CourseCreate.type course))
    PaymentStatus.PENDING (Fresh.payment_id fr) (Fresh.payment_created_at fr)
    None.
Definition enrolled (fr : Fresh.t) (course : CourseCreate.t)
    (school : DrivingSchool.t) (db : DB.t) : DB.t :=
  DB.with_payments (insert_one (new_payment_of fr course school))
    (DB.with_courses (insert_one (new_course_of fr course)) db).

(** The student has a completed course of the type. *)
Definition has_completed (db : DB.t) (sid : string) (ty : CourseType.t) : Prop :=
  exists c, In c (DB.courses db) /\ Course.student_id c = sid
            /\ Course.type c = ty /\ Course.status c = CourseStatus.COMPLETED.

(** The student has a course of the type whose status is not failed. *)
Definition has_live (db : DB.t) (sid : string) (ty : CourseType.t) : Prop :=
  exists c, In c (DB.courses db) /\ Course.student_id c = sid
            /\ Course.type c = ty /\ Course.status c <> CourseStatus.FAILED.

(** The prerequisite check of [create_course] for the type passes. *)
Definition prerequisite_met (db : DB.t) (sid : string) (ty : CourseType.t) : Prop :=
  match ty with
  | CourseType.CODE => True
  | CourseType.PARKING => has_completed db sid CourseType.CODE
  | CourseType.ROAD => has_completed db sid CourseType.PARKING
  end.

(** ** A small school, for the scenarios *)

Module Sample.
Definition student := User.mk "s1" UserRole.STUDENT Gender.MALE.
Definition student_f := User.mk "s2" UserRole.STUDENT Gender.FEMALE.
Definition student_o := User.mk "s3" UserRole.STUDENT Gender.OTHER.
Definition teacher_user := User.mk "u1" UserRole.TEACHER Gender.MALE.
Definition teacher_user2 := User.mk "u2" UserRole.TEACHER Gender.MALE.
Definition manager := User.mk "m1" UserRole.MANAGER Gender.FEMALE.
Definition admin := User.mk "a1" UserRole.ADMIN Gender.FEMALE.
Definition school := DrivingSchool.mk "sc1" "m1" 7000 15000 20000.
Definition teacher := Teacher.mk "t1" "u1" "sc1" Gender.MALE.
Definition teacher2 := Teacher.mk "t2" "u2" "sc1" Gender.MALE.

Definition db0 : DB.t :=
  DB.mk [student; student_f; student_o; teacher_user; teacher_user2; manager; admin]
    [school] [teacher; teacher2] [] [] [] [].

Definition enroll (ty : CourseType.t) (sid : string) : CourseCreate.t :=
  CourseCreate.mk ty sid "t1" "sc1" CourseStatus.NOT_STARTED None None.
Definition fresh (n : string) : Fresh.t :=
  Fresh.mk ("c" ++ n) 0 ("tok" ++ n) ("p" ++ n) 0.

(** 2024-01-01T00:00:00, a Monday. *)
Definition jan1 : datetime.t := 738885 * datetime.day.
(** [at_ h m]: that day at [h]:[m]. *)
Definition at_ (h m : Z) : datetime.t :=
  jan1 + h * datetime.hour + m * datetime.minute.

(** A first code course fails its exam, the student enrolls again, and
    the outcome of the first exam is then recorded as passed. *)
Definition revival : M unit :=
  c1 <- create_course (fresh "1") (enroll CourseType.CODE "s1") student ;;
  create_exam "e1" 0 (ExamCreate.mk (Course.id c1) (at_ 9 0) ExamStatus.SCHEDULED)
    manager ;;;
  update_exam "e1" ExamStatus.FAILED None None manager ;;;
  create_course (fresh "2") (enroll CourseType.CODE "s1") student ;;;
  update_exam "e1" ExamStatus.PASSED None None manager ;;;
  ret tt.
End Sample.

Module SampleCourses.
Import Sample.
(** The student's code course in a given status, with teacher [t1]. *)
Definition code_course (st : CourseStatus.t) : Course.t :=
  Course.mk CourseType.CODE "s1" "t1" "sc1" st None None "c0" 0
    (Some "https://meet.google.com/tok0").
Definition db_code (st : CourseStatus.t) : DB.t :=
  DB.with_courses (insert_one (code_course st)) db0.
(** The same with an exam and the pending payment of that course. *)
Definition exam0 : Exam.t :=
  Exam.mk "c0" (at_ 9 0) ExamStatus.SCHEDULED "e0" 0 None None.
Definition payment0 : Payment.t :=
  Payment.mk "c0" 7000 PaymentStatus.PENDING "p0" 0 None.
Definition db_course (st : CourseStatus.t) : DB.t :=
  DB.with_payments (insert_one payment0)
    (DB.with_exams (insert_one exam0) (db_code st)).
End SampleCourses.

(** ** Vocabulary for the outcome handlers *)

(** The caller passes the role gate and the ownership gate that
    [create_schedule], [create_exam] and [update_exam] share. *)
Definition staff_of_course (db : DB.t) (cu : User.t) (course : Course.t) : Prop :=
  not_staff (User.role cu) = false
  /\ (User.role cu = UserRole.TEACHER ->
      not_own_course (teacher_by_user_id db (User.id cu)) course = false).

(** What [update_exam] does to the courses collection. *)
Definition exam_outcome_on_courses (st : ExamStatus.t) (cid : string)
    (l : list Course.t) : list Course.t :=
  match st with
  | ExamStatus.PASSED =>
      update_first (fun c => String.eqb (Course.id c) cid)
        (Course.set_status CourseStatus.COMPLETED) l
  | ExamStatus.FAILED =>
      update_first (fun c => String.eqb (Course.id c) cid)
        (Course.set_status CourseStatus.FAILED) l
  | ExamStatus.SCHEDULED => l
  end.

(** The database after a successful [update_exam]. *)
Definition exam_recorded (exam_id : string) (st : ExamStatus.t)
    (score : option Z) (feedback : option string) (course : Course.t)
    (db : DB.t) : DB.t :=
  DB.with_courses (exam_outcome_on_courses st (Course.id course))
    (DB.with_exams
       (update_first (fun x => String.eqb (Exam.id x) exam_id)
          (set_exam st score feedback)) db).

(** The caller passes the gate of [update_payment]. *)
Definition may_update_payment (cu : User.t) (course : Course.t) : Prop :=
  User.role cu = UserRole.ADMIN \/ User.role cu = UserRole.MANAGER
  \/ User.id cu = Course.student_id course.

(** What [update_payment] does to the courses collection. *)
Definition payment_outcome_on_courses (st : PaymentStatus.t) (course : Course.t)
    (l : list Course.t) : list Course.t :=
  if is_completed_payment st
     && CourseStatus.eqb (Course.status course) CourseStatus.NOT_STARTED
  then update_first (fun c => String.eqb (Course.id c) (Course.id course))
         (Course.set_status CourseStatus.IN_PROGRESS) l
  else l.

(** The database after a successful [update_payment]. *)
Definition payment_recorded (payment_id : string) (st : PaymentStatus.t)
    (course : Course.t) (db : DB.t) : DB.t :=
  DB.with_courses (payment_outcome_on_courses st course)
    (DB.with_payments
       (update_first (fun x => String.eqb (Payment.id x) payment_id)
          (Payment.set_status st)) db).

(** Two course documents that differ at most in their status. *)
Definition same_but_status (c c' : Course.t) : Prop :=
  Course.type c' = Course.type c
  /\ Course.student_id c' = Course.student_id c
  /\ Course.teacher_id c' = Course.teacher_id c
  /\ Course.driving_school_id c' = Course.driving_school_id c
  /\ Course.start_date c' = Course.start_date c
  /\ Course.completion_date c' = Course.completion_date c
  /\ Course.id c' = Course.id c
  /\ Course.created_at c' = Course.created_at c
  /\ Course.google_meet_link c' = Course.google_meet_link c.

(** ** Vocabulary for the schedule allocator *)

Definition is_teacher (r : UserRole.t) : bool :=
  match r with UserRole.TEACHER => true | _ => false end.

(** [teacher_course_ids]: the ids of the first 1000 courses of a teacher. *)
Definition teacher_course_ids (db : DB.t) (tid : string) : list string :=
  map Course.id
    (firstn 1000
       (filter (fun c => String.eqb (Course.teacher_id c) tid) (DB.courses db))).

(** The schedules of those courses whose stored start lies in [lo, hi). *)
Definition booked (db : DB.t) (tid : string) (lo hi : datetime.t)
  : list Schedule.t :=
  filter (q_date_in lo hi (teacher_course_ids db tid)) (DB.schedules db).

(** The loop that fills [day_course_types]. *)
Definition count_type (db : DB.t) (acc : dict) (ds : Schedule.t) : dict :=
  match course_by_id db (Schedule.course_id ds) with
  | Some c => dict_set acc (Course.type c) (dict_get acc (Course.type c) 0 + 1)%nat
  | None => acc
  end.
Definition day_course_types (db : DB.t) (day_schedules : list Schedule.t) : dict :=
  fold_left (count_type db) day_schedules dict_empty.

(** The schedule's course, looked up by id, has the given type. *)
Definition of_type (db : DB.t) (ty : CourseType.t) (ds : Schedule.t) : bool :=
  match course_by_id db (Schedule.course_id ds) with
  | Some c => CourseType.eqb (Course.type c) ty
  | None => false
  end.

(** The verdict of [create_schedule] on a request, as a function of the
    normalized start: [None] when the schedule is inserted, otherwise the
    exception raised. *)
Definition schedule_decision (db : DB.t) (cu : User.t) (course_id : string)
    (schedule_date : datetime.t) (duration_minutes : Z) : option exn :=
  if not_staff (User.role cu) then Some OnlyStaffSchedules else
  match course_by_id db course_id with
  | None => Some InvalidCourse
  | Some course =>
  match teacher_by_id db (Course.teacher_id course) with
  | None => Some TeacherNotFound
  | Some _ =>
  if is_teacher (User.role cu)
     && not_own_course (teacher_by_user_id db (User.id cu)) course
  then Some NotOwnCourseSchedule else
  match datetime.add schedule_date (duration_minutes * datetime.minute) with
  | None => Some OverflowError
  | Some end_date =>
  let tid := Course.teacher_id course in
  match teacher_course_ids db tid with
  | [] => None
  | _ :: _ =>
      let existing_schedules := firstn 1000 (booked db tid schedule_date end_date) in
      match Course.type course with
      | CourseType.CODE =>
          if (20 <=? List.length existing_schedules)%nat
          then Some CapacityExceeded else None
      | ty =>
          match existing_schedules with
          | _ :: _ => Some SlotTaken
          | [] =>
              let day_start := datetime.replace_hour0 schedule_date in
              match datetime.add day_start datetime.day with
              | None => Some OverflowError
              | Some day_end =>
                  let counts :=
                    day_course_types db (firstn 1000 (booked db tid day_start day_end)) in
                  if CourseType.eqb ty CourseType.PARKING
                     && (3 <=? dict_get counts CourseType.PARKING 0)%nat
                  then Some (DailyCapacityExceeded CourseType.PARKING)
                  else if CourseType.eqb ty CourseType.ROAD
                          && (3 <=? dict_get counts CourseType.ROAD 0)%nat
                  then Some (DailyCapacityExceeded CourseType.ROAD)
                  else None
              end
          end
      end
  end end end end.

(** The database after a successful [create_schedule]. *)
Definition scheduled (new_id : string) (now : datetime.t)
    (schedule : ScheduleCreate.t) (db : DB.t) : DB.t :=
  DB.with_schedules (insert_one (Schedule_of new_id now schedule)) db.

(** The request with its start replaced by another instant. *)
Definition with_date (d : datetime.t) (schedule : ScheduleCreate.t)
  : ScheduleCreate.t :=
  ScheduleCreate.mk (ScheduleCreate.course_id schedule) d
    (ScheduleCreate.duration_minutes schedule).

(** The end of the interval a stored schedule covers. *)
Definition schedule_end (s : Schedule.t) : Z :=
  Schedule.date s + Schedule.duration_minutes s * datetime.minute.

(** Two stored schedules cover overlapping [start, end) intervals. *)
Definition overlap (a b : Schedule.t) : bool :=
  (Schedule.date a <? schedule_end b) && (Schedule.date b <? schedule_end a).

(** The number the daily check compares with 3: among the first 1000
    schedules found for the day, those whose course has the type. *)
Definition day_count (db : DB.t) (tid : string) (day_start day_end : datetime.t)
    (ty : CourseType.t) : nat :=
  List.length (filter (of_type db ty) (firstn 1000 (booked db tid day_start day_end))).

(** The request names a course whose teacher exists, and the caller passes
    the role and ownership gates of [create_schedule]. *)
Record bookable (db : DB.t) (cu : User.t) (schedule : ScheduleCreate.t)
    (course : Course.t) : Prop := {
  bk_course : course_by_id db (ScheduleCreate.course_id schedule) = Some course;
  bk_teacher : teacher_by_id db (Course.teacher_id course) <> None;
  bk_staff : staff_of_course db cu course }.

(** ** A teacher's week, for the scheduling scenarios *)

Module SampleSchedules.
Import Sample.
Definition parking_course : Course.t :=
  Course.mk CourseType.PARKING "s1" "t1" "sc1" CourseStatus.COMPLETED
    None None "cp" 0 None.
Definition road_course : Course.t :=
  Course.mk CourseType.ROAD "s1" "t1" "sc1" CourseStatus.IN_PROGRESS
    None None "cr" 0 None.
Definition code_course : Course.t :=
  Course.mk CourseType.CODE "s1" "t1" "sc1" CourseStatus.COMPLETED
    None None "cc" 0 (Some "https://meet.google.com/tok").
(** Teacher [t1] with a code, a parking and a road course, and the given
    schedules. *)
Definition db_with (l : list Schedule.t) : DB.t :=
  DB.mk (DB.users db0) (DB.driving_schools db0) (DB.teachers db0)
    [code_course; parking_course; road_course] l [] [].

(** A two-hour parking lesson from 09:00. *)
Definition long_lesson : Schedule.t := Schedule.mk "cp" (at_ 9 0) 120 "x1" 0.
(** An hour of parking from 10:30. *)
Definition half_past : Schedule.t := Schedule.mk "cp" (at_ 10 30) 60 "x1" 0.
(** Half an hour of parking from 10:00. *)
Definition short_lesson : Schedule.t := Schedule.mk "cp" (at_ 10 0) 30 "x1" 0.
(** An hour of parking from 10:00. *)
Definition hour_lesson : Schedule.t := Schedule.mk "cp" (at_ 10 0) 60 "x1" 0.
(** [n] code lessons at 10:15. *)
Definition code_lessons (n : nat) : list Schedule.t :=
  repeat (Schedule.mk "cc" (at_ 10 15) 60 "y" 0) n.

Definition book (cid : string) (h m dur : Z) : ScheduleCreate.t :=
  ScheduleCreate.mk cid (at_ h m) dur.
(** The manager books two lessons, one after the other. *)
Definition two_bookings (a b : ScheduleCreate.t) : M (Schedule.t * Schedule.t) :=
  x <- create_schedule "x1" 0 a manager ;;
  y <- create_schedule "x2" 0 b manager ;;
  ret (x, y).
End SampleSchedules.

(** The error kind Forbidden: an [HTTPException] with status 403. *)
Definition forbidden (e : exn) : bool :=
  match e with
  | HTTPException 403 _ => true
  | _ => false
  end.

Module SampleDated.
Import Sample.
(** An enrollment request that carries both dates. *)
Definition dated_request : CourseCreate.t :=
  CourseCreate.mk CourseType.CODE "s1" "t1" "sc1" CourseStatus.NOT_STARTED
    (Some (at_ 8 0)) (Some (at_ 18 0)).
End SampleDated.

(** ** Vocabulary for the daily cap *)

(** The schedule belongs to a course of the teacher, of the given type,
    and its stored start lies in [lo, hi). *)
Definition on_day (db : DB.t) (tid : string) (ty : CourseType.t)
    (lo hi : datetime.t) (s : Schedule.t) : bool :=
  (lo <=? Schedule.date s) && (Schedule.date s <? hi)
  && match course_by_id db (Schedule.course_id s) with
     | Some c =>
         String.eqb (Course.teacher_id c) tid && CourseType.eqb (Course.type c) ty
     | None => false
     end.

(** All the schedules a teacher holds on a day for courses of a type. *)
Definition day_schedules_of (db : DB.t) (tid : string) (ty : CourseType.t)
    (lo hi : datetime.t) : list Schedule.t :=
  filter (on_day db tid ty lo hi) (DB.schedules db).

(** At most 3 parking and at most 3 road schedules per teacher and
    calendar day. *)
Definition daily_cap (db : DB.t) : Prop :=
  forall tid ty midnight,
    ty <> CourseType.CODE ->
    midnight mod datetime.day = 0 ->
    (List.length (day_schedules_of db tid ty midnight (midnight + datetime.day)%Z)
     <= 3)%nat.

(** The courses of a teacher, all of them. *)
Definition courses_of_teacher (db : DB.t) (tid : string) : list Course.t :=
  filter (fun c => String.eqb (Course.teacher_id c) tid) (DB.courses db).

(** ** A teacher with 1001 parking courses *)

Module SampleBusy.
Import Sample.
Definition num (n : nat) : string := NilEmpty.string_of_uint (Nat.to_uint n).

(** 1001 students, [st0] ... [st1000], and the staff of the school. *)
Definition student_no (n : nat) : User.t :=
  User.mk ("st" ++ num n) UserRole.STUDENT Gender.MALE.
Definition db_start : DB.t :=
  DB.mk (map student_no (seq 0 1001) ++ [teacher_user; teacher_user2; manager])%list
    [school] [teacher; teacher2] [] [] [] [].

(** Student [n] takes the code course with teacher [t2], passes its exam
    and enrolls in parking with teacher [t1]. *)
Definition code_request (n : nat) : CourseCreate.t :=
  CourseCreate.mk CourseType.CODE ("st" ++ num n) "t2" "sc1"
    CourseStatus.NOT_STARTED None None.
Definition parking_request (n : nat) : CourseCreate.t :=
  CourseCreate.mk CourseType.PARKING ("st" ++ num n) "t1" "sc1"
    CourseStatus.NOT_STARTED None None.
Definition student_path (n : nat) : M unit :=
  c <- create_course (Fresh.mk ("c" ++ num n) 0 ("tok" ++ num n) ("pc" ++ num n) 0)
         (code_request n) manager ;;
  create_exam ("e" ++ num n) 0
    (ExamCreate.mk (Course.id c) (at_ 9 0) ExamStatus.SCHEDULED) manager ;;;
  update_exam ("e" ++ num n) ExamStatus.PASSED None None manager ;;;
  create_course (Fresh.mk ("k" ++ num n) 0 ("tok" ++ num n) ("pk" ++ num n) 0)
    (parking_request n) manager ;;;
  ret tt.
Definition career : M unit :=
  for_each (seq 0 1001) (fun _ n => student_path n) tt.

(** The database those calls build: teacher [t1] has the parking courses
    [k0] ... [k1000], in this order. *)
Definition code_no (n : nat) : Course.t :=
  Course.mk CourseType.CODE ("st" ++ num n) "t2" "sc1" CourseStatus.COMPLETED
    None None ("c" ++ num n) 0 (Some ("https://meet.google.com/tok" ++ num n)).
Definition course_no (n : nat) : Course.t :=
  Course.mk CourseType.PARKING ("st" ++ num n) "t1" "sc1" CourseStatus.NOT_STARTED
    None None ("k" ++ num n) 0 None.
Definition exam_no (n : nat) : Exam.t :=
  Exam.mk ("c" ++ num n) (at_ 9 0) ExamStatus.PASSED ("e" ++ num n) 0 None None.
Definition db_busy : DB.t :=
  DB.mk (DB.users db_start) [school] [teacher; teacher2]
    (flat_map (fun n => [code_no n; course_no n]) (seq 0 1001))
    []
    (map exam_no (seq 0 1001))
    (flat_map
       (fun n => [Payment.mk ("c" ++ num n) 7000 PaymentStatus.PENDING
                    ("pc" ++ num n) 0 None;
                  Payment.mk ("k" ++ num n) 15000 PaymentStatus.PENDING
                    ("pk" ++ num n) 0 None])
       (seq 0 1001)).

(** Four one-hour lessons of one course on the same day, 09:00 to 12:00. *)
Definition four_lessons (cid : string) : M unit :=
  create_schedule "x1" 0 (ScheduleCreate.mk cid (at_ 9 0) 60) manager ;;;
  create_schedule "x2" 0 (ScheduleCreate.mk cid (at_ 10 0) 60) manager ;;;
  create_schedule "x3" 0 (ScheduleCreate.mk cid (at_ 11 0) 60) manager ;;;
  create_schedule "x4" 0 (ScheduleCreate.mk cid (at_ 12 0) 60) manager ;;;
  ret tt.
End SampleBusy.

(** * The remaining handlers over the same collections *)

(** ** create_payment *)

Module PaymentCreate.
Record t := mk { course_id : string; amount : Z; status : PaymentStatus.t }.
End PaymentCreate.

Definition NotOwnPaymentCreate :=
  HTTPException 403 "You can only create payments for your own courses".

Definition create_payment (new_id : string) (now : datetime.t)
    (token_hex : string) (payment : PaymentCreate.t) (current_user : User.t)
  : M Payment.t :=
  (* Verify the course exists *)
  course <- find_one DB.courses
              (fun c => String.eqb (Course.id c) (PaymentCreate.course_id payment)) ;;
  course <- match course with
            | Some c => ret c
            | None => raise InvalidCourse
            end ;;
  (* Only the student associated with the course or admins *)
  raise_if (negb (is_admin (User.role current_user))
            && negb (String.eqb (User.id current_user) (Course.student_id course)))
    NotOwnPaymentCreate ;;;
  (* Create new payment *)
  let new_payment :=
    Payment.mk (PaymentCreate.course_id payment) (PaymentCreate.amount payment)
      (PaymentCreate.status payment) new_id now (Some ("TXN-" ++ token_hex)) in
  modify (DB.with_payments (insert_one new_payment)) ;;;
  ret new_payment.

(** ** The list handlers *)

(** Truth value of an optional string parameter: [None] and the empty
    string are false. *)
Definition truthy (o : option string) : bool :=
  match o with
  | None => false
  | Some s => negb (String.eqb s EmptyString)
  end.

(** The value of a truthy parameter overrides; a falsy one leaves the key
    as it is. *)
Definition set_if_truthy (o : option string) (old : option string) : option string :=
  if truthy o then o else old.

(** A filter document over the courses: an absent key does not
    constrain. *)
Module CourseQuery.
Record t := mk {
  student_id : option string;
  teacher_id : option string;
  driving_school_id : option string;
  type : option CourseType.t;
  status : option CourseStatus.t }.
Definition empty : t := mk None None None None None.
(** [if query:] *)
Definition nonempty (q : t) : bool :=
  match student_id q, teacher_id q, driving_school_id q, type q, status q with
  | None, None, None, None, None => false
  | _, _, _, _, _ => true
  end.
Definition key_matches (k : option string) (v : string) : bool :=
  match k with None => true | Some x => String.eqb v x end.
Definition matches (q : t) (c : Course.t) : bool :=
  key_matches (student_id q) (Course.student_id c)
  && key_matches (teacher_id q) (Course.teacher_id c)
  && key_matches (driving_school_id q) (Course.driving_school_id c)
  && match type q with None => true | Some x => CourseType.eqb (Course.type c) x end
  && match status q with
     | None => true
     | Some x => CourseStatus.eqb (Course.status c) x
     end.
End CourseQuery.

(** The value stored under ["course_id"] in the filter of the dependent
    collections: absent, a single id, or [{"$in": ids}]. *)
Inductive course_id_filter :=
| AnyCourse
| CourseIs (i : string)
| CourseIn (ids : list string).

Definition course_id_matches (f : course_id_filter) (i : string) : bool :=
  match f with
  | AnyCourse => true
  | CourseIs x => String.eqb i x
  | CourseIn ids => mem i ids
  end.

(** [current_user.role in [STUDENT, TEACHER, MANAGER]] *)
Definition scoped_role (r : UserRole.t) : bool :=
  match r with
  | UserRole.STUDENT | UserRole.TEACHER | UserRole.MANAGER => true
  | UserRole.ADMIN => false
  end.

(** The part the three dependent list handlers share: the keys the
    caller's role puts into [course_query], on top of those taken from the
    parameters. *)
Definition restrict_by_role (current_user : User.t) (course_query : CourseQuery.t)
  : M CourseQuery.t :=
  match User.role current_user with
  | UserRole.STUDENT =>
      ret (CourseQuery.mk (Some (User.id current_user))
             (CourseQuery.teacher_id course_query)
             (CourseQuery.driving_school_id course_query)
             (CourseQuery.type course_query) (CourseQuery.status course_query))
  | UserRole.TEACHER =>
      teacher <- find_one DB.teachers
                   (fun x => String.eqb (Teacher.user_id x) (User.id current_user)) ;;
      match teacher with
      | Some x =>
          ret (CourseQuery.mk (CourseQuery.student_id course_query)
                 (Some (Teacher.id x))
                 (CourseQuery.driving_school_id course_query)
                 (CourseQuery.type course_query) (CourseQuery.status course_query))
      | None => ret course_query
      end
  | UserRole.MANAGER =>
      school <- find_one DB.driving_schools
                  (fun x => String.eqb (DrivingSchool.manager_id x) (User.id current_user)) ;;
      match school with
      | Some x =>
          ret (CourseQuery.mk (CourseQuery.student_id course_query)
                 (CourseQuery.teacher_id course_query)
                 (Some (DrivingSchool.id x))
                 (CourseQuery.type course_query) (CourseQuery.status course_query))
      | None => ret course_query
      end
  | UserRole.ADMIN => ret course_query
  end.

(** [get_courses] *)
Definition get_courses (student_id teacher_id driving_school_id : option string)
    (type : option CourseType.t) (status : option CourseStatus.t)
    (current_user : User.t) : M (list Course.t) :=
  (* Students can only see their own courses *)
  let q_student :=
    match User.role current_user with
    | UserRole.STUDENT => Some (User.id current_user)
    | _ => set_if_truthy student_id None
    end in
  (* Teachers can only see their own courses *)
  q_teacher <-
    match User.role current_user with
    | UserRole.TEACHER =>
        teacher <- find_one DB.teachers
                     (fun x => String.eqb (Teacher.user_id x) (User.id current_user)) ;;
        ret (match teacher with Some x => Some (Teacher.id x) | None => None end)
    | _ => ret (set_if_truthy teacher_id None)
    end ;;
  (* Managers can only see courses from their driving school *)
  q_school <-
    match User.role current_user with
    | UserRole.MANAGER =>
        school <- find_one DB.driving_schools
                    (fun x => String.eqb (DrivingSchool.manager_id x)
                                (User.id current_user)) ;;
        ret (match school with Some x => Some (DrivingSchool.id x) | None => None end)
    | _ => ret (set_if_truthy driving_school_id None)
    end ;;
  let query := CourseQuery.mk q_student q_teacher q_school type status in
  find_to_list DB.courses (CourseQuery.matches query) 1000.

(** The step the three dependent list handlers share: resolve
    [course_query] to course ids and decide between the early empty answer
    and the filter to use. [None] stands for [return []]. *)
Definition resolve_courses (by_param : bool) (current_user : User.t)
    (course_query : CourseQuery.t) (from_param : course_id_filter)
  : M (option course_id_filter) :=
  if CourseQuery.nonempty course_query then
    courses <- find_to_list DB.courses (CourseQuery.matches course_query) 1000 ;;
    let course_ids := map Course.id courses in
    match course_ids with
    | [] =>
        if by_param || scoped_role (User.role current_user)
        then ret None
        else ret (Some from_param)
    | _ :: _ => ret (Some (CourseIn course_ids))
    end
  else ret (Some from_param).

(** [date_query]: the bounds given. *)
Definition date_matches (start_date end_date : option datetime.t) (d : datetime.t)
  : bool :=
  match start_date with None => true | Some lo => lo <=? d end
  && match end_date with None => true | Some hi => d <? hi end.

(** [get_schedules] *)
Definition get_schedules (course_id student_id teacher_id : option string)
    (start_date end_date : option datetime.t) (current_user : User.t)
  : M (list Schedule.t) :=
  let from_param :=
    match course_id with
    | Some i => if truthy course_id then CourseIs i else AnyCourse
    | None => AnyCourse
    end in
  let course_query :=
    CourseQuery.mk (set_if_truthy student_id None) (set_if_truthy teacher_id None)
      None None None in
  course_query <- restrict_by_role current_user course_query ;;
  f <- resolve_courses (truthy student_id || truthy teacher_id) current_user
         course_query from_param ;;
  match f with
  | None => ret []
  | Some f =>
      find_to_list DB.schedules
        (fun s => course_id_matches f (Schedule.course_id s)
                  && date_matches start_date end_date (Schedule.date s))
        1000
  end.

(** [get_exams] *)
Definition exam_status_eqb (a b : ExamStatus.t) : bool :=
  match a, b with
  | ExamStatus.SCHEDULED, ExamStatus.SCHEDULED
  | ExamStatus.PASSED, ExamStatus.PASSED
  | ExamStatus.FAILED, ExamStatus.FAILED => true
  | _, _ => false
  end.

Definition get_exams (course_id student_id : option string)
    (status : option ExamStatus.t) (current_user : User.t) : M (list Exam.t) :=
  let from_param :=
    match course_id with
    | Some i => if truthy course_id then CourseIs i else AnyCourse
    | None => AnyCourse
    end in
  let course_query :=
    CourseQuery.mk (set_if_truthy student_id None) None None None None in
  course_query <- restrict_by_role current_user course_query ;;
  f <- resolve_courses (truthy student_id) current_user course_query from_param ;;
  match f with
  | None => ret []
  | Some f =>
      find_to_list DB.exams
        (fun x => course_id_matches f (Exam.course_id x)
                  && match status with
                     | None => true
                     | Some st => exam_status_eqb (Exam.status x) st
                     end)
        1000
  end.

(** [get_payments] *)
Definition payment_status_eqb (a b : PaymentStatus.t) : bool :=
  match a, b with
  | PaymentStatus.PENDING, PaymentStatus.PENDING
  | PaymentStatus.COMPLETED, PaymentStatus.COMPLETED
  | PaymentStatus.FAILED, PaymentStatus.FAILED
  | PaymentStatus.REFUNDED, PaymentStatus.REFUNDED => true
  | _, _ => false
  end.

Definition get_payments (course_id student_id : option string)
    (status : option PaymentStatus.t) (current_user : User.t)
  : M (list Payment.t) :=
  let from_param :=
    match course_id with
    | Some i => if truthy course_id then CourseIs i else AnyCourse
    | None => AnyCourse
    end in
  let course_query :=
    CourseQuery.mk (set_if_truthy student_id None) None None None None in
  course_query <- restrict_by_role current_user course_query ;;
  f <- resolve_courses (truthy student_id) current_user course_query from_param ;;
  match f with
  | None => ret []
  | Some f =>
      find_to_list DB.payments
        (fun x => course_id_matches f (Payment.course_id x)
                  && match status with
                     | None => true
                     | Some st => payment_status_eqb (Payment.status x) st
                     end)
        1000
  end.

(** ** Vocabulary for the list handlers *)

(** Some course with this id belongs to the student (the teacher, the
    school). *)
Definition course_of_student (db : DB.t) (sid : string) (cid : string) : Prop :=
  exists c, In c (DB.courses db) /\ Course.id c = cid /\ Course.student_id c = sid.
Definition course_of_teacher (db : DB.t) (tid : string) (cid : string) : Prop :=
  exists c, In c (DB.courses db) /\ Course.id c = cid /\ Course.teacher_id c = tid.
Definition course_of_school (db : DB.t) (scid : string) (cid : string) : Prop :=
  exists c, In c (DB.courses db) /\ Course.id c = cid
            /\ Course.driving_school_id c = scid.

Definition school_by_manager (db : DB.t) (i : string) : option DrivingSchool.t :=
  find (fun x => String.eqb (DrivingSchool.manager_id x) i) (DB.driving_schools db).

(** The caller's listings are scoped: a student, a teacher with a teacher
    record, or a manager with a school. *)
Inductive scope (db : DB.t) (cu : User.t) : (string -> Prop) -> Prop :=
| scope_student :
    User.role cu = UserRole.STUDENT ->
    scope db cu (course_of_student db (User.id cu))
| scope_teacher t :
    User.role cu = UserRole.TEACHER ->
    teacher_by_user_id db (User.id cu) = Some t ->
    scope db cu (course_of_teacher db (Teacher.id t))
| scope_manager sc :
    User.role cu = UserRole.MANAGER ->
    school_by_manager db (User.id cu) = Some sc ->
    scope db cu (course_of_school db (DrivingSchool.id sc)).

(** A caller whose listings are not scoped at all: an admin, a teacher
    without a teacher record, a manager without a school. *)
Definition unscoped (db : DB.t) (cu : User.t) : Prop :=
  User.role cu = UserRole.ADMIN
  \/ (User.role cu = UserRole.TEACHER /\ teacher_by_user_id db (User.id cu) = None)
  \/ (User.role cu = UserRole.MANAGER /\ school_by_manager db (User.id cu) = None).

(** The filter [get_courses] ends up with. *)
Definition courses_filter (db : DB.t)
    (student_id teacher_id driving_school_id : option string)
    (type : option CourseType.t) (status : option CourseStatus.t)
    (cu : User.t) : CourseQuery.t :=
  CourseQuery.mk
    (match User.role cu with
     | UserRole.STUDENT => Some (User.id cu)
     | _ => set_if_truthy student_id None
     end)
    (match User.role cu with
     | UserRole.TEACHER =>
         match teacher_by_user_id db (User.id cu) with
         | Some x => Some (Teacher.id x)
         | None => None
         end
     | _ => set_if_truthy teacher_id None
     end)
    (match User.role cu with
     | UserRole.MANAGER =>
         match school_by_manager db (User.id cu) with
         | Some x => Some (DrivingSchool.id x)
         | None => None
         end
     | _ => set_if_truthy driving_school_id None
     end)
    type status.

(** [course_query] after the role step, and the outcome of resolving it,
    as functions of the database. *)
Definition role_query (db : DB.t) (cu : User.t) (q : CourseQuery.t) : CourseQuery.t :=
  match User.role cu with
  | UserRole.STUDENT =>
      CourseQuery.mk (Some (User.id cu)) (CourseQuery.teacher_id q)
        (CourseQuery.driving_school_id q) (CourseQuery.type q) (CourseQuery.status q)
  | UserRole.TEACHER =>
      match teacher_by_user_id db (User.id cu) with
      | Some x =>
          CourseQuery.mk (CourseQuery.student_id q) (Some (Teacher.id x))
            (CourseQuery.driving_school_id q) (CourseQuery.type q)
            (CourseQuery.status q)
      | None => q
      end
  | UserRole.MANAGER =>
      match school_by_manager db (User.id cu) with
      | Some x =>
          CourseQuery.mk (CourseQuery.student_id q) (CourseQuery.teacher_id q)
            (Some (DrivingSchool.id x)) (CourseQuery.type q) (CourseQuery.status q)
      | None => q
      end
  | UserRole.ADMIN => q
  end.

Definition resolved (db : DB.t) (by_param : bool) (cu : User.t)
    (q : CourseQuery.t) (from_param : course_id_filter) : option course_id_filter :=
  if CourseQuery.nonempty q then
    match map Course.id (firstn 1000 (filter (CourseQuery.matches q) (DB.courses db))) with
    | [] => if by_param || scoped_role (User.role cu) then None else Some from_param
    | i :: ids => Some (CourseIn (i :: ids))
    end
  else Some from_param.

(** The filter a [course_id] parameter stands for. *)
Definition param_filter (course_id : option string) : course_id_filter :=
  match course_id with
  | Some i => if truthy course_id then CourseIs i else AnyCourse
  | None => AnyCourse
  end.

(** The filter the three dependent list handlers end up with ([None]: the
    early empty answer). *)
Definition listing_filter (db : DB.t) (course_id student_id teacher_id : option string)
    (cu : User.t) : option course_id_filter :=
  resolved db (truthy student_id || truthy teacher_id) cu
    (role_query db cu
       (CourseQuery.mk (set_if_truthy student_id None) (set_if_truthy teacher_id None)
          None None None))
    (param_filter course_id).

(** ** Two students with one course each, for the listings *)

Module SampleListing.
Import Sample.
Definition student4 := User.mk "s4" UserRole.STUDENT Gender.MALE.
(** A user with role teacher for whom no teacher record was created. *)
Definition new_teacher_user := User.mk "u9" UserRole.TEACHER Gender.MALE.
Definition course_a : Course.t :=
  Course.mk CourseType.PARKING "s1" "t1" "sc1" CourseStatus.IN_PROGRESS
    None None "ca" 0 None.
Definition course_b : Course.t :=
  Course.mk CourseType.PARKING "s4" "t2" "sc1" CourseStatus.IN_PROGRESS
    None None "cb" 0 None.
Definition schedule_a := Schedule.mk "ca" (at_ 9 0) 60 "xa" 0.
Definition schedule_b := Schedule.mk "cb" (at_ 10 0) 60 "xb" 0.
Definition exam_a := Exam.mk "ca" (at_ 9 0) ExamStatus.SCHEDULED "ea" 0 None None.
Definition exam_b := Exam.mk "cb" (at_ 9 0) ExamStatus.PASSED "eb" 0 (Some 17) None.
Definition payment_a := Payment.mk "ca" 15000 PaymentStatus.COMPLETED "pa" 0 None.
Definition payment_b := Payment.mk "cb" 15000 PaymentStatus.PENDING "pb" 0 None.
Definition db : DB.t :=
  DB.mk [student; student4; teacher_user; teacher_user2; new_teacher_user; manager; admin]
    [school] [teacher; teacher2] [course_a; course_b]
    [schedule_a; schedule_b] [exam_a; exam_b] [payment_a; payment_b].
End SampleListing.

(** ** Vocabulary for payments and the course lifecycle *)

(** [Payment(...)] as [create_payment] builds it. *)
Definition Payment_of (new_id : string) (now : datetime.t) (token_hex : string)
    (payment : PaymentCreate.t) : Payment.t :=
  Payment.mk (PaymentCreate.course_id payment) (PaymentCreate.amount payment)
    (PaymentCreate.status payment) new_id now (Some ("TXN-" ++ token_hex)).


(** [Exam(...)] as [create_exam] builds it. *)
Definition Exam_of (new_id : string) (now : datetime.t) (exam : ExamCreate.t)
  : Exam.t :=
  Exam.mk (ExamCreate.course_id exam) (ExamCreate.date exam)
    (ExamCreate.status exam) new_id now None None.



(** The stage that follows a course type. *)
Definition next_stage (ty ty' : CourseType.t) : Prop :=
  (ty = CourseType.CODE /\ ty' = CourseType.PARKING)
  \/ (ty = CourseType.PARKING /\ ty' = CourseType.ROAD).

(** Two databases that differ at most in the statuses of their courses
    and in their exams and payments. *)
Record status_only (db db' : DB.t) : Prop := {
  so_users : DB.users db' = DB.users db;
  so_schools : DB.driving_schools db' = DB.driving_schools db;
  so_teachers : DB.teachers db' = DB.teachers db;
  so_schedules : DB.schedules db' = DB.schedules db;
  so_courses : Forall2 same_but_status (DB.courses db) (DB.courses db') }.

(** ** Referential integrity *)

(** Every schedule, exam and payment names a stored course; every course
    names a stored teacher, a stored school and a stored user with role
    student; and every course has a payment. *)
Record integrity (db : DB.t) : Prop := {
  int_schedules :
    forall s, In s (DB.schedules db) ->
              course_by_id db (Schedule.course_id s) <> None;
  int_exams :
    forall x, In x (DB.exams db) -> course_by_id db (Exam.course_id x) <> None;
  int_payments :
    forall p, In p (DB.payments db) ->
              course_by_id db (Payment.course_id p) <> None;
  int_courses :
    forall c, In c (DB.courses db) ->
              teacher_by_id db (Course.teacher_id c) <> None
              /\ school_by_id db (Course.driving_school_id c) <> None
              /\ exists u, user_by_id db (Course.student_id c) = Some u
                           /\ User.role u = UserRole.STUDENT;
  int_paid :
    forall c, In c (DB.courses db) ->
              exists p, In p (DB.payments db) /\ Payment.course_id p = Course.id c }.

(** * Accounts, schools and teachers *)

(** The handlers below read fields of the user and school documents that
    the course handlers never touch: the e-mail address and the stored
    password hash of a user, the state and the teacher-gender flags of a
    school.  A document here is the document of the course handlers
    together with those fields. *)

Module UserDoc.
Record t := mk { user : User.t; email : string; password : string }.
Definition id (d : t) : string := User.id (user d).
End UserDoc.

Module UserCreate.
Record t := mk {
  email : string; gender : Gender.t; password : string; role : UserRole.t }.
End UserCreate.

Module SchoolDoc.
Record t := mk {
  school : DrivingSchool.t;
  state : string;
  has_female_teachers : bool;
  has_male_teachers : bool }.
Definition id (d : t) : string := DrivingSchool.id (school d).
(** [{"$set": {"has_male_teachers": True}}] *)
Definition set_has_male_teachers (d : t) : t :=
  mk (school d) (state d) (has_female_teachers d) true.
(** [{"$set": {"has_female_teachers": True}}] *)
Definition set_has_female_teachers (d : t) : t :=
  mk (school d) (state d) true (has_male_teachers d).
End SchoolDoc.

Module DrivingSchoolCreate.
Record t := mk {
  state : string;
  price_code : Z; price_parking : Z; price_road : Z;
  has_female_teachers : bool; has_male_teachers : bool;
  manager_id : string }.
End DrivingSchoolCreate.

Module TeacherCreate.
Record t := mk {
  driving_school_id : string; gender : Gender.t; user_id : string }.
End TeacherCreate.

(** The three collections these handlers use. *)
Module Registry.
Record t := mk {
  users : list UserDoc.t;
  driving_schools : list SchoolDoc.t;
  teachers : list Teacher.t }.
Definition with_users (f : list UserDoc.t -> list UserDoc.t) (r : t) : t :=
  mk (f (users r)) (driving_schools r) (teachers r).
Definition with_driving_schools (f : list SchoolDoc.t -> list SchoolDoc.t) (r : t)
  : t :=
  mk (users r) (f (driving_schools r)) (teachers r).
Definition with_teachers (f : list Teacher.t -> list Teacher.t) (r : t) : t :=
  mk (users r) (driving_schools r) (f (teachers r)).
(** The database the course handlers see: the same three collections,
    each document cut down to their fields, beside the four collections
    of [rest]. *)
Definition to_db (r : t) (rest : DB.t) : DB.t :=
  DB.mk (map UserDoc.user (users r)) (map SchoolDoc.school (driving_schools r))
    (teachers r) (DB.courses rest) (DB.schedules rest) (DB.exams rest)
    (DB.payments rest).
End Registry.

Definition EmailRegistered := HTTPException 400 "Email already registered".
Definition BadCredentials := HTTPException 401 "Incorrect username or password".
Definition CredentialsError := HTTPException 401 "Could not validate credentials".
Definition OnlyManagersCreateSchools :=
  HTTPException 403 "Only managers and admins can create driving schools".
Definition OnlyManagersCreateTeachers :=
  HTTPException 403 "Only managers and admins can create teachers".
Definition InvalidTeacherUser :=
  HTTPException 400 "Invalid user_id or user is not a teacher".
Definition SchoolNotFound := HTTPException 404 "Driving school not found".

(** ** Registration and authentication *)

(** [await db.users.find_one({"email": email})] *)
Definition user_doc_by_email (r : Registry.t) (email : string) : option UserDoc.t :=
  find (fun d => String.eqb (UserDoc.email d) email) (Registry.users r).
(** [await db.users.find_one({"id": i})] *)
Definition user_doc_by_id (r : Registry.t) (i : string) : option UserDoc.t :=
  find (fun d => String.eqb (UserDoc.id d) i) (Registry.users r).
(** [await db.driving_schools.find_one({"id": i})] *)
Definition school_doc_by_id (r : Registry.t) (i : string) : option SchoolDoc.t :=
  find (fun d => String.eqb (SchoolDoc.id d) i) (Registry.driving_schools r).

Definition get_user_by_email (r : Registry.t) (email : string) : option User.t :=
  match user_doc_by_email r email with
  | Some user_doc => Some (UserDoc.user user_doc)
  | None => None
  end.

(** [register_user]; [new_id] is what [uuid4] returns and
    [hashed_password] what [get_password_hash] returns for the password
    of the request. *)
Definition register_user (new_id : string) (hashed_password : string)
    (user : UserCreate.t) (r : Registry.t) : outcome User.t * Registry.t :=
  (* Check if user already exists *)
  match get_user_by_email r (UserCreate.email user) with
  | Some _ => (Raise EmailRegistered, r)
  | None =>
      (* Create new user *)
      let new_user := User.mk new_id (UserCreate.role user) (UserCreate.gender user) in
      let user_doc := UserDoc.mk new_user (UserCreate.email user) hashed_password in
      (Return new_user, Registry.with_users (insert_one user_doc) r)
  end.

(** The string a role is stored and sent as. *)
Definition role_value (r : UserRole.t) : string :=
  match r with
  | UserRole.STUDENT => "student"
  | UserRole.TEACHER => "teacher"
  | UserRole.MANAGER => "manager"
  | UserRole.ADMIN => "admin"
  end.

(** The payload of an access token, as far as the handlers read it. *)
Module Claims.
Record t := mk { sub : option string; role : option string }.
End Claims.

Module Token.
Record t := mk {
  access_token : string; token_type : string; user_id : string; role : string }.
End Token.

Section Auth.
(** [verify_password plain hashed], which answers or raises as passlib's
    [verify] does (a password with a NUL byte, a hash it cannot
    identify); the token a payload is encoded to (expiry included); and
    the payload a token decodes to, [None] where [jwt.decode] raises
    [JWTError]. *)
Variable verify_password : string -> string -> outcome bool.
Variable create_access_token : Claims.t -> string.
Variable jwt_decode : string -> option Claims.t.

(** [authenticate_user]: [None] stands for [False]; what
    [verify_password] raises is not caught. *)
Definition authenticate_user (email password : string) (r : Registry.t)
  : outcome (option User.t) :=
  match get_user_by_email r email with
  | None => Return None
  | Some user =>
      match user_doc_by_email r email with
      | None => Raise TypeError
      | Some user_doc =>
          match verify_password password (UserDoc.password user_doc) with
          | Raise e => Raise e
          | Return verified =>
              if negb verified then Return None else Return (Some user)
          end
      end
  end.

Definition login_for_access_token (username password : string) (r : Registry.t)
  : outcome Token.t :=
  match authenticate_user username password r with
  | Raise e => Raise e
  | Return None => Raise BadCredentials
  | Return (Some user) =>
      let access_token :=
        create_access_token
          (Claims.mk (Some (User.id user)) (Some (role_value (User.role user)))) in
      Return (Token.mk access_token "bearer" (User.id user)
                (role_value (User.role user)))
  end.

Definition get_current_user (token : string) (r : Registry.t) : outcome User.t :=
  match jwt_decode token with
  | None => Raise CredentialsError
  | Some payload =>
      match Claims.sub payload, Claims.role payload with
      | Some user_id, Some _ =>
          match user_doc_by_id r user_id with
          | None => Raise CredentialsError
          | Some user_doc => Return (UserDoc.user user_doc)
          end
      | _, _ => Raise CredentialsError
      end
  end.
End Auth.

(** ** Schools *)

(** The school document built from the fields of the request. *)
Definition DrivingSchool_of (new_id : string) (school : DrivingSchoolCreate.t)
  : SchoolDoc.t :=
  SchoolDoc.mk
    (DrivingSchool.mk new_id (DrivingSchoolCreate.manager_id school)
       (DrivingSchoolCreate.price_code school)
       (DrivingSchoolCreate.price_parking school)
       (DrivingSchoolCreate.price_road school))
    (DrivingSchoolCreate.state school)
    (DrivingSchoolCreate.has_female_teachers school)
    (DrivingSchoolCreate.has_male_teachers school).

Definition create_driving_school (new_id : string) (school : DrivingSchoolCreate.t)
    (current_user : User.t) (r : Registry.t) : outcome SchoolDoc.t * Registry.t :=
  if negb (is_manager (User.role current_user))
     && negb (is_admin (User.role current_user))
  then (Raise OnlyManagersCreateSchools, r)
  else
    (* Create new driving school *)
    let new_school := DrivingSchool_of new_id school in
    (Return new_school, Registry.with_driving_schools (insert_one new_school) r).

Definition get_driving_schools (state : option string) (r : Registry.t)
  : list SchoolDoc.t :=
  let query (d : SchoolDoc.t) :=
    if truthy state then CourseQuery.key_matches state (SchoolDoc.state d)
    else true in
  firstn 1000 (filter query (Registry.driving_schools r)).

Definition get_driving_school (school_id : string) (r : Registry.t)
  : outcome SchoolDoc.t :=
  match school_doc_by_id r school_id with
  | None => Raise SchoolNotFound
  | Some school => Return school
  end.

(** ** Teachers *)

(** The teacher document built from the fields of the request. *)
Definition Teacher_of (new_id : string) (teacher : TeacherCreate.t) : Teacher.t :=
  Teacher.mk new_id (TeacherCreate.user_id teacher)
    (TeacherCreate.driving_school_id teacher) (TeacherCreate.gender teacher).

Definition create_teacher (new_id : string) (teacher : TeacherCreate.t)
    (current_user : User.t) (r : Registry.t) : outcome Teacher.t * Registry.t :=
  if negb (is_manager (User.role current_user))
     && negb (is_admin (User.role current_user))
  then (Raise OnlyManagersCreateTeachers, r)
  else
    (* Verify the user exists and is a teacher *)
    match user_doc_by_id r (TeacherCreate.user_id teacher) with
    | None => (Raise InvalidTeacherUser, r)
    | Some user =>
        if negb (UserRole.eqb (User.role (UserDoc.user user)) UserRole.TEACHER)
        then (Raise InvalidTeacherUser, r)
        else
          (* Verify the driving school exists *)
          match school_doc_by_id r (TeacherCreate.driving_school_id teacher) with
          | None => (Raise InvalidSchool, r)
          | Some school =>
              (* Create new teacher *)
              let new_teacher := Teacher_of new_id teacher in
              let r := Registry.with_teachers (insert_one new_teacher) r in
              (* Update driving school's teacher gender information *)
              let the_school (d : SchoolDoc.t) :=
                String.eqb (SchoolDoc.id d) (TeacherCreate.driving_school_id teacher) in
              if Gender.eqb (Teacher.gender new_teacher) Gender.MALE
                 && negb (SchoolDoc.has_male_teachers school)
              then (Return new_teacher,
                    Registry.with_driving_schools
                      (update_first the_school SchoolDoc.set_has_male_teachers) r)
              else if Gender.eqb (Teacher.gender new_teacher) Gender.FEMALE
                      && negb (SchoolDoc.has_female_teachers school)
              then (Return new_teacher,
                    Registry.with_driving_schools
                      (update_first the_school SchoolDoc.set_has_female_teachers) r)
              else (Return new_teacher, r)
          end
    end.

Definition get_teachers (driving_school_id : option string)
    (gender : option Gender.t) (r : Registry.t) : list Teacher.t :=
  let query (x : Teacher.t) :=
    (if truthy driving_school_id
     then CourseQuery.key_matches driving_school_id (Teacher.driving_school_id x)
     else true)
    && match gender with
       | Some g => Gender.eqb (Teacher.gender x) g
       | None => true
       end in
  firstn 1000 (filter query (Registry.teachers r)).

(** ** Vocabulary for the registry *)

(** No two users share an e-mail address. *)
Definition emails_distinct (r : Registry.t) : Prop :=
  NoDup (map UserDoc.email (Registry.users r)).

(** No two users share an id. *)
Definition user_ids_distinct (r : Registry.t) : Prop :=
  NoDup (map UserDoc.id (Registry.users r)).

(** Every teacher record is backed: its user is stored with role teacher,
    and its school is stored and has the flag of the teacher's gender
    set. *)
Record teachers_backed (r : Registry.t) : Prop := {
  tb_user :
    forall x, In x (Registry.teachers r) ->
      exists d, user_doc_by_id r (Teacher.user_id x) = Some d
                /\ User.role (UserDoc.user d) = UserRole.TEACHER;
  tb_school :
    forall x, In x (Registry.teachers r) ->
      exists d, school_doc_by_id r (Teacher.driving_school_id x) = Some d
                /\ (Teacher.gender x = Gender.MALE ->
                    SchoolDoc.has_male_teachers d = true)
                /\ (Teacher.gender x = Gender.FEMALE ->
                    SchoolDoc.has_female_teachers d = true) }.

(** The caller may create schools and teachers. *)
Definition may_register (cu : User.t) : Prop :=
  User.role cu = UserRole.MANAGER \/ User.role cu = UserRole.ADMIN.

(** The flag a new teacher of gender [g] sets on a school document. *)
Definition flagged (g : Gender.t) (d : SchoolDoc.t) : SchoolDoc.t :=
  match g with
  | Gender.MALE => SchoolDoc.set_has_male_teachers d
  | Gender.FEMALE => SchoolDoc.set_has_female_teachers d
  | Gender.OTHER => d
  end.

Module SampleRegistry.
Definition doc (u : User.t) (email : string) : UserDoc.t :=
  UserDoc.mk u email ("hash:" ++ email).
Definition school_doc : SchoolDoc.t :=
  SchoolDoc.mk Sample.school "Alger" false true.
Definition registry : Registry.t :=
  Registry.mk
    [doc Sample.student "s1@x.dz"; doc Sample.student_f "s2@x.dz";
     doc Sample.teacher_user "u1@x.dz"; doc Sample.teacher_user2 "u2@x.dz";
     doc Sample.manager "m1@x.dz"; doc Sample.admin "a1@x.dz"]
    [school_doc] [Sample.teacher].
(** The password contains a NUL byte. *)
Fixpoint has_nul (s : string) : bool :=
  match s with
  | EmptyString => false
  | String c rest => Ascii.eqb c Ascii.zero || has_nul rest
  end.
(** A password verifies against the hash made of it; one with a NUL byte
    is refused with an exception, as passlib refuses it. *)
Definition verify (plain hashed : string) : outcome bool :=
  if has_nul plain then Raise ValueError
  else Return (String.eqb hashed ("hash:" ++ plain)).
(** The password made of the one character NUL. *)
Definition nul_password : string := String Ascii.zero EmptyString.
Definition encode (c : Claims.t) : string :=
  match Claims.sub c with Some i => "jwt:" ++ i | None => "jwt" end.
Definition decode (token : string) : option Claims.t :=
  if String.eqb token "jwt:a1"
  then Some (Claims.mk (Some "a1") (Some "admin"))
  else None.
End SampleRegistry.

(** * Lemmas *)

(** Unfold a handler and run it as far as the lookups recorded in the
    context allow. *)
Ltac use_lookups :=
  repeat match goal with
         | H : find _ _ = _ |- _ => rewrite H; cbn
         | H : UserRole.eqb _ _ = _ |- _ => rewrite H; cbn
         | H : User.role _ = _ |- _ => rewrite H; cbn
         | H : not_staff _ = _ |- _ => rewrite H; cbn
         | H : not_own_course _ _ = _ |- _ => rewrite H; cbn
         end.
Ltac start_handler :=
  unfold user_by_id, teacher_by_id, teacher_by_user_id, school_by_id,
    course_by_id, exam_by_id, payment_by_id in *;
  unfold run, create_course, create_schedule, create_exam, update_exam,
    update_payment, bind, find_one, find_to_list, raise_if, ret, raise, modify;
  cbn; use_lookups.

Lemma UserRole_eqb_eq a b : UserRole.eqb a b = true <-> a = b.
Proof. destruct a, b; simpl; split; congruence. Qed.

Lemma Gender_eqb_eq a b : Gender.eqb a b = true <-> a = b.
Proof. destruct a, b; simpl; split; congruence. Qed.

Lemma Gender_eqb_neq a b : Gender.eqb a b = false <-> a <> b.
Proof. destruct a, b; simpl; split; congruence. Qed.

Lemma CourseType_eqb_eq a b : CourseType.eqb a b = true <-> a = b.
Proof. destruct a, b; simpl; split; congruence. Qed.

Lemma CourseType_eqb_refl a : CourseType.eqb a a = true.
Proof. now destruct a. Qed.

Lemma CourseStatus_eqb_eq a b : CourseStatus.eqb a b = true <-> a = b.
Proof. destruct a, b; simpl; split; congruence. Qed.

Lemma CourseStatus_eqb_neq a b : CourseStatus.eqb a b = false <-> a <> b.
Proof. destruct a, b; simpl; split; congruence. Qed.

(** The checks of [create_course] that precede the type-specific rules,
    run on resolved ids with equal genders, reach those rules. *)
Lemma create_course_gender_stage db fr course cu s t sc tu :
  resolves db course s t sc tu ->
  run (create_course fr course cu) db =
    if negb (Gender.eqb (User.gender tu) (User.gender s))
    then (Raise GenderMismatch, db)
    else
      match CourseCreate.type course with
      | CourseType.CODE =>
          match find (q_live (CourseCreate.student_id course) CourseType.CODE)
                  (DB.courses db) with
          | Some _ => (Raise (DuplicateEnrollment CourseType.CODE), db)
          | None => (Return (new_course_of fr course), enrolled fr course sc db)
          end
      | CourseType.PARKING =>
          match find (q_completed (CourseCreate.student_id course) CourseType.CODE)
                  (DB.courses db) with
          | None => (Raise (PrerequisiteNotMet CourseType.CODE CourseType.PARKING), db)
          | Some _ =>
              match find (q_live (CourseCreate.student_id course) CourseType.PARKING)
                      (DB.courses db) with
              | Some _ => (Raise (DuplicateEnrollment CourseType.PARKING), db)
              | None => (Return (new_course_of fr course), enrolled fr course sc db)
              end
          end
      | CourseType.ROAD =>
          match find (q_completed (CourseCreate.student_id course) CourseType.PARKING)
                  (DB.courses db) with
          | None => (Raise (PrerequisiteNotMet CourseType.PARKING CourseType.ROAD), db)
          | Some _ =>
              match find (q_live (CourseCreate.student_id course) CourseType.ROAD)
                      (DB.courses db) with
              | Some _ => (Raise (DuplicateEnrollment CourseType.ROAD), db)
              | None => (Return (new_course_of fr course), enrolled fr course sc db)
              end
          end
      end.
Proof.
  intros [Hs Hr Ht Hsc Htu].
  unfold user_by_id, teacher_by_id, school_by_id in *.
  unfold run, create_course, bind, find_one, raise_if, ret, raise, modify.
  rewrite Hs, Hr. cbn. rewrite Ht, Hsc, Htu.
  destruct (Gender.eqb (User.gender tu) (User.gender s)); cbn; [|reflexivity].
  unfold enrolled, new_payment_of, new_course_of.
  destruct (CourseCreate.type course); cbn.
  - destruct (find (q_live _ _) _); reflexivity.
  - destruct (find (q_completed _ _) _); [|reflexivity].
    destruct (find (q_live _ _) _); reflexivity.
  - destruct (find (q_completed _ _) _); [|reflexivity].
    destruct (find (q_live _ _) _); reflexivity.
Qed.

(** ** Lists *)

Lemma find_none_iff {A} (q : A -> bool) (l : list A) :
  find q l = None <-> filter q l = [].
Proof.
  induction l as [|x l IH]; simpl; [tauto|].
  destruct (q x); [split; discriminate | exact IH].
Qed.

Lemma find_some_iff {A} (q : A -> bool) (l : list A) :
  (exists x, find q l = Some x) <-> exists x, In x l /\ q x = true.
Proof.
  split.
  - intros [x H]. exists x. now apply find_some in H.
  - intros [x [Hin Hq]]. destruct (find q l) eqn:E; [eauto|].
    apply find_none with (x := x) in E; congruence.
Qed.

Lemma q_live_spec sid ty c :
  q_live sid ty c = true <->
  Course.student_id c = sid /\ Course.type c = ty
  /\ Course.status c <> CourseStatus.FAILED.
Proof.
  unfold q_live. rewrite !andb_true_iff, negb_true_iff, String.eqb_eq,
    CourseType_eqb_eq, CourseStatus_eqb_neq. tauto.
Qed.

Lemma q_completed_spec sid ty c :
  q_completed sid ty c = true <->
  Course.student_id c = sid /\ Course.type c = ty
  /\ Course.status c = CourseStatus.COMPLETED.
Proof.
  unfold q_completed. rewrite !andb_true_iff, String.eqb_eq,
    CourseType_eqb_eq, CourseStatus_eqb_eq. tauto.
Qed.

Lemma find_live_iff db sid ty :
  (exists c, find (q_live sid ty) (DB.courses db) = Some c) <-> has_live db sid ty.
Proof.
  rewrite find_some_iff. unfold has_live.
  split; intros [c [Hin H]]; exists c; split; trivial; now apply q_live_spec.
Qed.

Lemma find_completed_iff db sid ty :
  (exists c, find (q_completed sid ty) (DB.courses db) = Some c)
  <-> has_completed db sid ty.
Proof.
  rewrite find_some_iff. unfold has_completed.
  split; intros [c [Hin H]]; exists c; split; trivial; now apply q_completed_spec.
Qed.

Lemma live_courses_nil_iff db sid ty :
  live_courses db sid ty = [] <-> ~ has_live db sid ty.
Proof.
  unfold live_courses. rewrite <- find_none_iff, <- find_live_iff.
  destruct (find _ _); split; try congruence; intros H.
  - destruct H; eauto.
  - intros [c Hc]; discriminate.
Qed.

(** ** create_course *)

(** The handler never looks at the caller. *)
Lemma create_course_ignores_caller fr course cu cu' :
  create_course fr course cu = create_course fr course cu'.
Proof. reflexivity. Qed.

(** Either the ids resolve or the handler stops in its first checks,
    before any write. *)
Lemma create_course_resolution db fr course cu :
  (exists s t sc tu, resolves db course s t sc tu)
  \/ exists e, run (create_course fr course cu) db = (Raise e, db)
               /\ (e = InvalidStudent \/ e = InvalidTeacher
                   \/ e = InvalidSchool \/ e = TypeError).
Proof.
  destruct (user_by_id db (CourseCreate.student_id course)) as [s|] eqn:Hs.
  2:{ right. exists InvalidStudent. split; [|tauto]. now start_handler. }
  destruct (UserRole.eqb (User.role s) UserRole.STUDENT) eqn:Hr.
  2:{ right. exists InvalidStudent. split; [|tauto]. now start_handler. }
  destruct (teacher_by_id db (CourseCreate.teacher_id course)) as [t|] eqn:Ht.
  2:{ right. exists InvalidTeacher. split; [|tauto]. now start_handler. }
  destruct (school_by_id db (CourseCreate.driving_school_id course))
    as [sc|] eqn:Hsc.
  2:{ right. exists InvalidSchool. split; [|tauto]. now start_handler. }
  destruct (user_by_id db (Teacher.user_id t)) as [tu|] eqn:Htu.
  2:{ right. exists TypeError. split; [|tauto]. now start_handler. }
  left. exists s, t, sc, tu. constructor; trivial.
  now apply UserRole_eqb_eq.
Qed.

(** A rejected enrollment writes nothing; an accepted one appends exactly
    the new course and its pending payment. *)
Lemma create_course_outcome db fr course cu :
  (exists e, run (create_course fr course cu) db = (Raise e, db))
  \/ exists s t sc tu,
       resolves db course s t sc tu
       /\ User.gender tu = User.gender s
       /\ prerequisite_met db (CourseCreate.student_id course)
            (CourseCreate.type course)
       /\ ~ has_live db (CourseCreate.student_id course) (CourseCreate.type course)
       /\ run (create_course fr course cu) db =
            (Return (new_course_of fr course), enrolled fr course sc db).
Proof.
  destruct (create_course_resolution db fr course cu)
    as [(s & t & sc & tu & R) | (e & He & _)]; [|eauto].
  rewrite (create_course_gender_stage db fr course cu s t sc tu R).
  destruct (Gender.eqb (User.gender tu) (User.gender s)) eqn:G; cbn [negb];
    [|eauto].
  apply Gender_eqb_eq in G.
  assert (L : forall ty, find (q_live (CourseCreate.student_id course) ty)
                           (DB.courses db) = None ->
                         ~ has_live db (CourseCreate.student_id course) ty).
  { intros ty H. rewrite <- find_live_iff. rewrite H. intros [c Hc]. discriminate. }
  assert (C : forall ty c, find (q_completed (CourseCreate.student_id course) ty)
                             (DB.courses db) = Some c ->
                           has_completed db (CourseCreate.student_id course) ty).
  { intros ty c H. apply find_completed_iff. eauto. }
  destruct (CourseCreate.type course) eqn:Ety.
  - destruct (find (q_live _ _) _) eqn:F; [eauto|].
    right. exists s, t, sc, tu. repeat (split; [solve [simpl; eauto]|]).
    reflexivity.
  - destruct (find (q_completed _ _) _) eqn:F1; [|eauto].
    destruct (find (q_live _ _) _) eqn:F2; [eauto|].
    right. exists s, t, sc, tu. repeat (split; [solve [simpl; eauto]|]).
    reflexivity.
  - destruct (find (q_completed _ _) _) eqn:F1; [|eauto].
    destruct (find (q_live _ _) _) eqn:F2; [eauto|].
    right. exists s, t, sc, tu. repeat (split; [solve [simpl; eauto]|]).
    reflexivity.
Qed.

Lemma create_course_stage_error db fr course cu s t sc tu :
  resolves db course s t sc tu ->
  User.gender tu = User.gender s ->
  fst (run (create_course fr course cu) db) <> Raise GenderMismatch.
Proof.
  intros R G.
  rewrite (create_course_gender_stage db fr course cu s t sc tu R).
  apply Gender_eqb_eq in G. rewrite G. cbn [negb].
  destruct (CourseCreate.type course);
    repeat match goal with
           | |- context [match find ?q ?l with _ => _ end] => destruct (find q l)
           end; cbn; discriminate.
Qed.

(** C8 (as amended): once the student, teacher and school ids of an
    enrollment request resolve, the request fails with GenderMismatch, and
    writes nothing, exactly when the gender of the teacher's user differs
    from the student's: whatever the course type, the courses the student
    already has, the caller or the remaining fields of the request. The
    test is plain inequality of the two genders. *)
Theorem gender_mismatch_rejected db fr course cu s t sc tu :
  resolves db course s t sc tu ->
  (User.gender tu <> User.gender s ->
   run (create_course fr course cu) db = (Raise GenderMismatch, db))
  /\ (User.gender tu = User.gender s ->
      fst (run (create_course fr course cu) db) <> Raise GenderMismatch).
Proof.
  intros R. split.
  - intros G. rewrite (create_course_gender_stage db fr course cu s t sc tu R).
    apply Gender_eqb_neq in G. now rewrite G.
  - now apply create_course_stage_error with (t := t) (sc := sc).
Qed.

Lemma gender_mismatch_rejected_witness :
  run (create_course (Sample.fresh "1") (Sample.enroll CourseType.ROAD "s3")
         Sample.student_o) Sample.db0
  = (Raise GenderMismatch, Sample.db0).
Proof.
  apply (gender_mismatch_rejected Sample.db0 (Sample.fresh "1")
           (Sample.enroll CourseType.ROAD "s3") Sample.student_o
           Sample.student_o Sample.teacher Sample.school Sample.teacher_user).
  - constructor; reflexivity.
  - discriminate.
Defined.

(** C8 (as stated) fails: a female student asks for a male teacher in a
    school that does not exist; the genders differ, yet the answer is
    "Invalid driving_school_id", not GenderMismatch. *)
Lemma gender_mismatch_after_school_check :
  user_by_id Sample.db0 "s2" = Some Sample.student_f
  /\ teacher_by_id Sample.db0 "t1" = Some Sample.teacher
  /\ user_by_id Sample.db0 (Teacher.user_id Sample.teacher)
     = Some Sample.teacher_user
  /\ User.gender Sample.teacher_user <> User.gender Sample.student_f
  /\ run (create_course (Sample.fresh "1")
            (CourseCreate.mk CourseType.CODE "s2" "t1" "no-such-school"
               CourseStatus.NOT_STARTED None None)
            Sample.student_f) Sample.db0
     = (Raise InvalidSchool, Sample.db0)
  /\ InvalidSchool <> GenderMismatch.
Proof. repeat split; try reflexivity; discriminate. Qed.

(** C2 (as amended): a parking enrollment succeeds only if the student has
    a completed code course, and a road enrollment only if the student has
    a completed parking course; when the request reaches the type-specific
    rules (ids resolved, genders equal) without that course it fails with
    PrerequisiteNotMet and writes nothing; a code enrollment asks for no
    completed course at all. *)
Theorem enrollment_prerequisite_chain db fr course cu :
  (forall c db',
      run (create_course fr course cu) db = (Return c, db') ->
      (CourseCreate.type course = CourseType.PARKING ->
       has_completed db (CourseCreate.student_id course) CourseType.CODE)
      /\ (CourseCreate.type course = CourseType.ROAD ->
          has_completed db (CourseCreate.student_id course) CourseType.PARKING))
  /\ (forall s t sc tu,
         resolves db course s t sc tu ->
         User.gender tu = User.gender s ->
         (CourseCreate.type course = CourseType.PARKING ->
          ~ has_completed db (CourseCreate.student_id course) CourseType.CODE ->
          run (create_course fr course cu) db
          = (Raise (PrerequisiteNotMet CourseType.CODE CourseType.PARKING), db))
         /\ (CourseCreate.type course = CourseType.ROAD ->
             ~ has_completed db (CourseCreate.student_id course) CourseType.PARKING ->
             run (create_course fr course cu) db
             = (Raise (PrerequisiteNotMet CourseType.PARKING CourseType.ROAD), db))
         /\ (CourseCreate.type course = CourseType.CODE ->
             ~ has_live db (CourseCreate.student_id course) CourseType.CODE ->
             run (create_course fr course cu) db
             = (Return (new_course_of fr course), enrolled fr course sc db))).
Proof.
  split.
  - intros c db' H.
    destruct (create_course_outcome db fr course cu)
      as [(e & He) | (s & t & sc & tu & _ & _ & P & _ & _)]; [congruence|].
    split; intros Ety; rewrite Ety in P; exact P.
  - intros s t sc tu R G.
    rewrite (create_course_gender_stage db fr course cu s t sc tu R).
    apply Gender_eqb_eq in G. rewrite G. cbn [negb].
    repeat split; intros Ety N; rewrite Ety.
    + destruct (find (q_completed _ _) _) eqn:F; [|reflexivity].
      exfalso. apply N, find_completed_iff. eauto.
    + destruct (find (q_completed _ _) _) eqn:F; [|reflexivity].
      exfalso. apply N, find_completed_iff. eauto.
    + destruct (find (q_live _ _) _) eqn:F; [|reflexivity].
      exfalso. apply N, find_live_iff. eauto.
Qed.

Lemma enrollment_prerequisite_chain_witness :
  run (create_course (Sample.fresh "1") (Sample.enroll CourseType.PARKING "s1")
         Sample.student) Sample.db0
  = (Raise (PrerequisiteNotMet CourseType.CODE CourseType.PARKING), Sample.db0)
  /\ run (create_course (Sample.fresh "1") (Sample.enroll CourseType.CODE "s1")
            Sample.student) Sample.db0
     = (Return (new_course_of (Sample.fresh "1") (Sample.enroll CourseType.CODE "s1")),
        enrolled (Sample.fresh "1") (Sample.enroll CourseType.CODE "s1")
          Sample.school Sample.db0)
  /\ has_completed (SampleCourses.db_code CourseStatus.COMPLETED) "s1"
       CourseType.CODE.
Proof.
  split; [|split].
  - apply (proj2 (enrollment_prerequisite_chain Sample.db0 (Sample.fresh "1")
                    (Sample.enroll CourseType.PARKING "s1") Sample.student)
             Sample.student Sample.teacher Sample.school Sample.teacher_user).
    + constructor; reflexivity.
    + reflexivity.
    + reflexivity.
    + intros (c & Hin & _). exact Hin.
  - apply (proj2 (enrollment_prerequisite_chain Sample.db0 (Sample.fresh "1")
                    (Sample.enroll CourseType.CODE "s1") Sample.student)
             Sample.student Sample.teacher Sample.school Sample.teacher_user).
    + constructor; reflexivity.
    + reflexivity.
    + reflexivity.
    + intros (c & Hin & _). exact Hin.
  - apply (proj1 (enrollment_prerequisite_chain
                    (SampleCourses.db_code CourseStatus.COMPLETED)
                    (Sample.fresh "1") (Sample.enroll CourseType.PARKING "s1")
                    Sample.student)
             (new_course_of (Sample.fresh "1") (Sample.enroll CourseType.PARKING "s1"))
             (enrolled (Sample.fresh "1") (Sample.enroll CourseType.PARKING "s1")
                Sample.school (SampleCourses.db_code CourseStatus.COMPLETED))).
    + reflexivity.
    + reflexivity.
Defined.

(** C2 (as stated) fails: student "s3", of gender other, has no completed
    parking course and asks for a road course with teacher "t1", whose
    user is male.  The student, the teacher and the school exist and the
    prerequisite is not met, yet the request fails with GenderMismatch,
    not with PrerequisiteNotMet: the gender check comes first. *)
Lemma prerequisite_reported_after_gender :
  user_by_id Sample.db0 "s3" = Some Sample.student_o
  /\ teacher_by_id Sample.db0 "t1" = Some Sample.teacher
  /\ school_by_id Sample.db0 "sc1" = Some Sample.school
  /\ ~ has_completed Sample.db0 "s3" CourseType.PARKING
  /\ run (create_course (Sample.fresh "1") (Sample.enroll CourseType.ROAD "s3")
            Sample.student_o) Sample.db0
     = (Raise GenderMismatch, Sample.db0)
  /\ GenderMismatch <> PrerequisiteNotMet CourseType.PARKING CourseType.ROAD.
Proof.
  split; [reflexivity|]. split; [reflexivity|]. split; [reflexivity|].
  split; [intros (c & Hin & _); exact Hin|].
  split; [reflexivity | discriminate].
Qed.

Lemma new_course_of_student fr course :
  Course.student_id (new_course_of fr course) = CourseCreate.student_id course.
Proof. unfold new_course_of. now destruct (CourseCreate.type course). Qed.

Lemma new_course_of_type fr course :
  Course.type (new_course_of fr course) = CourseCreate.type course.
Proof.
  unfold new_course_of. destruct (CourseCreate.type course) eqn:E; cbn; congruence.
Qed.

Lemma live_courses_enrolled fr course sc db sid ty :
  live_courses (enrolled fr course sc db) sid ty
  = (live_courses db sid ty
     ++ if q_live sid ty (new_course_of fr course)
        then [new_course_of fr course] else [])%list.
Proof.
  unfold live_courses, enrolled, insert_one. cbn. rewrite filter_app. cbn.
  now destruct (q_live sid ty (new_course_of fr course)).
Qed.

Lemma create_course_keeps_single_live db fr course cu :
  single_live_course db ->
  single_live_course (snd (run (create_course fr course cu) db)).
Proof.
  intros Inv.
  destruct (create_course_outcome db fr course cu)
    as [(e & He) | (s & t & sc & tu & _ & _ & _ & NL & E)].
  - now rewrite He.
  - rewrite E. cbn [snd]. intros sid ty. rewrite live_courses_enrolled.
    destruct (q_live sid ty (new_course_of fr course)) eqn:Q.
    + apply q_live_spec in Q. destruct Q as (Hs & Ht & _).
      rewrite new_course_of_student in Hs. rewrite new_course_of_type in Ht.
      subst sid ty. apply live_courses_nil_iff in NL. now rewrite NL.
    + rewrite app_nil_r. apply Inv.
Qed.

(** C1 (as amended): [create_course] keeps the property that every student
    has at most one non-failed course per type; a request for a type in
    which the student has a non-failed course is rejected and writes
    nothing, with DuplicateEnrollment once it reaches that check (ids
    resolved, genders equal, prerequisite met); and when all the student's
    courses of the type are failed, such a request is accepted and appends
    the new course and its pending payment. *)
Theorem create_course_single_live_course db fr course cu :
  let sid := CourseCreate.student_id course in
  let ty := CourseCreate.type course in
  (single_live_course db ->
   single_live_course (snd (run (create_course fr course cu) db)))
  /\ (has_live db sid ty ->
      exists e, run (create_course fr course cu) db = (Raise e, db))
  /\ (forall s t sc tu,
         resolves db course s t sc tu ->
         User.gender tu = User.gender s ->
         prerequisite_met db sid ty ->
         (has_live db sid ty ->
          run (create_course fr course cu) db
          = (Raise (DuplicateEnrollment ty), db))
         /\ ((forall c, In c (DB.courses db) -> Course.student_id c = sid ->
                        Course.type c = ty ->
                        Course.status c = CourseStatus.FAILED) ->
             run (create_course fr course cu) db
             = (Return (new_course_of fr course), enrolled fr course sc db))).
Proof.
  intros sid ty. split; [apply create_course_keeps_single_live|]. split.
  - intros HL.
    destruct (create_course_outcome db fr course cu)
      as [(e & He) | (s & t & sc & tu & _ & _ & _ & NL & _)]; [eauto|].
    now destruct NL.
  - intros s t sc tu R G P.
    rewrite (create_course_gender_stage db fr course cu s t sc tu R).
    apply Gender_eqb_eq in G. rewrite G. cbn [negb].
    assert (C : forall ty', has_completed db sid ty' ->
                exists c, find (q_completed sid ty') (DB.courses db) = Some c)
      by (intros; now apply find_completed_iff).
    split.
    + intros HL. apply find_live_iff in HL. destruct HL as [c Hc].
      subst sid ty. unfold prerequisite_met in P.
      destruct (CourseCreate.type course).
      * now rewrite Hc.
      * destruct (C _ P) as [c' Hc']. now rewrite Hc', Hc.
      * destruct (C _ P) as [c' Hc']. now rewrite Hc', Hc.
    + intros AllFailed.
      assert (NL : find (q_live sid ty) (DB.courses db) = None).
      { destruct (find (q_live sid ty) (DB.courses db)) eqn:F; [|reflexivity].
        apply find_some in F. destruct F as [Hin Q].
        apply q_live_spec in Q. destruct Q as (Hs & Ht & Hst).
        now destruct Hst; apply AllFailed. }
      subst sid ty. unfold prerequisite_met in P.
      destruct (CourseCreate.type course).
      * now rewrite NL.
      * destruct (C _ P) as [c' Hc']. now rewrite Hc', NL.
      * destruct (C _ P) as [c' Hc']. now rewrite Hc', NL.
Qed.

Lemma create_course_single_live_course_witness :
  single_live_course
    (snd (run (create_course (Sample.fresh "1") (Sample.enroll CourseType.CODE "s1")
                 Sample.student) Sample.db0))
  /\ (exists e,
         run (create_course (Sample.fresh "1") (Sample.enroll CourseType.CODE "s1")
                Sample.student) (SampleCourses.db_code CourseStatus.IN_PROGRESS)
         = (Raise e, SampleCourses.db_code CourseStatus.IN_PROGRESS))
  /\ run (create_course (Sample.fresh "1") (Sample.enroll CourseType.CODE "s1")
            Sample.student) (SampleCourses.db_code CourseStatus.COMPLETED)
     = (Raise (DuplicateEnrollment CourseType.CODE),
        SampleCourses.db_code CourseStatus.COMPLETED)
  /\ run (create_course (Sample.fresh "1") (Sample.enroll CourseType.CODE "s1")
            Sample.student) (SampleCourses.db_code CourseStatus.FAILED)
     = (Return (new_course_of (Sample.fresh "1") (Sample.enroll CourseType.CODE "s1")),
        enrolled (Sample.fresh "1") (Sample.enroll CourseType.CODE "s1")
          Sample.school (SampleCourses.db_code CourseStatus.FAILED)).
Proof.
  assert (Live : forall st, st <> CourseStatus.FAILED ->
            has_live (SampleCourses.db_code st) "s1" CourseType.CODE).
  { intros st H. exists (SampleCourses.code_course st).
    repeat split; [now left | exact H]. }
  split; [|split; [|split]].
  - apply (proj1 (create_course_single_live_course Sample.db0 (Sample.fresh "1")
                    (Sample.enroll CourseType.CODE "s1") Sample.student)).
    intros sid ty. cbn. lia.
  - apply (proj1 (proj2 (create_course_single_live_course
                           (SampleCourses.db_code CourseStatus.IN_PROGRESS)
                           (Sample.fresh "1")
                           (Sample.enroll CourseType.CODE "s1") Sample.student))).
    apply Live. discriminate.
  - apply (proj2 (proj2 (create_course_single_live_course
                           (SampleCourses.db_code CourseStatus.COMPLETED)
                           (Sample.fresh "1")
                           (Sample.enroll CourseType.CODE "s1") Sample.student))
             Sample.student Sample.teacher Sample.school Sample.teacher_user).
    + constructor; reflexivity.
    + reflexivity.
    + exact I.
    + apply Live. discriminate.
  - apply (proj2 (proj2 (create_course_single_live_course
                           (SampleCourses.db_code CourseStatus.FAILED)
                           (Sample.fresh "1")
                           (Sample.enroll CourseType.CODE "s1") Sample.student))
             Sample.student Sample.teacher Sample.school Sample.teacher_user).
    + constructor; reflexivity.
    + reflexivity.
    + exact I.
    + intros c [Hc|[]] _ _. now subst c.
Defined.

(** C1 (as stated) fails: every call below succeeds, and the run ends with
    two non-failed code courses of the same student. The second enrollment
    is accepted because the first course is failed at that moment; the
    later exam outcome turns the first course to completed. *)
Lemma two_live_courses_after_exam_revival :
  fst (run Sample.revival Sample.db0) = Return tt
  /\ map Course.status
       (live_courses (snd (run Sample.revival Sample.db0)) "s1" CourseType.CODE)
     = [CourseStatus.COMPLETED; CourseStatus.NOT_STARTED]
  /\ ~ single_live_course (snd (run Sample.revival Sample.db0)).
Proof.
  split; [reflexivity|]. split; [reflexivity|].
  intros H. specialize (H "s1" CourseType.CODE). vm_compute in H. lia.
Qed.

(** ** update_one *)

Lemma find_update_first {A} (q : A -> bool) (f : A -> A) (l : list A) x :
  find q l = Some x -> q (f x) = true ->
  find q (update_first q f l) = Some (f x).
Proof.
  induction l as [|y l IH]; simpl; [discriminate|].
  destruct (q y) eqn:Q.
  - intros [= ->] Hf. simpl. now rewrite Hf.
  - intros H Hf. simpl. rewrite Q. auto.
Qed.

Lemma update_first_none {A} (q : A -> bool) (f : A -> A) (l : list A) :
  find q l = None -> update_first q f l = l.
Proof.
  induction l as [|y l IH]; simpl; [trivial|].
  destruct (q y); [discriminate|]. intros H. now rewrite IH.
Qed.



Lemma update_first_Forall2 {A} (R : A -> A -> Prop) (q : A -> bool)
    (f : A -> A) (l : list A) :
  (forall x, R x x) -> (forall x, R x (f x)) ->
  Forall2 R l (update_first q f l).
Proof.
  intros Hr Hf. induction l as [|y l IH]; simpl; [constructor|].
  destruct (q y); constructor; auto.
  clear IH. induction l; constructor; auto.
Qed.

Lemma find_id_eq {A} (key : A -> string) (i : string) (l : list A) x :
  find (fun y => String.eqb (key y) i) l = Some x -> key x = i.
Proof. intros H. apply find_some in H. now apply String.eqb_eq. Qed.

(** ** update_exam *)

Lemma update_exam_run db eid st score fb cu exam course :
  exam_by_id db eid = Some exam ->
  course_by_id db (Exam.course_id exam) = Some course ->
  staff_of_course db cu course ->
  run (update_exam eid st score fb cu) db
  = (Return (set_exam st score fb exam), exam_recorded eid st score fb course db).
Proof.
  intros He Hc [Hrole Hown].
  assert (F : find (fun x => String.eqb (Exam.id x) eid)
                (update_first (fun x => String.eqb (Exam.id x) eid)
                   (set_exam st score fb) (DB.exams db))
              = Some (set_exam st score fb exam)).
  { apply find_update_first; [exact He|]. cbn.
    apply String.eqb_eq. exact (find_id_eq Exam.id eid _ _ He). }
  unfold exam_recorded, exam_outcome_on_courses.
  destruct (User.role cu) eqn:Hr; try discriminate;
    try specialize (Hown eq_refl); start_handler;
    try (rewrite Hown; cbn); destruct st; cbn; now rewrite F.
Qed.

(** A rejected [update_exam] writes nothing; an accepted one is the update
    described by [exam_recorded]. *)
Lemma update_exam_outcome db eid st score fb cu :
  (exists e, run (update_exam eid st score fb cu) db = (Raise e, db))
  \/ exists exam course,
       exam_by_id db eid = Some exam
       /\ course_by_id db (Exam.course_id exam) = Some course
       /\ staff_of_course db cu course
       /\ run (update_exam eid st score fb cu) db
          = (Return (set_exam st score fb exam),
             exam_recorded eid st score fb course db).
Proof.
  destruct (not_staff (User.role cu)) eqn:Hrole.
  { left. eexists. now start_handler. }
  destruct (exam_by_id db eid) as [exam|] eqn:He.
  2:{ left. eexists. now start_handler. }
  destruct (course_by_id db (Exam.course_id exam)) as [course|] eqn:Hc.
  2:{ left. eexists. now start_handler. }
  destruct (UserRole.eqb (User.role cu) UserRole.TEACHER) eqn:Hr.
  - apply UserRole_eqb_eq in Hr.
    destruct (not_own_course (teacher_by_user_id db (User.id cu)) course) eqn:Hown.
    + left. eexists. start_handler. cbn in Hrole. now use_lookups.
    + right. exists exam, course. repeat (split; trivial).
      apply update_exam_run; trivial. now split.
  - right. exists exam, course.
    assert (S : staff_of_course db cu course).
    { split; trivial. intros E. rewrite E in Hr. discriminate. }
    repeat (split; trivial); try apply S. now apply update_exam_run.
Qed.








(** ** update_payment *)

Lemma may_update_payment_gate cu course :
  may_update_payment cu course <->
  negb (is_admin (User.role cu)) && negb (is_manager (User.role cu))
  && negb (String.eqb (User.id cu) (Course.student_id course)) = false.
Proof.
  unfold may_update_payment.
  destruct (String.eqb_spec (User.id cu) (Course.student_id course));
    destruct (User.role cu); cbn; split; intros H; try tauto; try discriminate;
    destruct H as [H|[H|H]]; congruence.
Qed.

Lemma update_payment_run db pid st cu payment course :
  payment_by_id db pid = Some payment ->
  course_by_id db (Payment.course_id payment) = Some course ->
  may_update_payment cu course ->
  run (update_payment pid st cu) db
  = (Return (Payment.set_status st payment), payment_recorded pid st course db).
Proof.
  intros Hp Hc Hgate. apply may_update_payment_gate in Hgate.
  assert (F : find (fun x => String.eqb (Payment.id x) pid)
                (update_first (fun x => String.eqb (Payment.id x) pid)
                   (Payment.set_status st) (DB.payments db))
              = Some (Payment.set_status st payment)).
  { apply find_update_first; [exact Hp|]. cbn.
    apply String.eqb_eq. exact (find_id_eq Payment.id pid _ _ Hp). }
  unfold payment_recorded, payment_outcome_on_courses.
  start_handler. rewrite Hgate. cbn.
  destruct (is_completed_payment st
            && CourseStatus.eqb (Course.status course) CourseStatus.NOT_STARTED);
    cbn; now rewrite F.
Qed.

(** A rejected [update_payment] writes nothing; an accepted one is the
    update described by [payment_recorded]. *)
Lemma update_payment_outcome db pid st cu :
  (exists e, run (update_payment pid st cu) db = (Raise e, db))
  \/ exists payment course,
       payment_by_id db pid = Some payment
       /\ course_by_id db (Payment.course_id payment) = Some course
       /\ may_update_payment cu course
       /\ run (update_payment pid st cu) db
          = (Return (Payment.set_status st payment),
             payment_recorded pid st course db).
Proof.
  destruct (payment_by_id db pid) as [payment|] eqn:Hp.
  2:{ left. eexists. now start_handler. }
  destruct (course_by_id db (Payment.course_id payment)) as [course|] eqn:Hc.
  2:{ left. eexists. now start_handler. }
  destruct (negb (is_admin (User.role cu)) && negb (is_manager (User.role cu))
            && negb (String.eqb (User.id cu) (Course.student_id course))) eqn:G.
  - left. eexists. start_handler. now rewrite G.
  - right. exists payment, course. apply may_update_payment_gate in G.
    repeat (split; trivial). now apply update_payment_run.
Qed.



(** ** create_schedule *)

Lemma for_each_reads {A S} (f : S -> A -> S) (body : S -> A -> M S)
    (l : list A) (db : DB.t) :
  (forall acc x, body acc x db = (Return (f acc x), db)) ->
  forall acc, for_each l body acc db = (Return (fold_left f l acc), db).
Proof.
  intros Hbody. induction l as [|x l IH]; intros acc; cbn; [reflexivity|].
  unfold bind. rewrite Hbody. apply IH.
Qed.

(** The handler is its verdict followed, when there is none, by the
    insertion of the schedule as requested. *)
Lemma create_schedule_run new_id now schedule cu db :
  run (create_schedule new_id now schedule cu) db
  = match schedule_decision db cu (ScheduleCreate.course_id schedule)
            (datetime.replace_minute0 (ScheduleCreate.date schedule))
            (ScheduleCreate.duration_minutes schedule) with
    | Some e => (Raise e, db)
    | None => (Return (Schedule_of new_id now schedule),
               scheduled new_id now schedule db)
    end.
Proof.
  unfold schedule_decision, scheduled.
  destruct (not_staff (User.role cu)) eqn:Hrole; [now start_handler|].
  destruct (course_by_id db (ScheduleCreate.course_id schedule))
    as [course|] eqn:Hc; [|now start_handler].
  destruct (teacher_by_id db (Course.teacher_id course)) as [t|] eqn:Ht;
    [|now start_handler].
  assert (Hloop : forall l,
             for_each l
               (fun (acc : dict) ds =>
                  ds_course <- find_one DB.courses
                                 (fun c => String.eqb (Course.id c) (Schedule.course_id ds)) ;;
                  match ds_course with
                  | Some c =>
                      ret (dict_set acc (Course.type c)
                             (dict_get acc (Course.type c) 0 + 1)%nat)
                  | None => ret acc
                  end) dict_empty db
             = (Return (day_course_types db l), db)).
  { intros l. apply for_each_reads. intros acc x.
    unfold bind, find_one, count_type, course_by_id, ret.
    now destruct (find _ _). }
  assert (Hrest :
    run (
      let schedule_date := datetime.replace_minute0 (ScheduleCreate.date schedule) in
      end_date <- match datetime.add schedule_date
                          (ScheduleCreate.duration_minutes schedule * datetime.minute) with
                  | Some d => ret d
                  | None => raise OverflowError
                  end ;;
      teacher_courses <- find_to_list DB.courses
                           (fun c => String.eqb (Course.teacher_id c) (Course.teacher_id course))
                           1000 ;;
      let teacher_course_ids := map Course.id teacher_courses in
      match teacher_course_ids with
      | [] => ret tt
      | _ :: _ =>
          existing_schedules <- find_to_list DB.schedules
                                  (q_date_in schedule_date end_date teacher_course_ids)
                                  1000 ;;
          match Course.type course with
          | CourseType.CODE =>
              raise_if (20 <=? List.length existing_schedules)%nat CapacityExceeded
          | _ =>
              match existing_schedules with
              | [] => ret tt
              | _ :: _ => raise SlotTaken
              end ;;;
              let day_start := datetime.replace_hour0 schedule_date in
              day_end <- match datetime.add day_start datetime.day with
                         | Some d => ret d
                         | None => raise OverflowError
                         end ;;
              day_schedules <- find_to_list DB.schedules
                                 (q_date_in day_start day_end teacher_course_ids)
                                 1000 ;;
              day_course_types <-
                for_each day_schedules
                  (fun (acc : dict) ds =>
                     ds_course <- find_one DB.courses
                                    (fun c => String.eqb (Course.id c) (Schedule.course_id ds)) ;;
                     match ds_course with
                     | Some c =>
                         let course_type := Course.type c in
                         ret (dict_set acc course_type (dict_get acc course_type 0 + 1)%nat)
                     | None => ret acc
                     end)
                  dict_empty ;;
              raise_if (CourseType.eqb (Course.type course) CourseType.PARKING
                        && (3 <=? dict_get day_course_types CourseType.PARKING 0)%nat)
                (DailyCapacityExceeded CourseType.PARKING) ;;;
              raise_if (CourseType.eqb (Course.type course) CourseType.ROAD
                        && (3 <=? dict_get day_course_types CourseType.ROAD 0)%nat)
                (DailyCapacityExceeded CourseType.ROAD)
          end
      end ;;;
      let new_schedule := Schedule_of new_id now schedule in
      modify (DB.with_schedules (insert_one new_schedule)) ;;;
      ret new_schedule) db
    = match
        match datetime.add (datetime.replace_minute0 (ScheduleCreate.date schedule))
                (ScheduleCreate.duration_minutes schedule * datetime.minute) with
        | None => Some OverflowError
        | Some end_date =>
        let tid := Course.teacher_id course in
        match teacher_course_ids db tid with
        | [] => None
        | _ :: _ =>
            let existing_schedules :=
              firstn 1000 (booked db tid
                             (datetime.replace_minute0 (ScheduleCreate.date schedule))
                             end_date) in
            match Course.type course with
            | CourseType.CODE =>
                if (20 <=? List.length existing_schedules)%nat
                then Some CapacityExceeded else None
            | ty =>
                match existing_schedules with
                | _ :: _ => Some SlotTaken
                | [] =>
                    let day_start :=
                      datetime.replace_hour0
                        (datetime.replace_minute0 (ScheduleCreate.date schedule)) in
                    match datetime.add day_start datetime.day with
                    | None => Some OverflowError
                    | Some day_end =>
                        let counts :=
                          day_course_types db
                            (firstn 1000 (booked db tid day_start day_end)) in
                        if CourseType.eqb ty CourseType.PARKING
                           && (3 <=? dict_get counts CourseType.PARKING 0)%nat
                        then Some (DailyCapacityExceeded CourseType.PARKING)
                        else if CourseType.eqb ty CourseType.ROAD
                                && (3 <=? dict_get counts CourseType.ROAD 0)%nat
                        then Some (DailyCapacityExceeded CourseType.ROAD)
                        else None
                    end
                end
            end
        end end
      with
      | Some e => (Raise e, db)
      | None => (Return (Schedule_of new_id now schedule),
                 DB.with_schedules (insert_one (Schedule_of new_id now schedule)) db)
      end).
  { unfold run, bind, find_to_list, raise_if, ret, raise, modify. cbv zeta.
    destruct (datetime.add _ (_ * _)) as [end_date|]; [|reflexivity].
    unfold booked, teacher_course_ids.
    destruct (map Course.id _) as [|i ids] eqn:Hids; [reflexivity|].
    destruct (Course.type course) eqn:Hty.
    - now destruct (20 <=? _)%nat.
    - destruct (firstn 1000 (filter (q_date_in _ end_date _) _)); [|reflexivity].
      destruct (datetime.add _ datetime.day) as [day_end|]; [|reflexivity].
      rewrite Hloop. cbn [CourseType.eqb andb].
      now destruct (3 <=? _)%nat.
    - destruct (firstn 1000 (filter (q_date_in _ end_date _) _)); [|reflexivity].
      destruct (datetime.add _ datetime.day) as [day_end|]; [|reflexivity].
      rewrite Hloop. cbn [CourseType.eqb andb].
      now destruct (3 <=? _)%nat. }
  destruct (User.role cu) eqn:Hr; try discriminate; cbn [is_teacher andb].
  - destruct (not_own_course (teacher_by_user_id db (User.id cu)) course) eqn:Hown.
    + now start_handler.
    + etransitivity; [|exact Hrest]. now start_handler.
  - etransitivity; [|exact Hrest]. now start_handler.
  - etransitivity; [|exact Hrest]. now start_handler.
Qed.

Lemma firstn_1000_nil {A} (l : list A) : firstn 1000 l = [] <-> l = [].
Proof.
  destruct l; [split; reflexivity|].
  change 1000%nat with (S 999). rewrite firstn_cons. split; discriminate.
Qed.

Lemma length_firstn_1000 {A} (l : list A) n :
  (n <= 1000)%nat ->
  (n <=? List.length (firstn 1000 l))%nat = (n <=? List.length l)%nat.
Proof.
  intros H. rewrite length_firstn.
  destruct (Nat.leb_spec n (List.length l));
    [apply Nat.leb_le | apply Nat.leb_gt]; lia.
Qed.

Lemma teacher_course_ids_nonempty db cid course :
  course_by_id db cid = Some course ->
  teacher_course_ids db (Course.teacher_id course) <> [].
Proof.
  intros H. apply find_some in H. destruct H as [Hin _].
  unfold teacher_course_ids. intros E. apply map_eq_nil in E.
  apply (proj1 (firstn_1000_nil _)) in E.
  assert (In course (filter (fun c => String.eqb (Course.teacher_id c)
                                        (Course.teacher_id course))
                       (DB.courses db))).
  { apply filter_In. split; trivial. apply String.eqb_refl. }
  rewrite E in H. contradiction.
Qed.

Lemma dict_get_count_type db acc ds ty :
  dict_get (count_type db acc ds) ty 0
  = (dict_get acc ty 0 + if of_type db ty ds then 1 else 0)%nat.
Proof.
  unfold count_type, of_type.
  destruct (course_by_id db (Schedule.course_id ds)) as [c|]; [|lia].
  unfold dict_get, dict_set.
  destruct (CourseType.eqb ty (Course.type c)) eqn:E.
  - apply CourseType_eqb_eq in E. subst ty. rewrite CourseType_eqb_refl.
    destruct (acc (Course.type c)); lia.
  - replace (CourseType.eqb (Course.type c) ty) with false; [lia|].
    destruct (Course.type c), ty; trivial; discriminate.
Qed.

Lemma dict_get_fold_count db l ty : forall acc,
  dict_get (fold_left (count_type db) l acc) ty 0
  = (dict_get acc ty 0 + List.length (filter (of_type db ty) l))%nat.
Proof.
  induction l as [|ds l IH]; intros acc; cbn; [lia|].
  rewrite IH, dict_get_count_type.
  destruct (of_type db ty ds); cbn; lia.
Qed.

Lemma dict_get_day_course_types db tid lo hi ty :
  dict_get (day_course_types db (firstn 1000 (booked db tid lo hi))) ty 0
  = day_count db tid lo hi ty.
Proof.
  unfold day_course_types, day_count. now rewrite dict_get_fold_count.
Qed.

(** The verdict on a request that passes the gates. *)
Lemma schedule_decision_bookable db cu schedule course start end_date :
  bookable db cu schedule course ->
  datetime.add start (ScheduleCreate.duration_minutes schedule * datetime.minute)
  = Some end_date ->
  let tid := Course.teacher_id course in
  schedule_decision db cu (ScheduleCreate.course_id schedule) start
    (ScheduleCreate.duration_minutes schedule)
  = match Course.type course with
    | CourseType.CODE =>
        if (20 <=? List.length (booked db tid start end_date))%nat
        then Some CapacityExceeded else None
    | ty =>
        match booked db tid start end_date with
        | _ :: _ => Some SlotTaken
        | [] =>
            match datetime.add (datetime.replace_hour0 start) datetime.day with
            | None => Some OverflowError
            | Some day_end =>
                if (3 <=? day_count db tid (datetime.replace_hour0 start) day_end ty)%nat
                then Some (DailyCapacityExceeded ty) else None
            end
        end
    end.
Proof.
  intros [Hc Ht [Hrole Hown]] Hend tid. unfold schedule_decision.
  rewrite Hrole, Hc. destruct (teacher_by_id db _) as [t|]; [|congruence].
  replace (is_teacher (User.role cu)
           && not_own_course (teacher_by_user_id db (User.id cu)) course)
    with false.
  2:{ destruct (User.role cu) eqn:Hr; trivial. symmetry. now apply Hown. }
  rewrite Hend. fold tid.
  pose proof (teacher_course_ids_nonempty db _ course Hc) as Hne. fold tid in Hne.
  destruct (teacher_course_ids db tid) as [|i ids] eqn:Hids; [congruence|].
  cbv beta iota zeta.
  destruct (Course.type course).
  - now rewrite length_firstn_1000 by lia.
  - destruct (booked db tid start end_date) as [|x l] eqn:Hb.
    + rewrite firstn_nil. destruct (datetime.add _ datetime.day); [|reflexivity].
      rewrite !dict_get_day_course_types. cbn [CourseType.eqb andb].
      now destruct (3 <=? _)%nat.
    + change 1000%nat with (S 999). now rewrite firstn_cons.
  - destruct (booked db tid start end_date) as [|x l] eqn:Hb.
    + rewrite firstn_nil. destruct (datetime.add _ datetime.day); [|reflexivity].
      rewrite !dict_get_day_course_types. cbn [CourseType.eqb andb].
      now destruct (3 <=? _)%nat.
    + change 1000%nat with (S 999). now rewrite firstn_cons.
Qed.

Lemma replace_minute0_idem d :
  datetime.replace_minute0 (datetime.replace_minute0 d) = datetime.replace_minute0 d.
Proof.
  unfold datetime.replace_minute0.
  assert (H : (d - d mod datetime.hour) mod datetime.hour = 0).
  { rewrite Zminus_mod_idemp_r, Z.sub_diag. reflexivity. }
  rewrite H. lia.
Qed.

(** A rejected booking writes nothing; an accepted one appends the
    schedule exactly as requested. *)
Lemma create_schedule_outcome new_id now schedule cu db :
  (exists e, run (create_schedule new_id now schedule cu) db = (Raise e, db)
             /\ schedule_decision db cu (ScheduleCreate.course_id schedule)
                  (datetime.replace_minute0 (ScheduleCreate.date schedule))
                  (ScheduleCreate.duration_minutes schedule) = Some e)
  \/ (run (create_schedule new_id now schedule cu) db
      = (Return (Schedule_of new_id now schedule), scheduled new_id now schedule db)
      /\ schedule_decision db cu (ScheduleCreate.course_id schedule)
           (datetime.replace_minute0 (ScheduleCreate.date schedule))
           (ScheduleCreate.duration_minutes schedule) = None).
Proof.
  rewrite create_schedule_run.
  destruct (schedule_decision _ _ _ _ _) as [e|]; [left; eauto | right; auto].
Qed.

(** C4 (as amended): the checks of [create_schedule] see the requested
    start only through its top of the hour: two requests for the same
    course and duration whose starts fall in the same clock hour are
    rejected alike. On success the stored schedule carries the start and
    the duration exactly as requested: the start is not normalized. *)
Theorem schedule_start_normalized_for_checks_only new_id now schedule cu db :
  (forall schedule' e,
      ScheduleCreate.course_id schedule' = ScheduleCreate.course_id schedule ->
      ScheduleCreate.duration_minutes schedule'
      = ScheduleCreate.duration_minutes schedule ->
      datetime.replace_minute0 (ScheduleCreate.date schedule')
      = datetime.replace_minute0 (ScheduleCreate.date schedule) ->
      (run (create_schedule new_id now schedule cu) db = (Raise e, db)
       <-> run (create_schedule new_id now schedule' cu) db = (Raise e, db)))
  /\ (forall e,
         run (create_schedule new_id now schedule cu) db = (Raise e, db)
         <-> run (create_schedule new_id now
                    (with_date (datetime.replace_minute0 (ScheduleCreate.date schedule))
                       schedule) cu) db
             = (Raise e, db))
  /\ (forall s db',
         run (create_schedule new_id now schedule cu) db = (Return s, db') ->
         Schedule.date s = ScheduleCreate.date schedule
         /\ Schedule.duration_minutes s = ScheduleCreate.duration_minutes schedule
         /\ DB.schedules db' = (DB.schedules db ++ [s])%list).
Proof.
  assert (Same : forall schedule' e,
      ScheduleCreate.course_id schedule' = ScheduleCreate.course_id schedule ->
      ScheduleCreate.duration_minutes schedule'
      = ScheduleCreate.duration_minutes schedule ->
      datetime.replace_minute0 (ScheduleCreate.date schedule')
      = datetime.replace_minute0 (ScheduleCreate.date schedule) ->
      (run (create_schedule new_id now schedule cu) db = (Raise e, db)
       <-> run (create_schedule new_id now schedule' cu) db = (Raise e, db))).
  { intros schedule' e H1 H2 H3. rewrite !create_schedule_run, H1, H2, H3.
    destruct (schedule_decision _ _ _ _ _); split; congruence. }
  split; [exact Same|]. split.
  - intros e. apply Same; trivial. cbn. apply replace_minute0_idem.
  - intros s db' H. rewrite create_schedule_run in H.
    destruct (schedule_decision _ _ _ _ _); [discriminate|].
    injection H as <- <-. repeat split.
Qed.

Lemma schedule_start_normalized_for_checks_only_witness :
  Schedule.date (Schedule_of "x2" 0 (SampleSchedules.book "cr" 10 30 60))
  = Sample.at_ 10 30
  /\ (run (create_schedule "x2" 0 (SampleSchedules.book "cr" 10 0 60) Sample.manager)
        (SampleSchedules.db_with [SampleSchedules.half_past])
      = (Raise SlotTaken, SampleSchedules.db_with [SampleSchedules.half_past])
      <-> run (create_schedule "x2" 0 (SampleSchedules.book "cr" 10 45 60)
                 Sample.manager)
            (SampleSchedules.db_with [SampleSchedules.half_past])
          = (Raise SlotTaken, SampleSchedules.db_with [SampleSchedules.half_past])).
Proof.
  split.
  - apply (proj2 (proj2 (schedule_start_normalized_for_checks_only "x2" 0
                           (SampleSchedules.book "cr" 10 30 60) Sample.manager
                           (SampleSchedules.db_with [])))
             (Schedule_of "x2" 0 (SampleSchedules.book "cr" 10 30 60))
             (scheduled "x2" 0 (SampleSchedules.book "cr" 10 30 60)
                (SampleSchedules.db_with []))).
    vm_compute. reflexivity.
  - apply (proj1 (schedule_start_normalized_for_checks_only "x2" 0
                    (SampleSchedules.book "cr" 10 0 60) Sample.manager
                    (SampleSchedules.db_with [SampleSchedules.half_past]))
             (SampleSchedules.book "cr" 10 45 60) SlotTaken);
      reflexivity.
Defined.

(** C4 (as stated) fails: a road lesson requested for 10:30 is accepted
    and stored with start 10:30, while the top of that hour is 10:00. *)
Lemma stored_start_is_not_normalized :
  run (create_schedule "x2" 0 (SampleSchedules.book "cr" 10 30 60) Sample.manager)
    (SampleSchedules.db_with [])
  = (Return (Schedule.mk "cr" (Sample.at_ 10 30) 60 "x2" 0),
     SampleSchedules.db_with [Schedule.mk "cr" (Sample.at_ 10 30) 60 "x2" 0])
  /\ datetime.replace_minute0 (Sample.at_ 10 30) = Sample.at_ 10 0
  /\ Sample.at_ 10 30 <> Sample.at_ 10 0.
Proof.
  split; [vm_compute; reflexivity|]. split; [vm_compute; reflexivity|].
  vm_compute. discriminate.
Qed.

Lemma In_mem x ids : mem x ids = true <-> In x ids.
Proof.
  unfold mem. rewrite existsb_exists. split.
  - intros (y & Hin & E). apply String.eqb_eq in E. now subst y.
  - intros H. exists x. split; trivial. apply String.eqb_refl.
Qed.

Lemma In_booked db tid lo hi s :
  In s (booked db tid lo hi) <->
  In s (DB.schedules db) /\ lo <= Schedule.date s < hi
  /\ In (Schedule.course_id s) (teacher_course_ids db tid).
Proof.
  unfold booked, q_date_in.
  rewrite filter_In, !andb_true_iff, Z.leb_le, Z.ltb_lt, In_mem. tauto.
Qed.

Lemma later_clock_hour a b :
  datetime.replace_minute0 a < datetime.replace_minute0 b ->
  a < datetime.replace_minute0 b.
Proof.
  unfold datetime.replace_minute0.
  assert (Hh : 0 < datetime.hour) by reflexivity.
  pose proof (Z.div_mod a datetime.hour ltac:(lia)) as Ha.
  pose proof (Z.div_mod b datetime.hour ltac:(lia)) as Hb.
  pose proof (Z.mod_pos_bound a datetime.hour Hh) as Ba.
  pose proof (Z.mod_pos_bound b datetime.hour Hh) as Bb.
  set (h := datetime.hour) in *. clearbody h.
  set (qa := a / h) in *. set (qb := b / h) in *.
  set (ra := a mod h) in *. set (rb := b mod h) in *.
  clearbody qa qb ra rb. intros H.
  assert (Hq : qa < qb).
  { apply (Z.mul_lt_mono_pos_l h); lia. }
  assert (Hm : h * (qa + 1) <= h * qb).
  { apply Z.mul_le_mono_nonneg_l; lia. }
  rewrite Z.mul_add_distr_l, Z.mul_1_r in Hm. lia.
Qed.

Lemma day_count_le db tid lo hi ty :
  (day_count db tid lo hi ty <= List.length (DB.schedules db))%nat.
Proof.
  unfold day_count, booked.
  etransitivity; [apply filter_length_le|].
  rewrite length_firstn.
  etransitivity; [apply Nat.le_min_r|]. apply filter_length_le.
Qed.

Lemma create_schedule_bookable new_id now schedule cu db course end_date :
  bookable db cu schedule course ->
  datetime.add (datetime.replace_minute0 (ScheduleCreate.date schedule))
    (ScheduleCreate.duration_minutes schedule * datetime.minute) = Some end_date ->
  run (create_schedule new_id now schedule cu) db
  = let tid := Course.teacher_id course in
    let start := datetime.replace_minute0 (ScheduleCreate.date schedule) in
    match
      match Course.type course with
      | CourseType.CODE =>
          if (20 <=? List.length (booked db tid start end_date))%nat
          then Some CapacityExceeded else None
      | ty =>
          match booked db tid start end_date with
          | _ :: _ => Some SlotTaken
          | [] =>
              match datetime.add (datetime.replace_hour0 start) datetime.day with
              | None => Some OverflowError
              | Some day_end =>
                  if (3 <=? day_count db tid (datetime.replace_hour0 start) day_end ty)%nat
                  then Some (DailyCapacityExceeded ty) else None
              end
          end
      end
    with
    | Some e => (Raise e, db)
    | None => (Return (Schedule_of new_id now schedule),
               scheduled new_id now schedule db)
    end.
Proof.
  intros B E. rewrite create_schedule_run.
  now rewrite (schedule_decision_bookable db cu schedule course _ end_date B E).
Qed.

(** C3 (as amended): for a request that passes the gates, with [start]
    the top of the requested hour and [end_date] = [start] + duration:
    - a parking or road booking is rejected with SlotTaken, and nothing is
      written, as soon as some schedule of one of the teacher's scanned
      courses (of whatever type) has its stored start in
      [start, end_date);
    - a code booking is accepted when fewer than 20 such schedules exist
      (so the 20th is) and rejected with CapacityExceeded when 20 or more
      do (so the 21st is);
    - a schedule whose end lies in a later clock hour than its start does
      not conflict with a booking that starts exactly at its end, and when
      it is the only schedule stored that booking is accepted. *)
Theorem slot_capacity new_id now schedule cu db course end_date :
  bookable db cu schedule course ->
  datetime.add (datetime.replace_minute0 (ScheduleCreate.date schedule))
    (ScheduleCreate.duration_minutes schedule * datetime.minute) = Some end_date ->
  (Course.type course <> CourseType.CODE ->
   (exists s, In s (DB.schedules db)
              /\ In (Schedule.course_id s)
                   (teacher_course_ids db (Course.teacher_id course))
              /\ datetime.replace_minute0 (ScheduleCreate.date schedule)
                 <= Schedule.date s < end_date) ->
   run (create_schedule new_id now schedule cu) db = (Raise SlotTaken, db))
  /\ (Course.type course = CourseType.CODE ->
      (List.length
         (booked db (Course.teacher_id course)
            (datetime.replace_minute0 (ScheduleCreate.date schedule)) end_date)
       < 20)%nat ->
      run (create_schedule new_id now schedule cu) db
      = (Return (Schedule_of new_id now schedule),
         scheduled new_id now schedule db))
  /\ (Course.type course = CourseType.CODE ->
      (20 <= List.length
               (booked db (Course.teacher_id course)
                  (datetime.replace_minute0 (ScheduleCreate.date schedule))
                  end_date))%nat ->
      run (create_schedule new_id now schedule cu) db
      = (Raise CapacityExceeded, db))
  /\ (forall s,
         ScheduleCreate.date schedule = schedule_end s ->
         datetime.replace_minute0 (Schedule.date s)
         < datetime.replace_minute0 (schedule_end s) ->
         ~ In s (booked db (Course.teacher_id course)
                   (datetime.replace_minute0 (ScheduleCreate.date schedule))
                   end_date)
         /\ (DB.schedules db = [s] ->
             datetime.add
               (datetime.replace_hour0
                  (datetime.replace_minute0 (ScheduleCreate.date schedule)))
               datetime.day <> None ->
             run (create_schedule new_id now schedule cu) db
             = (Return (Schedule_of new_id now schedule),
                scheduled new_id now schedule db))).
Proof.
  intros B E.
  pose proof (create_schedule_bookable new_id now schedule cu db course end_date B E)
    as R. cbv zeta in R.
  assert (Free : Course.type course <> CourseType.CODE ->
      booked db (Course.teacher_id course)
        (datetime.replace_minute0 (ScheduleCreate.date schedule)) end_date = [] ->
      forall day_end,
        datetime.add
          (datetime.replace_hour0
             (datetime.replace_minute0 (ScheduleCreate.date schedule)))
          datetime.day = Some day_end ->
        (day_count db (Course.teacher_id course)
           (datetime.replace_hour0
              (datetime.replace_minute0 (ScheduleCreate.date schedule)))
           day_end (Course.type course) < 3)%nat ->
        run (create_schedule new_id now schedule cu) db
        = (Return (Schedule_of new_id now schedule),
           scheduled new_id now schedule db)).
  { intros Hty Hb day_end Hd Hn. rewrite R, Hb, Hd.
    apply Nat.leb_gt in Hn.
    destruct (Course.type course); [congruence| |]; now rewrite Hn. }
  assert (Code : Course.type course = CourseType.CODE ->
      (List.length
         (booked db (Course.teacher_id course)
            (datetime.replace_minute0 (ScheduleCreate.date schedule)) end_date)
       < 20)%nat ->
      run (create_schedule new_id now schedule cu) db
      = (Return (Schedule_of new_id now schedule),
         scheduled new_id now schedule db)).
  { intros Hty Hn. rewrite R, Hty. apply Nat.leb_gt in Hn. now rewrite Hn. }
  split; [|split; [exact Code|split]].
  - intros Hty (s & Hin & Hids & Hwin).
    assert (Hb : In s (booked db (Course.teacher_id course)
                         (datetime.replace_minute0 (ScheduleCreate.date schedule))
                         end_date)) by (apply In_booked; tauto).
    rewrite R.
    destruct (booked _ _ _ _); [contradiction|].
    destruct (Course.type course); [congruence| |]; reflexivity.
  - intros Hty Hn. rewrite R, Hty. apply Nat.leb_le in Hn. now rewrite Hn.
  - intros s Hstart Hlater.
    assert (Out : ~ In s (booked db (Course.teacher_id course)
                            (datetime.replace_minute0 (ScheduleCreate.date schedule))
                            end_date)).
    { rewrite In_booked, Hstart. intros (_ & [Hlo _] & _).
      apply later_clock_hour in Hlater. lia. }
    split; [exact Out|]. intros Hone Hday.
    assert (Hb : booked db (Course.teacher_id course)
                   (datetime.replace_minute0 (ScheduleCreate.date schedule))
                   end_date = []).
    { destruct (booked _ _ _ _) as [|x l] eqn:Hb; trivial. exfalso.
      assert (Hx : In x (booked db (Course.teacher_id course)
                           (datetime.replace_minute0 (ScheduleCreate.date schedule))
                           end_date)) by (rewrite Hb; now left).
      pose proof Hx as Hx'. apply In_booked in Hx'. destruct Hx' as (Hin & _).
      rewrite Hone in Hin. destruct Hin as [<-|[]]. apply Out. now left. }
    destruct (Course.type course) eqn:Hty.
    + apply Code; trivial. rewrite Hb. cbn. lia.
    + destruct (datetime.add _ datetime.day) as [day_end|] eqn:Hd; [|congruence].
      apply (Free ltac:(congruence) Hb day_end); trivial.
      pose proof (day_count_le db (Course.teacher_id course)
                    (datetime.replace_hour0
                       (datetime.replace_minute0 (ScheduleCreate.date schedule)))
                    day_end CourseType.PARKING) as L.
      rewrite Hone in L. cbn [Datatypes.length] in L. lia.
    + destruct (datetime.add _ datetime.day) as [day_end|] eqn:Hd; [|congruence].
      apply (Free ltac:(congruence) Hb day_end); trivial.
      pose proof (day_count_le db (Course.teacher_id course)
                    (datetime.replace_hour0
                       (datetime.replace_minute0 (ScheduleCreate.date schedule)))
                    day_end CourseType.ROAD) as L.
      rewrite Hone in L. cbn [Datatypes.length] in L. lia.
Qed.

Lemma slot_capacity_witness :
  run (create_schedule "x2" 0 (SampleSchedules.book "cr" 10 20 60) Sample.manager)
    (SampleSchedules.db_with [SampleSchedules.hour_lesson])
  = (Raise SlotTaken, SampleSchedules.db_with [SampleSchedules.hour_lesson])
  /\ run (create_schedule "y20" 0 (SampleSchedules.book "cc" 10 0 60) Sample.manager)
       (SampleSchedules.db_with (SampleSchedules.code_lessons 19))
     = (Return (Schedule_of "y20" 0 (SampleSchedules.book "cc" 10 0 60)),
        scheduled "y20" 0 (SampleSchedules.book "cc" 10 0 60)
          (SampleSchedules.db_with (SampleSchedules.code_lessons 19)))
  /\ run (create_schedule "y21" 0 (SampleSchedules.book "cc" 10 0 60) Sample.manager)
       (SampleSchedules.db_with (SampleSchedules.code_lessons 20))
     = (Raise CapacityExceeded,
        SampleSchedules.db_with (SampleSchedules.code_lessons 20))
  /\ run (create_schedule "x2" 0 (SampleSchedules.book "cr" 11 0 60) Sample.manager)
       (SampleSchedules.db_with [SampleSchedules.hour_lesson])
     = (Return (Schedule_of "x2" 0 (SampleSchedules.book "cr" 11 0 60)),
        scheduled "x2" 0 (SampleSchedules.book "cr" 11 0 60)
          (SampleSchedules.db_with [SampleSchedules.hour_lesson])).
Proof.
  assert (B : forall l cid course,
             course_by_id (SampleSchedules.db_with l) cid = Some course ->
             Course.teacher_id course = "t1" ->
             forall d dur,
               bookable (SampleSchedules.db_with l) Sample.manager
                 (ScheduleCreate.mk cid d dur) course).
  { intros l cid course Hc Ht d dur. constructor; trivial.
    - rewrite Ht. discriminate.
    - split; [reflexivity | discriminate]. }
  split; [|split; [|split]].
  - apply (proj1 (slot_capacity "x2" 0 (SampleSchedules.book "cr" 10 20 60)
                    Sample.manager
                    (SampleSchedules.db_with [SampleSchedules.hour_lesson])
                    SampleSchedules.road_course (Sample.at_ 11 0)
                    (B [SampleSchedules.hour_lesson] "cr"
                       SampleSchedules.road_course eq_refl eq_refl _ _) eq_refl)).
    + discriminate.
    + exists SampleSchedules.hour_lesson. split; [now left|]. split.
      * right. left. reflexivity.
      * split; [apply Z.leb_le | apply Z.ltb_lt]; reflexivity.
  - apply (proj1 (proj2
             (slot_capacity "y20" 0 (SampleSchedules.book "cc" 10 0 60)
                Sample.manager
                (SampleSchedules.db_with (SampleSchedules.code_lessons 19))
                SampleSchedules.code_course (Sample.at_ 11 0)
                (B (SampleSchedules.code_lessons 19) "cc"
                   SampleSchedules.code_course eq_refl eq_refl _ _) eq_refl))).
    + reflexivity.
    + apply Nat.ltb_lt. vm_compute. reflexivity.
  - apply (proj1 (proj2 (proj2
             (slot_capacity "y21" 0 (SampleSchedules.book "cc" 10 0 60)
                Sample.manager
                (SampleSchedules.db_with (SampleSchedules.code_lessons 20))
                SampleSchedules.code_course (Sample.at_ 11 0)
                (B (SampleSchedules.code_lessons 20) "cc"
                   SampleSchedules.code_course eq_refl eq_refl _ _) eq_refl)))).
    + reflexivity.
    + apply Nat.leb_le. vm_compute. reflexivity.
  - apply (proj2 (proj2 (proj2
             (slot_capacity "x2" 0 (SampleSchedules.book "cr" 11 0 60)
                Sample.manager
                (SampleSchedules.db_with [SampleSchedules.hour_lesson])
                SampleSchedules.road_course (Sample.at_ 12 0)
                (B [SampleSchedules.hour_lesson] "cr"
                   SampleSchedules.road_course eq_refl eq_refl _ _) eq_refl)))
             SampleSchedules.hour_lesson).
    + reflexivity.
    + apply Z.ltb_lt. reflexivity.
    + reflexivity.
    + discriminate.
Defined.

(** C3 (as stated) fails in three ways, each with two bookings made one
    after the other for teacher [t1]. A two-hour parking lesson from 09:00
    and then a road lesson at 10:00 are both accepted; an hour of parking
    from 10:30 and then a road lesson at 11:00 are both accepted; and after
    half an hour of parking from 10:00, a road lesson that starts at 10:30,
    exactly when the first one ends, is rejected with SlotTaken. *)
Lemma overlap_not_what_is_checked :
  run (SampleSchedules.two_bookings (SampleSchedules.book "cp" 9 0 120)
         (SampleSchedules.book "cr" 10 0 60)) (SampleSchedules.db_with [])
  = (Return (SampleSchedules.long_lesson,
             Schedule.mk "cr" (Sample.at_ 10 0) 60 "x2" 0),
     SampleSchedules.db_with
       [SampleSchedules.long_lesson; Schedule.mk "cr" (Sample.at_ 10 0) 60 "x2" 0])
  /\ overlap SampleSchedules.long_lesson
       (Schedule.mk "cr" (Sample.at_ 10 0) 60 "x2" 0) = true
  /\ run (SampleSchedules.two_bookings (SampleSchedules.book "cp" 10 30 60)
            (SampleSchedules.book "cr" 11 0 60)) (SampleSchedules.db_with [])
     = (Return (SampleSchedules.half_past,
                Schedule.mk "cr" (Sample.at_ 11 0) 60 "x2" 0),
        SampleSchedules.db_with
          [SampleSchedules.half_past; Schedule.mk "cr" (Sample.at_ 11 0) 60 "x2" 0])
  /\ overlap SampleSchedules.half_past
       (Schedule.mk "cr" (Sample.at_ 11 0) 60 "x2" 0) = true
  /\ ScheduleCreate.date (SampleSchedules.book "cr" 10 30 60)
     = schedule_end SampleSchedules.short_lesson
  /\ run (SampleSchedules.two_bookings (SampleSchedules.book "cp" 10 0 30)
            (SampleSchedules.book "cr" 10 30 60)) (SampleSchedules.db_with [])
     = (Raise SlotTaken, SampleSchedules.db_with [SampleSchedules.short_lesson])
  /\ map (fun c => (Course.id c, Course.teacher_id c, Course.type c))
       (DB.courses (SampleSchedules.db_with []))
     = [("cc", "t1", CourseType.CODE); ("cp", "t1", CourseType.PARKING);
        ("cr", "t1", CourseType.ROAD)].
Proof. repeat split; vm_compute; reflexivity. Qed.

(** ** Gates *)

Lemma create_course_never_forbidden db fr course cu e :
  fst (run (create_course fr course cu) db) = Raise e -> forbidden e = false.
Proof.
  destruct (create_course_resolution db fr course cu)
    as [(s & t & sc & tu & R) | (e' & He & Hk)].
  - rewrite (create_course_gender_stage db fr course cu s t sc tu R).
    destruct (negb _); [now intros [= <-]|].
    destruct (CourseCreate.type course);
      repeat match goal with
             | |- context [match find ?q ?l with _ => _ end] => destruct (find q l)
             end; cbn; intros [= <-]; reflexivity.
  - rewrite He. cbn. intros [= <-].
    destruct Hk as [->|[->|[->| ->]]]; reflexivity.
Qed.

Lemma create_exam_outcome new_id now exam cu db :
  (exists e, run (create_exam new_id now exam cu) db = (Raise e, db))
  \/ exists x, run (create_exam new_id now exam cu) db
               = (Return x, DB.with_exams (insert_one x) db).
Proof.
  destruct (not_staff (User.role cu)) eqn:Hrole.
  { left. eexists. now start_handler. }
  destruct (course_by_id db (ExamCreate.course_id exam)) as [course|] eqn:Hc.
  2:{ left. eexists. now start_handler. }
  destruct (User.role cu) eqn:Hr; try discriminate.
  - destruct (not_own_course (teacher_by_user_id db (User.id cu)) course) eqn:Hown.
    + left. eexists. now start_handler.
    + right. eexists. now start_handler.
  - right. eexists. now start_handler.
  - right. eexists. now start_handler.
Qed.

(** C9 (as amended): [create_schedule] answers Forbidden to a student, and
    to a teacher who is not the teacher of the course (once the course and
    its teacher resolve), nothing being written, and a booking that is
    accepted comes from a manager, an admin or the course's own teacher.
    [update_exam] and [update_payment] admit permitted callers only: a
    call of [update_exam] by a student, or by a teacher who is not the
    teacher of the course, and a call of [update_payment] by a caller who
    is neither admin nor manager nor the student of the course, does not
    succeed and writes nothing, and a call that is accepted comes from a
    permitted caller.  [create_course] has no gate: its outcome does not
    depend on the caller and is never Forbidden. *)
Theorem role_gates :
  (forall new_id now schedule cu db,
      (User.role cu = UserRole.STUDENT ->
       exists e, run (create_schedule new_id now schedule cu) db = (Raise e, db)
                 /\ forbidden e = true)
      /\ (forall course,
             User.role cu = UserRole.TEACHER ->
             course_by_id db (ScheduleCreate.course_id schedule) = Some course ->
             teacher_by_id db (Course.teacher_id course) <> None ->
             not_own_course (teacher_by_user_id db (User.id cu)) course = true ->
             exists e, run (create_schedule new_id now schedule cu) db = (Raise e, db)
                       /\ forbidden e = true)
      /\ (forall s db',
             run (create_schedule new_id now schedule cu) db = (Return s, db') ->
             exists course,
               course_by_id db (ScheduleCreate.course_id schedule) = Some course
               /\ (User.role cu = UserRole.MANAGER \/ User.role cu = UserRole.ADMIN
                   \/ (User.role cu = UserRole.TEACHER
                       /\ exists t, teacher_by_user_id db (User.id cu) = Some t
                                    /\ Teacher.id t = Course.teacher_id course))))
  /\ (forall eid st score fb cu db,
         (User.role cu = UserRole.STUDENT ->
          exists e, run (update_exam eid st score fb cu) db = (Raise e, db))
         /\ (forall exam course,
                User.role cu = UserRole.TEACHER ->
                exam_by_id db eid = Some exam ->
                course_by_id db (Exam.course_id exam) = Some course ->
                not_own_course (teacher_by_user_id db (User.id cu)) course = true ->
                exists e, run (update_exam eid st score fb cu) db = (Raise e, db))
         /\ (forall x db',
                run (update_exam eid st score fb cu) db = (Return x, db') ->
                exists exam course,
                  exam_by_id db eid = Some exam
                  /\ course_by_id db (Exam.course_id exam) = Some course
                  /\ staff_of_course db cu course))
  /\ (forall pid st cu db,
         (forall payment course,
             payment_by_id db pid = Some payment ->
             course_by_id db (Payment.course_id payment) = Some course ->
             ~ may_update_payment cu course ->
             exists e, run (update_payment pid st cu) db = (Raise e, db))
         /\ (forall p db',
                run (update_payment pid st cu) db = (Return p, db') ->
                exists payment course,
                  payment_by_id db pid = Some payment
                  /\ course_by_id db (Payment.course_id payment) = Some course
                  /\ may_update_payment cu course))
  /\ (forall fr course cu cu' db,
         run (create_course fr course cu) db = run (create_course fr course cu') db)
  /\ (forall fr course cu db e,
         fst (run (create_course fr course cu) db) = Raise e -> forbidden e = false).
Proof.
  split; [|split; [|split; [|split]]].
  - intros new_id now schedule cu db. split; [|split].
    + intros Hr. exists OnlyStaffSchedules. split; [|reflexivity].
      rewrite create_schedule_run. unfold schedule_decision. now rewrite Hr.
    + intros course Hr Hc Ht Hown. exists NotOwnCourseSchedule.
      split; [|reflexivity].
      rewrite create_schedule_run. unfold schedule_decision.
      rewrite Hr, Hc. cbn [not_staff is_teacher andb].
      destruct (teacher_by_id db _); [|congruence]. now rewrite Hown.
    + intros s db' H. rewrite create_schedule_run in H.
      unfold schedule_decision in H.
      destruct (not_staff (User.role cu)) eqn:Hrole; [discriminate|].
      destruct (course_by_id db _) as [course|]; [|discriminate].
      destruct (teacher_by_id db _); [|discriminate].
      exists course. split; trivial.
      destruct (User.role cu) eqn:Hr; try discriminate; auto.
      right. right. split; trivial. cbn [is_teacher andb] in H.
      unfold not_own_course in H.
      destruct (teacher_by_user_id db (User.id cu)) as [own|]; [|discriminate].
      exists own. split; trivial.
      destruct (String.eqb_spec (Teacher.id own) (Course.teacher_id course));
        [trivial | discriminate].
  - intros eid st score fb cu db. split; [|split].
    + intros Hr. exists status_attribute_error. now start_handler.
    + intros exam course Hr He Hc Hown. exists status_attribute_error.
      now start_handler.
    + intros x db' H.
      destruct (update_exam_outcome db eid st score fb cu)
        as [(e & He) | (exam & course & He & Hc & Hs & _)]; [congruence|].
      exists exam, course. auto.
  - intros pid st cu db. split.
    + intros payment course Hp Hc Hgate. exists status_attribute_error.
      rewrite may_update_payment_gate in Hgate.
      apply not_false_is_true in Hgate. start_handler. now rewrite Hgate.
    + intros p db' H.
      destruct (update_payment_outcome db pid st cu)
        as [(e & He) | (payment & course & Hp & Hc & Hg & _)]; [congruence|].
      exists payment, course. auto.
  - reflexivity.
  - intros fr course cu db e. apply create_course_never_forbidden.
Qed.

Lemma role_gates_witness :
  (exists e,
      run (create_schedule "x2" 0 (SampleSchedules.book "cr" 10 0 60)
             Sample.teacher_user2) (SampleSchedules.db_with [])
      = (Raise e, SampleSchedules.db_with []) /\ forbidden e = true)
  /\ (exists e,
         run (update_exam "e0" ExamStatus.PASSED None None Sample.teacher_user2)
           (SampleCourses.db_course CourseStatus.IN_PROGRESS)
         = (Raise e, SampleCourses.db_course CourseStatus.IN_PROGRESS))
  /\ (exists e,
         run (update_payment "p0" PaymentStatus.COMPLETED Sample.student_f)
           (SampleCourses.db_course CourseStatus.NOT_STARTED)
         = (Raise e, SampleCourses.db_course CourseStatus.NOT_STARTED))
  /\ (exists e,
         run (create_schedule "x2" 0 (SampleSchedules.book "cr" 10 0 60)
                Sample.student) (SampleSchedules.db_with [])
         = (Raise e, SampleSchedules.db_with []) /\ forbidden e = true).
Proof.
  split; [|split; [|split]].
  - apply (proj1 (proj2 (proj1 role_gates "x2" 0
                           (SampleSchedules.book "cr" 10 0 60)
                           Sample.teacher_user2 (SampleSchedules.db_with [])))
             SampleSchedules.road_course);
      [reflexivity | reflexivity | discriminate | reflexivity].
  - apply (proj1 (proj2 (proj1 (proj2 role_gates) "e0" ExamStatus.PASSED None None
                           Sample.teacher_user2
                           (SampleCourses.db_course CourseStatus.IN_PROGRESS)))
             SampleCourses.exam0 (SampleCourses.code_course CourseStatus.IN_PROGRESS));
      reflexivity.
  - apply (proj1 (proj1 (proj2 (proj2 role_gates)) "p0" PaymentStatus.COMPLETED
                    Sample.student_f
                    (SampleCourses.db_course CourseStatus.NOT_STARTED))
             SampleCourses.payment0
             (SampleCourses.code_course CourseStatus.NOT_STARTED));
      [reflexivity | reflexivity |].
    intros [H|[H|H]]; discriminate.
  - apply (proj1 (proj1 role_gates "x2" 0 (SampleSchedules.book "cr" 10 0 60)
                    Sample.student (SampleSchedules.db_with []))).
    reflexivity.
Defined.

(** C9 (as stated) fails for enroll-in-course: student "s1" is enrolled in
    a code course by another student, by a teacher other than the course's
    teacher, by a manager and by an admin alike; every call succeeds and
    stores the course and its payment. *)
Lemma enrollment_is_not_gated :
  User.id Sample.student_f <> CourseCreate.student_id (Sample.enroll CourseType.CODE "s1")
  /\ run (create_course (Sample.fresh "1") (Sample.enroll CourseType.CODE "s1")
            Sample.student_f) Sample.db0
     = (Return (new_course_of (Sample.fresh "1") (Sample.enroll CourseType.CODE "s1")),
        enrolled (Sample.fresh "1") (Sample.enroll CourseType.CODE "s1")
          Sample.school Sample.db0)
  /\ run (create_course (Sample.fresh "1") (Sample.enroll CourseType.CODE "s1")
            Sample.teacher_user2) Sample.db0
     = (Return (new_course_of (Sample.fresh "1") (Sample.enroll CourseType.CODE "s1")),
        enrolled (Sample.fresh "1") (Sample.enroll CourseType.CODE "s1")
          Sample.school Sample.db0)
  /\ run (create_course (Sample.fresh "1") (Sample.enroll CourseType.CODE "s1")
            Sample.manager) Sample.db0
     = (Return (new_course_of (Sample.fresh "1") (Sample.enroll CourseType.CODE "s1")),
        enrolled (Sample.fresh "1") (Sample.enroll CourseType.CODE "s1")
          Sample.school Sample.db0)
  /\ run (create_course (Sample.fresh "1") (Sample.enroll CourseType.CODE "s1")
            Sample.admin) Sample.db0
     = (Return (new_course_of (Sample.fresh "1") (Sample.enroll CourseType.CODE "s1")),
        enrolled (Sample.fresh "1") (Sample.enroll CourseType.CODE "s1")
          Sample.school Sample.db0)
  /\ DB.courses
       (enrolled (Sample.fresh "1") (Sample.enroll CourseType.CODE "s1")
          Sample.school Sample.db0)
     = [new_course_of (Sample.fresh "1") (Sample.enroll CourseType.CODE "s1")].
Proof. repeat split; try reflexivity. discriminate. Qed.

(** ** Frame *)

Lemma same_but_status_refl c : same_but_status c c.
Proof. repeat split. Qed.

Lemma same_but_status_set st c : same_but_status c (Course.set_status st c).
Proof. repeat split. Qed.

Lemma Forall2_same_refl l : Forall2 same_but_status l l.
Proof. induction l; constructor; auto using same_but_status_refl. Qed.

Lemma update_status_frame q st l :
  Forall2 same_but_status l (update_first q (Course.set_status st) l).
Proof.
  apply update_first_Forall2;
    auto using same_but_status_refl, same_but_status_set.
Qed.

Lemma update_exam_frame db eid st score fb cu :
  Forall2 same_but_status (DB.courses db)
    (DB.courses (snd (run (update_exam eid st score fb cu) db))).
Proof.
  destruct (update_exam_outcome db eid st score fb cu)
    as [(e & He) | (exam & course & _ & _ & _ & E)].
  - rewrite He. apply Forall2_same_refl.
  - rewrite E. cbn. destruct st; cbn;
      auto using Forall2_same_refl, update_status_frame.
Qed.

Lemma update_payment_frame db pid st cu :
  Forall2 same_but_status (DB.courses db)
    (DB.courses (snd (run (update_payment pid st cu) db))).
Proof.
  destruct (update_payment_outcome db pid st cu)
    as [(e & He) | (payment & course & _ & _ & _ & E)].
  - rewrite He. apply Forall2_same_refl.
  - rewrite E. cbn. unfold payment_outcome_on_courses.
    destruct (_ && _); auto using Forall2_same_refl, update_status_frame.
Qed.

(** C10 (as amended): no handler changes the start_date or the
    completion_date of a stored course. [create_course] appends one course
    that carries the two dates of the request (None when the request
    leaves them out) and touches no other course; [update_exam] and
    [update_payment] change nothing of a course but its status;
    [create_schedule] and [create_exam] leave the courses as they are. *)
Theorem course_fields_frame :
  (forall db fr course cu c db',
      run (create_course fr course cu) db = (Return c, db') ->
      Course.start_date c = CourseCreate.start_date course
      /\ Course.completion_date c = CourseCreate.completion_date course
      /\ DB.courses db' = (DB.courses db ++ [c])%list)
  /\ (forall db eid st score fb cu,
         Forall2 same_but_status (DB.courses db)
           (DB.courses (snd (run (update_exam eid st score fb cu) db))))
  /\ (forall db pid st cu,
         Forall2 same_but_status (DB.courses db)
           (DB.courses (snd (run (update_payment pid st cu) db))))
  /\ (forall db new_id now schedule cu,
         DB.courses (snd (run (create_schedule new_id now schedule cu) db))
         = DB.courses db)
  /\ (forall db new_id now exam cu,
         DB.courses (snd (run (create_exam new_id now exam cu) db))
         = DB.courses db).
Proof.
  split; [|split; [|split; [|split]]].
  - intros db fr course cu c db' H.
    destruct (create_course_outcome db fr course cu)
      as [(e & He) | (s & t & sc & tu & _ & _ & _ & _ & E)]; [congruence|].
    rewrite E in H. injection H as <- <-.
    unfold new_course_of. destruct (CourseCreate.type course) eqn:Ety;
      repeat split; unfold enrolled, new_course_of; now rewrite Ety.
  - intros. apply update_exam_frame.
  - intros. apply update_payment_frame.
  - intros db new_id now schedule cu.
    destruct (create_schedule_outcome new_id now schedule cu db)
      as [(e & He & _) | (E & _)]; [now rewrite He | now rewrite E].
  - intros db new_id now exam cu.
    destruct (create_exam_outcome new_id now exam cu db)
      as [(e & He) | (x & E)]; [now rewrite He | now rewrite E].
Qed.

Lemma course_fields_frame_witness :
  Course.start_date (new_course_of (Sample.fresh "1") (Sample.enroll CourseType.ROAD "s1"))
  = None
  /\ Course.completion_date
       (new_course_of (Sample.fresh "1") (Sample.enroll CourseType.ROAD "s1"))
     = None.
Proof.
  assert (H : run (create_course (Sample.fresh "1") (Sample.enroll CourseType.ROAD "s1")
                     Sample.student)
                (DB.with_courses (insert_one SampleSchedules.parking_course) Sample.db0)
              = (Return (new_course_of (Sample.fresh "1")
                           (Sample.enroll CourseType.ROAD "s1")),
                 enrolled (Sample.fresh "1") (Sample.enroll CourseType.ROAD "s1")
                   Sample.school
                   (DB.with_courses (insert_one SampleSchedules.parking_course)
                      Sample.db0)))
    by reflexivity.
  destruct (proj1 course_fields_frame _ _ _ _ _ _ H) as (H1 & H2 & _).
  split; [exact H1 | exact H2].
Defined.

(** C10 (as stated) fails: the enrollment request is a CourseCreate, which
    has the fields start_date and completion_date; a request that fills
    them is accepted and the stored course carries them. *)
Lemma enrollment_stores_requested_dates :
  run (create_course (Sample.fresh "1") SampleDated.dated_request Sample.student)
    Sample.db0
  = (Return (new_course_of (Sample.fresh "1") SampleDated.dated_request),
     enrolled (Sample.fresh "1") SampleDated.dated_request Sample.school Sample.db0)
  /\ map (fun c => (Course.start_date c, Course.completion_date c))
       (DB.courses
          (enrolled (Sample.fresh "1") SampleDated.dated_request Sample.school
             Sample.db0))
     = [(Some (Sample.at_ 8 0), Some (Sample.at_ 18 0))]
  /\ Some (Sample.at_ 8 0) <> None.
Proof. repeat split; try reflexivity. discriminate. Qed.

(** ** Daily cap *)

(** C5 fails on the code: [create_schedule] looks only at the schedules of
    the teacher's first 1000 courses. After 1001 students have enrolled in
    parking with teacher [t1], four lessons of the last of these courses,
    [k1000], on one day are all accepted and the teacher then holds four
    parking schedules that day, whereas the fourth lesson of [k0] the
    same day is refused with DailyCapacityExceeded. *)
Theorem daily_cap_escapes_scan_limit :
  run SampleBusy.career SampleBusy.db_start = (Return tt, SampleBusy.db_busy)
  /\ List.length (courses_of_teacher SampleBusy.db_busy "t1") = 1001%nat
  /\ course_by_id SampleBusy.db_busy "k1000" = Some (SampleBusy.course_no 1000)
  /\ fst (run (SampleBusy.four_lessons "k1000") SampleBusy.db_busy) = Return tt
  /\ map Schedule.id
       (day_schedules_of (snd (run (SampleBusy.four_lessons "k1000") SampleBusy.db_busy))
          "t1" CourseType.PARKING Sample.jan1 (Sample.jan1 + datetime.day))
     = ["x1"; "x2"; "x3"; "x4"]
  /\ ~ daily_cap (snd (run (SampleBusy.four_lessons "k1000") SampleBusy.db_busy))
  /\ fst (run (SampleBusy.four_lessons "k0") SampleBusy.db_busy)
     = Raise (DailyCapacityExceeded CourseType.PARKING).
Proof.
  split; [vm_compute; reflexivity|].
  split; [vm_compute; reflexivity|]. split; [vm_compute; reflexivity|].
  split; [vm_compute; reflexivity|]. split; [vm_compute; reflexivity|].
  split; [|vm_compute; reflexivity].
  intros H.
  specialize (H "t1" CourseType.PARKING Sample.jan1 ltac:(discriminate)
                ltac:(reflexivity)).
  vm_compute in H. lia.
Qed.

Lemma filter_length_implies {A} (P Q R : A -> bool) (l : list A) :
  (forall x, In x l -> P x = true -> Q x = true /\ R x = true) ->
  (List.length (filter P l) <= List.length (filter R (filter Q l)))%nat.
Proof.
  induction l as [|x l IH]; intros H; cbn; [lia|].
  assert (IH' : (List.length (filter P l)
                 <= List.length (filter R (filter Q l)))%nat).
  { apply IH. intros y Hy. apply H. now right. }
  destruct (P x) eqn:Px.
  - destruct (H x (or_introl eq_refl) Px) as [Qx Rx]. rewrite Qx. cbn.
    rewrite Rx. cbn. lia.
  - destruct (Q x); cbn; [destruct (R x); cbn|]; lia.
Qed.

Lemma datetime_add_Some d delta r :
  datetime.add d delta = Some r -> r = d + delta.
Proof.
  unfold datetime.add. destruct (datetime.in_range _); congruence.
Qed.

Lemma replace_hour0_minute0 d :
  datetime.replace_hour0 (datetime.replace_minute0 d) = datetime.replace_hour0 d.
Proof.
  unfold datetime.replace_hour0, datetime.replace_minute0.
  assert (Hh : 0 < datetime.hour) by reflexivity.
  assert (Hd : 0 < datetime.day) by reflexivity.
  assert (Hdiv : (datetime.hour | datetime.day)) by (exists 24; reflexivity).
  pose proof (eq_sym (Z.mod_mod_divide d datetime.day datetime.hour Hdiv)) as E.
  pose proof (Z.div_mod d datetime.day ltac:(lia)) as Dd.
  pose proof (Z.mod_pos_bound d datetime.day Hd) as Bd.
  pose proof (Z.mod_pos_bound (d mod datetime.day) datetime.hour Hh) as Bh.
  pose proof (Z.mod_le (d mod datetime.day) datetime.hour ltac:(lia) Hh) as Le.
  assert (M : (d - d mod datetime.hour) mod datetime.day
              = d mod datetime.day - d mod datetime.hour).
  { symmetry. apply (Z.mod_unique_pos _ _ (d / datetime.day)); lia. }
  rewrite M. lia.
Qed.

Lemma midnight_of d midnight :
  midnight mod datetime.day = 0 ->
  midnight <= d < midnight + datetime.day ->
  datetime.replace_hour0 d = midnight.
Proof.
  intros Hm Hd. unfold datetime.replace_hour0.
  assert (Hday : 0 < datetime.day) by reflexivity.
  pose proof (Z.div_mod midnight datetime.day ltac:(lia)) as Dm.
  rewrite Hm in Dm.
  assert (M : d mod datetime.day = d - midnight).
  { symmetry. apply (Z.mod_unique_pos _ _ (midnight / datetime.day)); lia. }
  lia.
Qed.

(** What an accepted booking has passed. *)
Lemma schedule_decision_accepts db cu schedule start :
  schedule_decision db cu (ScheduleCreate.course_id schedule) start
    (ScheduleCreate.duration_minutes schedule) = None ->
  exists course end_date,
    bookable db cu schedule course
    /\ datetime.add start (ScheduleCreate.duration_minutes schedule * datetime.minute)
       = Some end_date
    /\ match Course.type course with
       | CourseType.CODE =>
           (List.length (booked db (Course.teacher_id course) start end_date)
            < 20)%nat
       | ty =>
           booked db (Course.teacher_id course) start end_date = []
           /\ (day_count db (Course.teacher_id course)
                 (datetime.replace_hour0 start)
                 (datetime.replace_hour0 start + datetime.day)%Z ty < 3)%nat
       end.
Proof.
  intros H. pose proof H as H0. unfold schedule_decision in H0.
  destruct (not_staff (User.role cu)) eqn:Hrole; [discriminate|].
  destruct (course_by_id db _) as [course|] eqn:Hc; [|discriminate].
  destruct (teacher_by_id db _) as [t|] eqn:Ht; [|discriminate].
  destruct (is_teacher (User.role cu) && _) eqn:Hgate; [discriminate|].
  destruct (datetime.add start _) as [end_date|] eqn:Hend; [|discriminate].
  clear H0.
  assert (B : bookable db cu schedule course).
  { constructor; trivial; [congruence|]. split; trivial.
    intros Hr. rewrite Hr in Hgate. exact Hgate. }
  exists course, end_date. split; [exact B|]. split; [reflexivity|].
  rewrite (schedule_decision_bookable db cu schedule course start end_date B Hend)
    in H.
  destruct (Course.type course).
  - destruct (20 <=? _)%nat eqn:E; [discriminate|]. now apply Nat.leb_gt.
  - destruct (booked _ _ _ _); [|discriminate]. split; trivial.
    destruct (datetime.add _ datetime.day) as [day_end|] eqn:Hd; [|discriminate].
    apply datetime_add_Some in Hd. subst day_end. cbv zeta in H.
    destruct (3 <=? _)%nat eqn:E; [discriminate|]. now apply Nat.leb_gt.
  - destruct (booked _ _ _ _); [|discriminate]. split; trivial.
    destruct (datetime.add _ datetime.day) as [day_end|] eqn:Hd; [|discriminate].
    apply datetime_add_Some in Hd. subst day_end. cbv zeta in H.
    destruct (3 <=? _)%nat eqn:E; [discriminate|]. now apply Nat.leb_gt.
Qed.

(** Within the scan limit the number compared with 3 covers every
    schedule the teacher holds that day for the type. *)
Lemma day_schedules_counted db tid ty lo hi :
  (List.length (courses_of_teacher db tid) <= 1000)%nat ->
  (List.length (booked db tid lo hi) <= 1000)%nat ->
  (List.length (day_schedules_of db tid ty lo hi) <= day_count db tid lo hi ty)%nat.
Proof.
  intros Hc Hs. unfold day_count, day_schedules_of.
  rewrite (firstn_all2 _ Hs). unfold booked.
  apply filter_length_implies. intros s _ Hon.
  unfold on_day in Hon. unfold q_date_in, of_type.
  apply andb_true_iff in Hon. destruct Hon as [Hrange Hcourse].
  rewrite Hrange. cbn [andb].
  destruct (course_by_id db (Schedule.course_id s)) as [c|] eqn:Hfind;
    [|discriminate].
  apply andb_true_iff in Hcourse. destruct Hcourse as [Ht Hty].
  split; [|exact Hty]. apply In_mem. unfold teacher_course_ids.
  fold (courses_of_teacher db tid). rewrite (firstn_all2 _ Hc).
  pose proof (find_id_eq Course.id _ _ _ Hfind) as Hid.
  apply find_some in Hfind. destruct Hfind as [Hin _].
  rewrite <- Hid. apply in_map. apply filter_In. now split.
Qed.

(** Within the scan limit (the teacher has at most 1000 courses and at
    most 1000 schedules are found for a day) a booking keeps the daily
    cap of 3 parking and 3 road schedules per teacher. *)
Lemma daily_cap_within_scan_limit new_id now schedule cu db :
  (forall tid, List.length (courses_of_teacher db tid) <= 1000)%nat ->
  (forall tid lo hi, List.length (booked db tid lo hi) <= 1000)%nat ->
  daily_cap db ->
  daily_cap (snd (run (create_schedule new_id now schedule cu) db)).
Proof.
  intros Hc Hs Cap.
  destruct (create_schedule_outcome new_id now schedule cu db)
    as [(e & He & _) | (E & Hdec)]; [now rewrite He|].
  rewrite E. cbn [snd]. intros tid ty midnight Hty Hmid.
  specialize (Cap tid ty midnight Hty Hmid).
  unfold day_schedules_of, scheduled, insert_one in *. cbn [DB.schedules DB.with_schedules].
  rewrite filter_app, length_app.
  change (on_day (DB.with_schedules
                    (fun l => (l ++ [Schedule_of new_id now schedule])%list) db))
    with (on_day db).
  cbn [filter].
  destruct (on_day db tid ty midnight (midnight + datetime.day)
              (Schedule_of new_id now schedule)) eqn:Hon; cbn [List.length]; [|lia].
  enough (List.length (filter (on_day db tid ty midnight (midnight + datetime.day)%Z)
                         (DB.schedules db)) < 3)%nat by lia.
  apply schedule_decision_accepts in Hdec.
  destruct Hdec as (course & end_date & [Hcourse _ _] & _ & Hok).
  unfold on_day in Hon. cbn [Schedule_of Schedule.date Schedule.course_id] in Hon.
  rewrite Hcourse in Hon.
  apply andb_true_iff in Hon. destruct Hon as [Hrange Hc2].
  apply andb_true_iff in Hc2. destruct Hc2 as [Ht Hty2].
  apply String.eqb_eq in Ht. apply CourseType_eqb_eq in Hty2.
  apply andb_true_iff in Hrange. rewrite Z.leb_le, Z.ltb_lt in Hrange.
  rewrite replace_hour0_minute0 in Hok.
  rewrite (midnight_of _ midnight Hmid Hrange), Ht, Hty2 in Hok.
  assert (Hn : (day_count db tid midnight (midnight + datetime.day)%Z ty < 3)%nat)
    by (destruct ty; [congruence | apply Hok | apply Hok]).
  eapply Nat.le_lt_trans; [|exact Hn].
  apply (day_schedules_counted db tid ty); auto.
Qed.

(** * The remaining handlers *)

(** ** List handlers *)

Lemma key_matches_spec k v :
  CourseQuery.key_matches k v = true <-> forall x, k = Some x -> v = x.
Proof.
  destruct k as [x|]; cbn.
  - rewrite String.eqb_eq. split; [now intros -> y [= ->] | auto].
  - split; [discriminate | trivial].
Qed.

Lemma matches_keys q c :
  CourseQuery.matches q c = true ->
  (forall x, CourseQuery.student_id q = Some x -> Course.student_id c = x)
  /\ (forall x, CourseQuery.teacher_id q = Some x -> Course.teacher_id c = x)
  /\ (forall x, CourseQuery.driving_school_id q = Some x ->
                Course.driving_school_id c = x).
Proof.
  unfold CourseQuery.matches. rewrite !andb_true_iff, !key_matches_spec. tauto.
Qed.

Lemma In_firstn {A} n (l : list A) x : In x (firstn n l) -> In x l.
Proof.
  revert l. induction n as [|n IH]; intros [|y l]; cbn; try tauto.
  intros [H|H]; [now left | right; auto].
Qed.

Lemma In_firstn_filter {A} (q : A -> bool) n (l : list A) x :
  In x (firstn n (filter q l)) -> In x l /\ q x = true.
Proof.
  intros H. apply In_firstn in H. now apply filter_In in H.
Qed.

Ltac run_list_handler :=
  unfold run, get_courses, get_schedules, get_exams, get_payments,
    restrict_by_role, resolve_courses, bind, find_one, find_to_list, ret;
  cbn.

Lemma get_courses_run db sid tid sch ty st cu :
  run (get_courses sid tid sch ty st cu) db
  = (Return (firstn 1000
               (filter (CourseQuery.matches (courses_filter db sid tid sch ty st cu))
                  (DB.courses db))),
     db).
Proof.
  unfold courses_filter, teacher_by_user_id, school_by_manager.
  run_list_handler. destruct (User.role cu); cbn; reflexivity.
Qed.

(** X1: [get_courses] writes nothing, never fails, and returns at most 1000
    stored courses, each matching the type and status asked for. What the
    caller may see is fixed by the role: a student gets own courses only,
    whatever student_id was asked for; a teacher with a teacher record
    gets the courses of that record only; a manager with a school gets the
    courses of that school only. *)
Theorem get_courses_scoped db sid tid sch ty st cu :
  exists l,
    run (get_courses sid tid sch ty st cu) db = (Return l, db)
    /\ (List.length l <= 1000)%nat
    /\ forall c, In c l ->
         In c (DB.courses db)
         /\ (forall x, ty = Some x -> Course.type c = x)
         /\ (forall x, st = Some x -> Course.status c = x)
         /\ (User.role cu = UserRole.STUDENT ->
             Course.student_id c = User.id cu)
         /\ (forall t, User.role cu = UserRole.TEACHER ->
                       teacher_by_user_id db (User.id cu) = Some t ->
                       Course.teacher_id c = Teacher.id t)
         /\ (forall sc, User.role cu = UserRole.MANAGER ->
                        school_by_manager db (User.id cu) = Some sc ->
                        Course.driving_school_id c = DrivingSchool.id sc).
Proof.
  eexists. split; [apply get_courses_run|]. split.
  - rewrite length_firstn. apply Nat.le_min_l.
  - intros c H. apply In_firstn_filter in H. destruct H as [Hin Hm].
    split; [exact Hin|].
    pose proof (matches_keys _ _ Hm) as (Ks & Kt & Ksc).
    unfold CourseQuery.matches in Hm. rewrite !andb_true_iff in Hm.
    destruct Hm as [[_ Hty] Hst]. cbn in Hty, Hst, Ks, Kt, Ksc.
    split; [intros x ->; now apply CourseType_eqb_eq|].
    split; [intros x ->; now apply CourseStatus_eqb_eq|].
    split; [intros Hr; rewrite Hr in Ks; now apply Ks|].
    split.
    + intros t Hr Ht. rewrite Hr, Ht in Kt. now apply Kt.
    + intros sc Hr Hsc. rewrite Hr, Hsc in Ksc. now apply Ksc.
Qed.

(** X2: a user with role teacher and no teacher record is not restricted to
    any teacher, and the teacher_id asked for is dropped: the answer is
    the one an admin gets without a teacher_id. The same holds for a
    manager without a school and the driving_school_id asked for. *)
Theorem get_courses_unregistered_staff db sid tid sch ty st cu admin :
  User.role admin = UserRole.ADMIN ->
  (User.role cu = UserRole.TEACHER ->
   teacher_by_user_id db (User.id cu) = None ->
   run (get_courses sid tid sch ty st cu) db
   = run (get_courses sid None sch ty st admin) db)
  /\ (User.role cu = UserRole.MANAGER ->
      school_by_manager db (User.id cu) = None ->
      run (get_courses sid tid sch ty st cu) db
      = run (get_courses sid tid None ty st admin) db).
Proof.
  intros Ha. split; intros Hr Hnone; rewrite !get_courses_run;
    unfold courses_filter; now rewrite Hr, Ha, Hnone.
Qed.

Lemma restrict_by_role_run db cu q :
  restrict_by_role cu q db = (Return (role_query db cu q), db).
Proof.
  unfold role_query, teacher_by_user_id, school_by_manager.
  run_list_handler. destruct (User.role cu); cbn; trivial;
    now destruct (find _ _).
Qed.

Lemma resolve_courses_run db by_param cu q fp :
  resolve_courses by_param cu q fp db = (Return (resolved db by_param cu q fp), db).
Proof.
  unfold resolved. run_list_handler.
  destruct (CourseQuery.nonempty q); trivial. cbn.
  destruct (map Course.id _); trivial.
  now destruct (by_param || _).
Qed.

Lemma get_schedules_run db cid sid tid sd ed cu :
  run (get_schedules cid sid tid sd ed cu) db
  = (Return match listing_filter db cid sid tid cu with
            | None => []
            | Some f =>
                firstn 1000
                  (filter (fun s => course_id_matches f (Schedule.course_id s)
                                    && date_matches sd ed (Schedule.date s))
                     (DB.schedules db))
            end, db).
Proof.
  unfold run, get_schedules, bind, listing_filter, param_filter.
  rewrite restrict_by_role_run, resolve_courses_run.
  now destruct (resolved _ _ _ _ _).
Qed.

Lemma get_exams_run db cid sid st cu :
  run (get_exams cid sid st cu) db
  = (Return match listing_filter db cid sid None cu with
            | None => []
            | Some f =>
                firstn 1000
                  (filter (fun x => course_id_matches f (Exam.course_id x)
                                    && match st with
                                       | None => true
                                       | Some v => exam_status_eqb (Exam.status x) v
                                       end)
                     (DB.exams db))
            end, db).
Proof.
  unfold run, get_exams, bind, listing_filter, param_filter.
  rewrite restrict_by_role_run, resolve_courses_run.
  cbn [truthy orb]. rewrite orb_false_r.
  now destruct (resolved _ _ _ _ _).
Qed.

Lemma get_payments_run db cid sid st cu :
  run (get_payments cid sid st cu) db
  = (Return match listing_filter db cid sid None cu with
            | None => []
            | Some f =>
                firstn 1000
                  (filter (fun x => course_id_matches f (Payment.course_id x)
                                    && match st with
                                       | None => true
                                       | Some v => payment_status_eqb (Payment.status x) v
                                       end)
                     (DB.payments db))
            end, db).
Proof.
  unfold run, get_payments, bind, listing_filter, param_filter.
  rewrite restrict_by_role_run, resolve_courses_run.
  cbn [truthy orb]. rewrite orb_false_r.
  now destruct (resolved _ _ _ _ _).
Qed.

(** For a scoped caller the role step puts the caller's key into the
    query, so that every id the filter lets through is the id of one of
    the caller's courses, and the course_id asked for plays no part. *)
Lemma listing_filter_scoped db cid sid tid cu owns :
  scope db cu owns ->
  listing_filter db cid sid tid cu = listing_filter db None sid tid cu
  /\ forall f i,
       listing_filter db cid sid tid cu = Some f ->
       course_id_matches f i = true -> owns i.
Proof.
  intros S. unfold listing_filter.
  set (q := CourseQuery.mk _ _ _ _ _). clearbody q.
  assert (K : CourseQuery.nonempty (role_query db cu q) = true
              /\ scoped_role (User.role cu) = true
              /\ forall c, CourseQuery.matches (role_query db cu q) c = true ->
                           In c (DB.courses db) -> owns (Course.id c)).
  { unfold role_query. destruct S as [Hr | t Hr Ht | sc Hr Hsc].
    - rewrite Hr. repeat split.
      intros c Hm Hin. apply matches_keys in Hm. destruct Hm as (Ks & _).
      exists c. repeat split; trivial. now apply Ks.
    - rewrite Hr, Ht. repeat split.
      + destruct q as [a b c d e]. cbn. now destruct a.
      + intros c Hm Hin. apply matches_keys in Hm. destruct Hm as (_ & Kt & _).
        exists c. repeat split; trivial. now apply Kt.
    - rewrite Hr, Hsc. repeat split.
      + destruct q as [a b c d e]. cbn. now destruct a, b.
      + intros c Hm Hin. apply matches_keys in Hm. destruct Hm as (_ & _ & Ksc).
        exists c. repeat split; trivial. now apply Ksc. }
  destruct K as (Kne & Ksc & Kown). unfold resolved. rewrite Kne, Ksc.
  rewrite !orb_true_r.
  destruct (map Course.id _) as [|j ids] eqn:Hids; split; trivial;
    [discriminate|].
  intros f i [= <-] Hi. cbn [course_id_matches] in Hi. apply In_mem in Hi.
  rewrite <- Hids in Hi. apply in_map_iff in Hi. destruct Hi as (c & <- & Hc).
  apply In_firstn_filter in Hc. destruct Hc as [Hin Hm]. now apply Kown.
Qed.

(** An unscoped caller gets the filter an admin gets. *)
Lemma listing_filter_unscoped db cid sid tid cu admin :
  unscoped db cu -> User.role admin = UserRole.ADMIN ->
  listing_filter db cid sid tid cu = listing_filter db cid sid tid admin.
Proof.
  intros U Ha. unfold listing_filter.
  set (q := CourseQuery.mk _ _ _ _ _).
  assert (Q : role_query db cu q = q /\ role_query db admin q = q).
  { unfold role_query. rewrite Ha.
    destruct U as [Hr | [[Hr Hn] | [Hr Hn]]]; rewrite Hr, ?Hn; auto. }
  destruct Q as [-> ->]. unfold resolved.
  destruct (CourseQuery.nonempty q) eqn:Hne; trivial.
  destruct (map Course.id _); trivial.
  assert (B : truthy sid || truthy tid = true).
  { subst q. unfold CourseQuery.nonempty, set_if_truthy in Hne. cbn in Hne.
    destruct (truthy sid), (truthy tid); trivial; discriminate. }
  now rewrite B.
Qed.

Lemma get_courses_scoped_witness :
  Course.student_id SampleListing.course_a = User.id Sample.student
  /\ Course.teacher_id SampleListing.course_b = Teacher.id Sample.teacher2.
Proof.
  split.
  - destruct (get_courses_scoped SampleListing.db None None None None None
                Sample.student) as (l & Hrun & _ & Hall).
    injection Hrun as <-.
    apply (Hall SampleListing.course_a); [now left | reflexivity].
  - destruct (get_courses_scoped SampleListing.db None (Some "t1") None None None
                Sample.teacher_user2) as (l & Hrun & _ & Hall).
    injection Hrun as <-.
    apply (proj1 (proj2 (proj2 (proj2 (proj2 (Hall SampleListing.course_b
                                                 (or_introl eq_refl))))))
             Sample.teacher2); reflexivity.
Defined.

Lemma get_courses_unregistered_staff_witness :
  run (get_courses None (Some "t1") None None None SampleListing.new_teacher_user)
    SampleListing.db
  = (Return [SampleListing.course_a; SampleListing.course_b], SampleListing.db).
Proof.
  rewrite (proj1 (get_courses_unregistered_staff SampleListing.db None (Some "t1")
                    None None None SampleListing.new_teacher_user Sample.admin
                    eq_refl) eq_refl eq_refl).
  reflexivity.
Defined.

(** X3: for every caller, [get_schedules] writes nothing, never fails and
    returns at most 1000 stored schedules within the date bounds asked
    for. For a scoped caller (a student, a teacher with a teacher record,
    a manager with a school) every schedule returned belongs to one of the
    caller's own courses. *)
Theorem get_schedules_scoped db cid sid tid sd ed cu :
  exists l,
    run (get_schedules cid sid tid sd ed cu) db = (Return l, db)
    /\ (List.length l <= 1000)%nat
    /\ forall s, In s l ->
         In s (DB.schedules db)
         /\ (forall lo, sd = Some lo -> lo <= Schedule.date s)
         /\ (forall hi, ed = Some hi -> Schedule.date s < hi)
         /\ forall owns, scope db cu owns -> owns (Schedule.course_id s).
Proof.
  eexists. split; [apply get_schedules_run|].
  destruct (listing_filter db cid sid tid cu) as [f|] eqn:F; cbn [List.length];
    [|split; [lia | intros s []]].
  split; [rewrite length_firstn; apply Nat.le_min_l|].
  intros s H. apply In_firstn_filter in H. destruct H as [Hin Hm].
  apply andb_true_iff in Hm. destruct Hm as [Hc Hd].
  split; [exact Hin|].
  unfold date_matches in Hd. apply andb_true_iff in Hd. destruct Hd as [Hlo Hhi].
  split; [intros lo ->; now apply Z.leb_le|].
  split; [intros hi ->; now apply Z.ltb_lt|].
  intros owns S.
  destruct (listing_filter_scoped db cid sid tid cu owns S) as [_ Hown].
  now apply (Hown f).
Qed.

Lemma get_schedules_scoped_witness :
  course_of_student SampleListing.db "s4" (Schedule.course_id SampleListing.schedule_b).
Proof.
  destruct (get_schedules_scoped SampleListing.db (Some "ca") None None None None
              SampleListing.student4)
    as (l & Hrun & _ & Hall).
  injection Hrun as <-.
  apply (proj2 (proj2 (proj2 (Hall SampleListing.schedule_b (or_introl eq_refl))))
           _ (scope_student SampleListing.db SampleListing.student4 eq_refl)).
Defined.

(** X4: for every caller, [get_exams] and [get_payments] write nothing,
    never fail and return at most 1000 stored documents with the status
    asked for; they are scoped in the same way as [get_schedules]: for a
    scoped caller every document returned belongs to one of the caller's
    own courses. *)
Theorem get_exams_payments_scoped db cid sid cu :
  (forall st,
      exists l,
        run (get_exams cid sid st cu) db = (Return l, db)
        /\ (List.length l <= 1000)%nat
        /\ forall x, In x l ->
             In x (DB.exams db)
             /\ (forall v, st = Some v -> Exam.status x = v)
             /\ forall owns, scope db cu owns -> owns (Exam.course_id x))
  /\ (forall st,
         exists l,
           run (get_payments cid sid st cu) db = (Return l, db)
           /\ (List.length l <= 1000)%nat
           /\ forall x, In x l ->
                In x (DB.payments db)
                /\ (forall v, st = Some v -> Payment.status x = v)
                /\ forall owns, scope db cu owns -> owns (Payment.course_id x)).
Proof.
  assert (Hown : forall f i owns,
             listing_filter db cid sid None cu = Some f ->
             course_id_matches f i = true -> scope db cu owns -> owns i).
  { intros f i owns F Hi S.
    destruct (listing_filter_scoped db cid sid None cu owns S) as [_ H].
    now apply (H f). }
  split; intros st; eexists;
    (split; [first [apply get_exams_run | apply get_payments_run]|]);
    (destruct (listing_filter db cid sid None cu) as [f|] eqn:F;
     cbn [List.length]; [|split; [lia | intros s []]]);
    (split; [rewrite length_firstn; apply Nat.le_min_l|]);
    intros x H; apply In_firstn_filter in H; destruct H as [Hin Hm];
    apply andb_true_iff in Hm; destruct Hm as [Hc Hst];
    (split; [exact Hin|]);
    (split; [intros v -> | intros owns S; now apply (Hown f _ owns)]).
  - now destruct (Exam.status x), v.
  - now destruct (Payment.status x), v.
Qed.

Lemma get_exams_payments_scoped_witness :
  course_of_teacher SampleListing.db "t1" (Exam.course_id SampleListing.exam_a)
  /\ course_of_student SampleListing.db "s1"
       (Payment.course_id SampleListing.payment_a).
Proof.
  split.
  - destruct (proj1 (get_exams_payments_scoped SampleListing.db None None
                       Sample.teacher_user)
                (Some ExamStatus.SCHEDULED))
      as (l & Hrun & _ & Hall).
    injection Hrun as <-.
    apply (proj2 (proj2 (Hall SampleListing.exam_a (or_introl eq_refl)))
             _ (scope_teacher SampleListing.db Sample.teacher_user
                  Sample.teacher eq_refl eq_refl)).
  - destruct (proj2 (get_exams_payments_scoped SampleListing.db (Some "cb") (Some "s4")
                       Sample.student)
                None)
      as (l & Hrun & _ & Hall).
    injection Hrun as <-.
    apply (proj2 (proj2 (Hall SampleListing.payment_a (or_introl eq_refl)))
             _ (scope_student SampleListing.db Sample.student eq_refl)).
Defined.

(** X5: for a scoped caller the course_id parameter of the three dependent
    list handlers has no effect: the filter by the caller's own courses
    replaces it, so the answer is the same as without the parameter. *)
Theorem listing_course_id_ignored db cid sid tid cu owns :
  scope db cu owns ->
  (forall sd ed,
      run (get_schedules cid sid tid sd ed cu) db
      = run (get_schedules None sid tid sd ed cu) db)
  /\ (forall st,
         run (get_exams cid sid st cu) db = run (get_exams None sid st cu) db)
  /\ (forall st,
         run (get_payments cid sid st cu) db = run (get_payments None sid st cu) db).
Proof.
  intros S.
  destruct (listing_filter_scoped db cid sid tid cu owns S) as [E1 _].
  destruct (listing_filter_scoped db cid sid None cu owns S) as [E2 _].
  split; [|split]; intros.
  - now rewrite !get_schedules_run, E1.
  - now rewrite !get_exams_run, E2.
  - now rewrite !get_payments_run, E2.
Qed.

Lemma listing_course_id_ignored_witness :
  run (get_schedules (Some "cb") None None None None Sample.student) SampleListing.db
  = (Return [SampleListing.schedule_a], SampleListing.db).
Proof.
  rewrite (proj1 (listing_course_id_ignored SampleListing.db (Some "cb") None None
                    Sample.student _
                    (scope_student SampleListing.db Sample.student eq_refl))
             None None).
  reflexivity.
Defined.

(** X6: a teacher without a teacher record, or a manager without a school, is
    listed everything an admin is: schedules, exams and payments of every
    course. *)
Theorem listing_unregistered_staff db cid sid tid cu admin :
  unscoped db cu -> User.role admin = UserRole.ADMIN ->
  (forall sd ed,
      run (get_schedules cid sid tid sd ed cu) db
      = run (get_schedules cid sid tid sd ed admin) db)
  /\ (forall st,
         run (get_exams cid sid st cu) db = run (get_exams cid sid st admin) db)
  /\ (forall st,
         run (get_payments cid sid st cu) db
         = run (get_payments cid sid st admin) db).
Proof.
  intros U Ha.
  pose proof (listing_filter_unscoped db cid sid tid cu admin U Ha) as E1.
  pose proof (listing_filter_unscoped db cid sid None cu admin U Ha) as E2.
  split; [|split]; intros.
  - now rewrite !get_schedules_run, E1.
  - now rewrite !get_exams_run, E2.
  - now rewrite !get_payments_run, E2.
Qed.

Lemma listing_unregistered_staff_witness :
  run (get_payments None None None SampleListing.new_teacher_user) SampleListing.db
  = (Return [SampleListing.payment_a; SampleListing.payment_b], SampleListing.db).
Proof.
  rewrite (proj2 (proj2 (listing_unregistered_staff SampleListing.db None None None
                           SampleListing.new_teacher_user Sample.admin
                           (or_intror (or_introl (conj eq_refl eq_refl))) eq_refl))
             None).
  reflexivity.
Defined.

(** ** insert_one and find_one *)

Lemma find_insert_old {A} (q : A -> bool) (l : list A) x y :
  find q l = Some y -> find q (insert_one x l) = Some y.
Proof.
  unfold insert_one. induction l as [|z l IH]; cbn; [discriminate|].
  destruct (q z); auto.
Qed.

Lemma find_insert_fresh {A} (q : A -> bool) (l : list A) x :
  find q l = None -> find q (insert_one x l) = if q x then Some x else None.
Proof.
  unfold insert_one. induction l as [|z l IH]; cbn; [trivial|].
  destruct (q z); [discriminate | auto].
Qed.

(** ** create_payment *)

Lemma create_payment_run new_id now hex payment cu db :
  run (create_payment new_id now hex payment cu) db
  = match course_by_id db (PaymentCreate.course_id payment) with
    | None => (Raise InvalidCourse, db)
    | Some course =>
        if negb (is_admin (User.role cu))
           && negb (String.eqb (User.id cu) (Course.student_id course))
        then (Raise NotOwnPaymentCreate, db)
        else (Return (Payment_of new_id now hex payment),
              DB.with_payments (insert_one (Payment_of new_id now hex payment)) db)
    end.
Proof.
  unfold course_by_id, run, create_payment, bind, find_one, raise_if. cbn.
  destruct (find _ _) as [course|]; cbn; [|reflexivity].
  now destruct (negb _ && negb _).
Qed.

(** X7: [create_payment] answers 400 for an unknown course and Forbidden to
    every caller who is neither an admin nor the student of the course
    (a manager included), writing nothing; when it accepts, the caller is
    an admin or that student. *)
Theorem create_payment_gate new_id now hex payment cu db :
  (course_by_id db (PaymentCreate.course_id payment) = None ->
   run (create_payment new_id now hex payment cu) db = (Raise InvalidCourse, db))
  /\ (forall course,
         course_by_id db (PaymentCreate.course_id payment) = Some course ->
         User.role cu <> UserRole.ADMIN ->
         User.id cu <> Course.student_id course ->
         exists e, run (create_payment new_id now hex payment cu) db = (Raise e, db)
                   /\ forbidden e = true)
  /\ (forall p db',
         run (create_payment new_id now hex payment cu) db = (Return p, db') ->
         exists course,
           course_by_id db (PaymentCreate.course_id payment) = Some course
           /\ (User.role cu = UserRole.ADMIN
               \/ User.id cu = Course.student_id course)).
Proof.
  rewrite create_payment_run. split; [|split].
  - now intros ->.
  - intros course -> Hr Hid. exists NotOwnPaymentCreate. split; [|reflexivity].
    apply String.eqb_neq in Hid. rewrite Hid.
    now destruct (User.role cu).
  - intros p db' H.
    destruct (course_by_id db _) as [course|]; [|discriminate].
    exists course. split; trivial.
    destruct (String.eqb_spec (User.id cu) (Course.student_id course)); [auto|].
    destruct (User.role cu); try discriminate. now left.
Qed.

Lemma create_payment_gate_witness :
  exists e,
    run (create_payment "p9" 0 "ab" (PaymentCreate.mk "c0" 7000 PaymentStatus.PENDING)
           Sample.manager) (SampleCourses.db_course CourseStatus.NOT_STARTED)
    = (Raise e, SampleCourses.db_course CourseStatus.NOT_STARTED)
    /\ forbidden e = true.
Proof.
  apply (proj1 (proj2 (create_payment_gate "p9" 0 "ab"
                         (PaymentCreate.mk "c0" 7000 PaymentStatus.PENDING)
                         Sample.manager
                         (SampleCourses.db_course CourseStatus.NOT_STARTED)))
           (SampleCourses.code_course CourseStatus.NOT_STARTED));
    [reflexivity | discriminate | discriminate].
Defined.



(** ** create_exam *)

Lemma create_exam_run new_id now exam cu db :
  run (create_exam new_id now exam cu) db
  = if not_staff (User.role cu) then (Raise OnlyStaffCreateExams, db) else
    match course_by_id db (ExamCreate.course_id exam) with
    | None => (Raise InvalidCourse, db)
    | Some course =>
        if is_teacher (User.role cu)
           && not_own_course (teacher_by_user_id db (User.id cu)) course
        then (Raise NotOwnCourseCreateExam, db)
        else (Return (Exam_of new_id now exam),
              DB.with_exams (insert_one (Exam_of new_id now exam)) db)
    end.
Proof.
  unfold course_by_id, teacher_by_user_id, run, create_exam, bind, find_one,
    raise_if, Exam_of. cbn.
  destruct (User.role cu); cbn; trivial;
    (destruct (find _ (DB.courses db)) as [course|]; cbn; [|reflexivity]);
    trivial.
  now destruct (not_own_course _ _).
Qed.


Lemma staff_gate_passes db staff course :
  staff_of_course db staff course ->
  is_teacher (User.role staff)
  && not_own_course (teacher_by_user_id db (User.id staff)) course = false.
Proof.
  intros [Hrole Hown]. destruct (User.role staff) eqn:Hr; trivial.
  now apply Hown.
Qed.

(** X9: [create_exam] answers Forbidden to a student and to a teacher who is
    not the teacher of the course, and 400 for an unknown course, writing
    nothing. When it accepts, exactly one exam is appended, with the
    status of the request and neither score nor feedback; under a fresh id
    the same caller can then record its outcome with [update_exam]. *)
Theorem create_exam_gate_and_effect new_id now exam cu db :
  (User.role cu = UserRole.STUDENT ->
   exists e, run (create_exam new_id now exam cu) db = (Raise e, db)
             /\ forbidden e = true)
  /\ (not_staff (User.role cu) = false ->
      course_by_id db (ExamCreate.course_id exam) = None ->
      run (create_exam new_id now exam cu) db = (Raise InvalidCourse, db))
  /\ (forall course,
         User.role cu = UserRole.TEACHER ->
         course_by_id db (ExamCreate.course_id exam) = Some course ->
         not_own_course (teacher_by_user_id db (User.id cu)) course = true ->
         exists e, run (create_exam new_id now exam cu) db = (Raise e, db)
                   /\ forbidden e = true)
  /\ (forall course,
         course_by_id db (ExamCreate.course_id exam) = Some course ->
         staff_of_course db cu course ->
         exam_by_id db new_id = None ->
         let x := Exam.mk (ExamCreate.course_id exam) (ExamCreate.date exam)
                    (ExamCreate.status exam) new_id now None None in
         let db1 := DB.with_exams (insert_one x) db in
         run (create_exam new_id now exam cu) db = (Return x, db1)
         /\ exam_by_id db1 new_id = Some x
         /\ forall st score fb,
              fst (run (update_exam new_id st score fb cu) db1)
              = Return (set_exam st score fb x)).
Proof.
  rewrite create_exam_run. split; [|split; [|split]].
  - intros ->. exists OnlyStaffCreateExams. now split.
  - now intros -> ->.
  - intros course Hr -> Hown. rewrite Hr, Hown. cbn.
    exists NotOwnCourseCreateExam. now split.
  - intros course Hc S Hfresh x db1.
    pose proof (staff_gate_passes db cu course S) as G.
    destruct S as [Hrole Hown]. rewrite Hrole, Hc, G.
    assert (Hx : exam_by_id db1 new_id = Some x).
    { unfold exam_by_id, db1 in *. cbn [DB.exams DB.with_exams].
      rewrite find_insert_fresh by exact Hfresh. cbn. now rewrite String.eqb_refl. }
    split; [reflexivity|]. split; [exact Hx|].
    intros st score fb.
    rewrite (update_exam_run db1 new_id st score fb cu x course Hx Hc);
      [reflexivity | now split].
Qed.

Lemma create_exam_gate_and_effect_witness :
  fst (run (update_exam "e9" ExamStatus.PASSED (Some 19) None Sample.teacher_user)
         (DB.with_exams
            (insert_one (Exam.mk "c0" (Sample.at_ 14 0) ExamStatus.SCHEDULED "e9" 0
                           None None))
            (SampleCourses.db_course CourseStatus.IN_PROGRESS)))
  = Return (Exam.mk "c0" (Sample.at_ 14 0) ExamStatus.PASSED "e9" 0 (Some 19) None).
Proof.
  assert (S : staff_of_course (SampleCourses.db_course CourseStatus.IN_PROGRESS)
                Sample.teacher_user
                (SampleCourses.code_course CourseStatus.IN_PROGRESS))
    by (split; reflexivity).
  exact (proj2 (proj2
           (proj2 (proj2 (proj2
              (create_exam_gate_and_effect "e9" 0
                 (ExamCreate.mk "c0" (Sample.at_ 14 0) ExamStatus.SCHEDULED)
                 Sample.teacher_user
                 (SampleCourses.db_course CourseStatus.IN_PROGRESS))))
              (SampleCourses.code_course CourseStatus.IN_PROGRESS)
              eq_refl S eq_refl)) ExamStatus.PASSED (Some 19) None).
Defined.

(** ** The course lifecycle *)

Lemma create_course_accepts db fr course cu s t sc tu :
  resolves db course s t sc tu ->
  User.gender tu = User.gender s ->
  prerequisite_met db (CourseCreate.student_id course) (CourseCreate.type course) ->
  ~ has_live db (CourseCreate.student_id course) (CourseCreate.type course) ->
  run (create_course fr course cu) db
  = (Return (new_course_of fr course), enrolled fr course sc db).
Proof.
  intros R G P NL.
  rewrite (create_course_gender_stage db fr course cu s t sc tu R).
  apply Gender_eqb_eq in G. rewrite G. cbn [negb].
  assert (L : find (q_live (CourseCreate.student_id course) (CourseCreate.type course))
                (DB.courses db) = None).
  { destruct (find _ _) eqn:F; trivial. destruct NL. apply find_live_iff. eauto. }
  unfold prerequisite_met in P.
  destruct (CourseCreate.type course).
  - now rewrite L.
  - apply find_completed_iff in P. destruct P as [c ->]. now rewrite L.
  - apply find_completed_iff in P. destruct P as [c ->]. now rewrite L.
Qed.

Lemma new_course_of_fields fr course :
  Course.id (new_course_of fr course) = Fresh.course_id fr
  /\ Course.status (new_course_of fr course) = CourseCreate.status course
  /\ Course.teacher_id (new_course_of fr course) = CourseCreate.teacher_id course.
Proof. unfold new_course_of. now destruct (CourseCreate.type course). Qed.




(** X11: the status of the request is stored as given, so a course can be
    created as completed: once [create_course] has accepted such a
    request, the student holds a completed course of the type without any
    exam, and a request for the next stage passes the prerequisite check
    and is accepted. *)
Theorem completed_on_request_opens_next_stage fr course cu db c db' :
  run (create_course fr course cu) db = (Return c, db') ->
  CourseCreate.status course = CourseStatus.COMPLETED ->
  Course.status c = CourseStatus.COMPLETED
  /\ has_completed db' (CourseCreate.student_id course) (CourseCreate.type course)
  /\ forall fr2 course2 cu2 s t sc tu,
       CourseCreate.student_id course2 = CourseCreate.student_id course ->
       next_stage (CourseCreate.type course) (CourseCreate.type course2) ->
       resolves db' course2 s t sc tu ->
       User.gender tu = User.gender s ->
       ~ has_live db' (CourseCreate.student_id course2) (CourseCreate.type course2) ->
       run (create_course fr2 course2 cu2) db'
       = (Return (new_course_of fr2 course2), enrolled fr2 course2 sc db').
Proof.
  intros H Hst.
  destruct (create_course_outcome db fr course cu)
    as [(e & He) | (s0 & t0 & sc0 & tu0 & _ & _ & _ & _ & E)]; [congruence|].
  rewrite E in H. injection H as <- <-.
  destruct (new_course_of_fields fr course) as (_ & Hstatus & _).
  assert (Hc : has_completed (enrolled fr course sc0 db)
                 (CourseCreate.student_id course) (CourseCreate.type course)).
  { exists (new_course_of fr course). split.
    - unfold enrolled, insert_one. cbn. apply in_or_app. right. now left.
    - rewrite new_course_of_student, new_course_of_type, Hstatus. auto. }
  split; [congruence|]. split; [exact Hc|].
  intros fr2 course2 cu2 s t sc tu Hsid Hnext R G NL.
  apply (create_course_accepts _ fr2 course2 cu2 s t sc tu R G); trivial.
  unfold prerequisite_met. rewrite Hsid.
  destruct Hnext as [[E1 ->] | [E1 ->]]; now rewrite E1 in Hc.
Qed.

Lemma completed_on_request_opens_next_stage_witness :
  run (create_course (Sample.fresh "2") (Sample.enroll CourseType.PARKING "s1")
         Sample.student)
    (enrolled (Sample.fresh "1")
       (CourseCreate.mk CourseType.CODE "s1" "t1" "sc1" CourseStatus.COMPLETED
          None None)
       Sample.school Sample.db0)
  = (Return (new_course_of (Sample.fresh "2") (Sample.enroll CourseType.PARKING "s1")),
     enrolled (Sample.fresh "2") (Sample.enroll CourseType.PARKING "s1") Sample.school
       (enrolled (Sample.fresh "1")
          (CourseCreate.mk CourseType.CODE "s1" "t1" "sc1" CourseStatus.COMPLETED
             None None)
          Sample.school Sample.db0)).
Proof.
  apply (proj2 (proj2
           (completed_on_request_opens_next_stage (Sample.fresh "1")
              (CourseCreate.mk CourseType.CODE "s1" "t1" "sc1" CourseStatus.COMPLETED
                 None None)
              Sample.student Sample.db0 _ _ eq_refl eq_refl))
           (Sample.fresh "2") (Sample.enroll CourseType.PARKING "s1") Sample.student
           Sample.student Sample.teacher Sample.school Sample.teacher_user).
  - reflexivity.
  - left. now split.
  - constructor; reflexivity.
  - reflexivity.
  - intros (c & Hin & _ & Hty & _). cbn in Hin. destruct Hin as [<-|[]].
    discriminate.
Defined.

(** ** More on create_schedule *)

Lemma booked_empty_window db tid lo hi : hi <= lo -> booked db tid lo hi = [].
Proof.
  intros H. unfold booked.
  induction (DB.schedules db) as [|s l IH]; cbn; trivial.
  unfold q_date_in at 1.
  destruct (Z.leb_spec lo (Schedule.date s)), (Z.ltb_spec (Schedule.date s) hi);
    cbn; trivial; lia.
Qed.

(** X12: a booking of zero or negative length is never in conflict: for a
    request that passes the gates, a code booking is accepted however many
    lessons the hour already holds, and a parking or road booking is
    decided by the daily count alone. *)
Theorem empty_window_never_conflicts new_id now schedule cu db course end_date :
  bookable db cu schedule course ->
  ScheduleCreate.duration_minutes schedule <= 0 ->
  datetime.add (datetime.replace_minute0 (ScheduleCreate.date schedule))
    (ScheduleCreate.duration_minutes schedule * datetime.minute) = Some end_date ->
  (Course.type course = CourseType.CODE ->
   run (create_schedule new_id now schedule cu) db
   = (Return (Schedule_of new_id now schedule), scheduled new_id now schedule db))
  /\ (Course.type course <> CourseType.CODE ->
      forall day_end,
        datetime.add
          (datetime.replace_hour0
             (datetime.replace_minute0 (ScheduleCreate.date schedule)))
          datetime.day = Some day_end ->
        run (create_schedule new_id now schedule cu) db
        = if (3 <=? day_count db (Course.teacher_id course)
                      (datetime.replace_hour0
                         (datetime.replace_minute0 (ScheduleCreate.date schedule)))
                      day_end (Course.type course))%nat
          then (Raise (DailyCapacityExceeded (Course.type course)), db)
          else (Return (Schedule_of new_id now schedule),
                scheduled new_id now schedule db)).
Proof.
  intros B Hd E.
  rewrite (create_schedule_bookable new_id now schedule cu db course end_date B E).
  cbv zeta.
  assert (Hend : end_date <= datetime.replace_minute0 (ScheduleCreate.date schedule)).
  { apply datetime_add_Some in E. subst end_date.
    assert (0 < datetime.minute) by reflexivity. nia. }
  rewrite (booked_empty_window db _ _ _ Hend).
  split.
  - now intros ->.
  - intros Hty day_end ->.
    destruct (Course.type course); [congruence| |]; now destruct (3 <=? _)%nat.
Qed.

Lemma empty_window_never_conflicts_witness :
  run (create_schedule "y21" 0 (SampleSchedules.book "cc" 10 0 0) Sample.manager)
    (SampleSchedules.db_with (SampleSchedules.code_lessons 20))
  = (Return (Schedule_of "y21" 0 (SampleSchedules.book "cc" 10 0 0)),
     scheduled "y21" 0 (SampleSchedules.book "cc" 10 0 0)
       (SampleSchedules.db_with (SampleSchedules.code_lessons 20))).
Proof.
  assert (B : bookable (SampleSchedules.db_with (SampleSchedules.code_lessons 20))
                Sample.manager (SampleSchedules.book "cc" 10 0 0)
                SampleSchedules.code_course).
  { constructor; [reflexivity | discriminate | split; [reflexivity | discriminate]]. }
  apply (proj1 (empty_window_never_conflicts "y21" 0 (SampleSchedules.book "cc" 10 0 0)
                  Sample.manager
                  (SampleSchedules.db_with (SampleSchedules.code_lessons 20))
                  SampleSchedules.code_course (Sample.at_ 10 0) B
                  ltac:(discriminate) eq_refl)).
  reflexivity.
Defined.

Lemma same_status_find l l' i :
  Forall2 same_but_status l l' ->
  match find (fun c => String.eqb (Course.id c) i) l,
        find (fun c => String.eqb (Course.id c) i) l' with
  | None, None => True
  | Some c, Some c' => same_but_status c c'
  | _, _ => False
  end.
Proof.
  induction 1 as [|c c' l l' Hc _ IH]; cbn; trivial.
  assert (Hid : Course.id c' = Course.id c) by apply Hc.
  rewrite Hid. now destruct (String.eqb (Course.id c) i).
Qed.

Lemma same_status_teacher_ids l l' t :
  Forall2 same_but_status l l' ->
  forall n,
    map Course.id (firstn n (filter (fun c => String.eqb (Course.teacher_id c) t) l'))
    = map Course.id (firstn n (filter (fun c => String.eqb (Course.teacher_id c) t) l)).
Proof.
  induction 1 as [|c c' l l' Hc _ IH]; intros n; cbn; trivial.
  destruct Hc as (Hty & Hs & Ht & Hsc & Hsd & Hcd & Hid & Hrest).
  rewrite Ht. destruct (String.eqb (Course.teacher_id c) t); [|apply IH].
  destruct n; cbn; trivial. now rewrite Hid, IH.
Qed.

Lemma same_status_decision db db' cu cid start dur :
  status_only db db' ->
  schedule_decision db' cu cid start dur = schedule_decision db cu cid start dur.
Proof.
  intros [Hu Hsc Ht Hs Hc].
  assert (Ids : forall t, teacher_course_ids db' t = teacher_course_ids db t).
  { intros t. unfold teacher_course_ids. now apply same_status_teacher_ids. }
  assert (Bk : forall t lo hi, booked db' t lo hi = booked db t lo hi).
  { intros. unfold booked. now rewrite Ids, Hs. }
  assert (Ct : forall l, day_course_types db' l = day_course_types db l).
  { intros l. unfold day_course_types. generalize dict_empty.
    induction l as [|s l IH]; intros acc; cbn; trivial.
    replace (count_type db' acc s) with (count_type db acc s); [apply IH|].
    unfold count_type, course_by_id.
    pose proof (same_status_find _ _ (Schedule.course_id s) Hc) as F.
    destruct (find _ (DB.courses db)), (find _ (DB.courses db')); try tauto.
    destruct F as (-> & _). reflexivity. }
  unfold schedule_decision, teacher_by_id, teacher_by_user_id, course_by_id.
  pose proof (same_status_find _ _ cid Hc) as F.
  destruct (find _ (DB.courses db)) as [c|], (find _ (DB.courses db')) as [c'|];
    try tauto.
  destruct F as (Hty & _ & Htid & _).
  rewrite Ht, Htid, Hty, Ids.
  replace (not_own_course
             (find (fun x => String.eqb (Teacher.user_id x) (User.id cu)) (DB.teachers db))
             c')
    with (not_own_course
            (find (fun x => String.eqb (Teacher.user_id x) (User.id cu)) (DB.teachers db))
            c)
    by (unfold not_own_course; now rewrite Htid).
  destruct (not_staff _); trivial. destruct (find _ (DB.teachers db)); trivial.
  destruct (_ && _); trivial. destruct (datetime.add _ _); trivial.
  destruct (teacher_course_ids db _); trivial. cbv zeta.
  rewrite Bk. destruct (Course.type c); trivial;
    (destruct (firstn 1000 _); trivial);
    (destruct (datetime.add _ _); trivial); now rewrite Bk, Ct.
Qed.

Lemma status_only_update_exam db eid st score fb cu :
  status_only db (snd (run (update_exam eid st score fb cu) db)).
Proof.
  pose proof (update_exam_frame db eid st score fb cu) as F.
  destruct (update_exam_outcome db eid st score fb cu)
    as [(e & He) | (exam & course & _ & _ & _ & E)].
  - rewrite He in *. now constructor.
  - rewrite E in *. now constructor.
Qed.

Lemma status_only_update_payment db pid st cu :
  status_only db (snd (run (update_payment pid st cu) db)).
Proof.
  pose proof (update_payment_frame db pid st cu) as F.
  destruct (update_payment_outcome db pid st cu)
    as [(e & He) | (payment & course & _ & _ & _ & E)].
  - rewrite He in *. now constructor.
  - rewrite E in *. now constructor.
Qed.

(** X13: [create_schedule] never looks at the status of a course: whatever
    exam or payment outcome is recorded first, a booking is answered
    afterwards as it would have been before. A failed or completed course
    is booked like any other. *)
Theorem bookings_ignore_course_status new_id now schedule cu db :
  (forall eid st score fb cu0,
      fst (run (create_schedule new_id now schedule cu)
             (snd (run (update_exam eid st score fb cu0) db)))
      = fst (run (create_schedule new_id now schedule cu) db))
  /\ (forall pid st cu0,
         fst (run (create_schedule new_id now schedule cu)
                (snd (run (update_payment pid st cu0) db)))
         = fst (run (create_schedule new_id now schedule cu) db))
  /\ (forall db',
         status_only db db' ->
         fst (run (create_schedule new_id now schedule cu) db')
         = fst (run (create_schedule new_id now schedule cu) db)).
Proof.
  assert (G : forall db',
             status_only db db' ->
             fst (run (create_schedule new_id now schedule cu) db')
             = fst (run (create_schedule new_id now schedule cu) db)).
  { intros db' S. rewrite !create_schedule_run, (same_status_decision db db') by exact S.
    now destruct (schedule_decision _ _ _ _ _). }
  split; [|split; [|exact G]]; intros; apply G.
  - apply status_only_update_exam.
  - apply status_only_update_payment.
Qed.

Lemma bookings_ignore_course_status_witness :
  fst (run (create_schedule "x1" 0 (SampleSchedules.book "cr" 10 0 60) Sample.manager)
         (DB.with_courses
            (map (Course.set_status CourseStatus.FAILED))
            (SampleSchedules.db_with [])))
  = Return (Schedule_of "x1" 0 (SampleSchedules.book "cr" 10 0 60)).
Proof.
  rewrite (proj2 (proj2 (bookings_ignore_course_status "x1" 0
                           (SampleSchedules.book "cr" 10 0 60) Sample.manager
                           (SampleSchedules.db_with [])))
             (DB.with_courses (map (Course.set_status CourseStatus.FAILED))
                (SampleSchedules.db_with []))).
  - reflexivity.
  - constructor; try reflexivity. cbn.
    repeat (constructor; [repeat split|]). constructor.
Defined.

(** ** Referential integrity *)

Lemma In_update_first {A} (q : A -> bool) (f : A -> A) (l : list A) y :
  In y (update_first q f l) -> exists x, In x l /\ (y = x \/ y = f x).
Proof.
  induction l as [|z l IH]; cbn; [tauto|].
  destruct (q z); cbn.
  - intros [<-|H]; [exists z; auto | exists y; auto].
  - intros [<-|H]; [exists z; auto|].
    destruct (IH H) as (x & Hin & Hx). exists x. auto.
Qed.

Lemma update_first_covers {A} (q : A -> bool) (f : A -> A) (l : list A) x :
  In x l -> exists y, In y (update_first q f l) /\ (y = x \/ y = f x).
Proof.
  induction l as [|z l IH]; cbn; [tauto|].
  destruct (q z); cbn.
  - intros [->|H]; [exists (f x); auto | exists x; auto].
  - intros [->|H]; [exists x; auto|].
    destruct (IH H) as (y & Hin & Hy). exists y. auto.
Qed.

Lemma map_update_first {A B} (key : A -> B) (q : A -> bool) (f : A -> A)
    (l : list A) :
  (forall x, key (f x) = key x) ->
  map key (update_first q f l) = map key l.
Proof.
  intros H. induction l as [|z l IH]; cbn; trivial.
  destruct (q z); cbn; now rewrite ?H, ?IH.
Qed.

Lemma course_known_iff db i :
  course_by_id db i <> None <-> In i (map Course.id (DB.courses db)).
Proof.
  unfold course_by_id. rewrite in_map_iff. split.
  - intros H. destruct (find _ _) as [c|] eqn:F; [|congruence].
    exists c. apply find_some in F. destruct F as [Hin E].
    now apply String.eqb_eq in E.
  - intros (c & <- & Hin) F.
    apply (find_none _ _ F) in Hin. now rewrite String.eqb_refl in Hin.
Qed.

Lemma integrity_step db db' :
  integrity db ->
  DB.users db' = DB.users db ->
  DB.driving_schools db' = DB.driving_schools db ->
  DB.teachers db' = DB.teachers db ->
  (forall c', In c' (DB.courses db') ->
     (exists c, In c (DB.courses db) /\ same_but_status c c')
     \/ (teacher_by_id db (Course.teacher_id c') <> None
         /\ school_by_id db (Course.driving_school_id c') <> None
         /\ (exists u, user_by_id db (Course.student_id c') = Some u
                       /\ User.role u = UserRole.STUDENT)
         /\ exists p, In p (DB.payments db') /\ Payment.course_id p = Course.id c')) ->
  (forall i, In i (map Course.id (DB.courses db)) ->
             In i (map Course.id (DB.courses db'))) ->
  (forall s, In s (DB.schedules db') ->
     In s (DB.schedules db) \/ course_by_id db' (Schedule.course_id s) <> None) ->
  (forall x', In x' (DB.exams db') ->
     (exists x, In x (DB.exams db) /\ Exam.course_id x' = Exam.course_id x)
     \/ course_by_id db' (Exam.course_id x') <> None) ->
  (forall p', In p' (DB.payments db') ->
     (exists p, In p (DB.payments db) /\ Payment.course_id p' = Payment.course_id p)
     \/ course_by_id db' (Payment.course_id p') <> None) ->
  (forall p, In p (DB.payments db) ->
     exists p', In p' (DB.payments db') /\ Payment.course_id p' = Payment.course_id p) ->
  integrity db'.
Proof.
  intros [Is Ie Ip Ic Ipaid] Hu Hsc Ht Hc Hi Hs He Hp Hp2.
  assert (K : forall i, course_by_id db i <> None -> course_by_id db' i <> None).
  { intros i H. apply course_known_iff, Hi, course_known_iff, H. }
  constructor.
  - intros s H. destruct (Hs s H) as [Hold|Hnew]; auto.
  - intros x' H. destruct (He x' H) as [(x & Hin & E)|Hnew]; trivial.
    rewrite E. auto.
  - intros p' H. destruct (Hp p' H) as [(p & Hin & E)|Hnew]; trivial.
    rewrite E. auto.
  - intros c' H. unfold teacher_by_id, school_by_id, user_by_id in *.
    rewrite Hu, Hsc, Ht.
    destruct (Hc c' H) as [(c & Hin & S)|(H1 & H2 & H3 & _)]; [|auto].
    destruct S as (_ & Hsid & Htid & Hscid & _).
    rewrite Hsid, Htid, Hscid. now apply Ic.
  - intros c' H.
    destruct (Hc c' H) as [(c & Hin & S)|(_ & _ & _ & H4)]; trivial.
    destruct (Ipaid c Hin) as (p & Hp0 & E).
    destruct (Hp2 p Hp0) as (p' & Hp' & E').
    exists p'. split; trivial.
    destruct S as (_ & _ & _ & _ & _ & _ & Hid & _). congruence.
Qed.

Lemma integrity_status_update db db' :
  integrity db ->
  DB.users db' = DB.users db ->
  DB.driving_schools db' = DB.driving_schools db ->
  DB.teachers db' = DB.teachers db ->
  DB.schedules db' = DB.schedules db ->
  (exists q st, DB.courses db' = update_first q (Course.set_status st) (DB.courses db))
  \/ DB.courses db' = DB.courses db ->
  (forall x', In x' (DB.exams db') ->
     exists x, In x (DB.exams db) /\ Exam.course_id x' = Exam.course_id x) ->
  (forall p', In p' (DB.payments db') ->
     exists p, In p (DB.payments db) /\ Payment.course_id p' = Payment.course_id p) ->
  (forall p, In p (DB.payments db) ->
     exists p', In p' (DB.payments db') /\ Payment.course_id p' = Payment.course_id p) ->
  integrity db'.
Proof.
  intros I Hu Hsc Ht Hs Hc He Hp Hp2.
  apply (integrity_step db db' I Hu Hsc Ht); auto.
  - intros c' H. left. destruct Hc as [(q & st & E)| E]; rewrite E in H.
    + apply In_update_first in H. destruct H as (c & Hin & [->| ->]);
        exists c; split; trivial; repeat split.
    + exists c'. split; trivial. repeat split.
  - intros i H. destruct Hc as [(q & st & E)| E]; rewrite E; trivial.
    now rewrite map_update_first.
  - intros s H. left. now rewrite <- Hs.
Qed.

(** X14: every handler that writes keeps the references whole: if every
    schedule, exam and payment names a stored course, every course names
    a stored teacher, school and student, and every course has a payment,
    the same holds after [create_course], [create_schedule],
    [create_exam], [create_payment], [update_exam] and [update_payment],
    whether they accept or reject. *)
Theorem integrity_preserved db :
  integrity db ->
  (forall fr course cu, integrity (snd (run (create_course fr course cu) db)))
  /\ (forall new_id now schedule cu,
         integrity (snd (run (create_schedule new_id now schedule cu) db)))
  /\ (forall new_id now exam cu,
         integrity (snd (run (create_exam new_id now exam cu) db)))
  /\ (forall new_id now hex payment cu,
         integrity (snd (run (create_payment new_id now hex payment cu) db)))
  /\ (forall eid st score fb cu,
         integrity (snd (run (update_exam eid st score fb cu) db)))
  /\ (forall pid st cu, integrity (snd (run (update_payment pid st cu) db))).
Proof.
  intros I. split; [|split; [|split; [|split; [|split]]]].
  - intros fr course cu.
    destruct (create_course_outcome db fr course cu)
      as [(e & He) | (st & t & sc & tu & R & _ & _ & _ & E)]; [now rewrite He|].
    rewrite E. cbn [snd]. destruct R as [Rs Rr Rt Rsc _].
    destruct (new_course_of_fields fr course) as (Hid & _ & Htid).
    assert (Hnew : In (new_course_of fr course) (DB.courses (enrolled fr course sc db)))
      by (unfold enrolled, insert_one; cbn; apply in_or_app; right; now left).
    apply (integrity_step db _ I); try reflexivity.
    + intros c' H. unfold enrolled, insert_one in H. cbn in H.
      apply in_app_or in H. destruct H as [H|[<-|[]]].
      * left. exists c'. split; trivial. repeat split.
      * right. rewrite Htid, new_course_of_student.
        assert (Hsch : Course.driving_school_id (new_course_of fr course)
                       = CourseCreate.driving_school_id course)
          by (unfold new_course_of; now destruct (CourseCreate.type course)).
        rewrite Hsch. split; [congruence|]. split; [congruence|].
        split; [eauto|].
        exists (new_payment_of fr course sc). split; [|now rewrite Hid].
        unfold enrolled, insert_one. cbn. apply in_or_app. right. now left.
    + intros i H. unfold enrolled, insert_one. cbn. rewrite map_app.
      apply in_or_app. now left.
    + intros s H. now left.
    + intros x H. left. eauto.
    + intros p' H. unfold enrolled, insert_one in H. cbn in H.
      apply in_app_or in H. destruct H as [H|[<-|[]]]; [left; eauto|].
      right. apply course_known_iff. cbn [new_payment_of Payment.course_id].
      rewrite <- Hid. now apply in_map.
    + intros p H. exists p. split; trivial. unfold enrolled, insert_one. cbn.
      apply in_or_app. now left.
  - intros new_id now schedule cu.
    destruct (create_schedule_outcome new_id now schedule cu db)
      as [(e & He & _) | (E & Hdec)]; [now rewrite He|].
    rewrite E. cbn [snd].
    apply schedule_decision_accepts in Hdec.
    destruct Hdec as (course & end_date & [Hc _ _] & _).
    apply (integrity_step db _ I); try reflexivity; eauto.
    + intros c' H. left. exists c'. split; trivial. repeat split.
    + intros s H. unfold scheduled, insert_one in H. cbn in H.
      apply in_app_or in H. destruct H as [H|[<-|[]]]; [now left|].
      right. cbn. unfold scheduled, course_by_id in *. cbn. congruence.
  - intros new_id now exam cu. rewrite create_exam_run.
    destruct (not_staff _); trivial.
    destruct (course_by_id db (ExamCreate.course_id exam)) as [course|] eqn:Hc;
      trivial.
    destruct (_ && _); trivial. cbn [snd].
    apply (integrity_step db _ I); try reflexivity; eauto.
    + intros c' H. left. exists c'. split; trivial. repeat split.
    + intros x' H. unfold insert_one in H. cbn in H.
      apply in_app_or in H. destruct H as [H|[<-|[]]]; [left; eauto|].
      right. unfold course_by_id in *. cbn. congruence.
  - intros new_id now hex payment cu. rewrite create_payment_run.
    destruct (course_by_id db (PaymentCreate.course_id payment)) as [course|] eqn:Hc;
      trivial.
    destruct (_ && _); trivial. cbn [snd].
    apply (integrity_step db _ I); try reflexivity; eauto.
    + intros c' H. left. exists c'. split; trivial. repeat split.
    + intros p' H. unfold insert_one in H. cbn in H.
      apply in_app_or in H. destruct H as [H|[<-|[]]]; [left; eauto|].
      right. unfold course_by_id in *. cbn. congruence.
    + intros p H. exists p. split; trivial. unfold insert_one. cbn.
      apply in_or_app. now left.
  - intros eid st score fb cu.
    destruct (update_exam_outcome db eid st score fb cu)
      as [(e & He) | (exam & course & _ & _ & _ & E)]; [now rewrite He|].
    rewrite E. cbn [snd].
    apply (integrity_status_update db _ I); try reflexivity; eauto.
    + unfold exam_recorded, exam_outcome_on_courses. cbn.
      destruct st; [now right | left; eauto | left; eauto].
    + intros x' H. unfold exam_recorded in H. cbn in H.
      apply In_update_first in H. destruct H as (x & Hin & [->| ->]); eauto.
  - intros pid st cu.
    destruct (update_payment_outcome db pid st cu)
      as [(e & He) | (payment & course & _ & _ & _ & E)]; [now rewrite He|].
    rewrite E. cbn [snd].
    apply (integrity_status_update db _ I); try reflexivity.
    + unfold payment_recorded, payment_outcome_on_courses. cbn.
      destruct (_ && _); [left; eauto | now right].
    + intros x H. eauto.
    + intros p' H. unfold payment_recorded in H. cbn in H.
      apply In_update_first in H. destruct H as (p & Hin & [->| ->]); eauto.
    + intros p H. unfold payment_recorded. cbn.
      destruct (update_first_covers (fun x => String.eqb (Payment.id x) pid)
                  (Payment.set_status st) _ p H) as (y & Hy & [->| ->]); eauto.
Qed.

Lemma integrity_preserved_witness :
  integrity SampleListing.db
  /\ integrity
       (snd (run (update_exam "ea" ExamStatus.PASSED None None Sample.admin)
               SampleListing.db)).
Proof.
  assert (I : integrity SampleListing.db).
  { constructor; cbn; intros x H;
      repeat (destruct H as [<-|H]; [cbn; try discriminate; eauto 6|]);
      try contradiction.
    - split; [discriminate|]. split; [discriminate|]. eauto.
    - split; [discriminate|]. split; [discriminate|]. eauto. }
  split; [exact I|].
  exact (proj1 (proj2 (proj2 (proj2 (proj2 (integrity_preserved SampleListing.db I)))))
           "ea" ExamStatus.PASSED None None Sample.admin).
Defined.

(** * Accounts, schools and teachers *)

Lemma find_none_iff_key {A} (key : A -> string) (l : list A) i :
  find (fun x => String.eqb (key x) i) l = None <-> ~ In i (map key l).
Proof.
  rewrite in_map_iff. split.
  - intros F (x & <- & Hin). apply (find_none _ _ F) in Hin.
    now rewrite String.eqb_refl in Hin.
  - intros H. destruct (find _ _) as [x|] eqn:F; trivial.
    apply find_some in F. destruct F as [Hin E]. apply String.eqb_eq in E.
    exfalso. apply H. eauto.
Qed.

Lemma find_by_distinct_key {A} (key : A -> string) (l : list A) d :
  NoDup (map key l) -> In d l ->
  find (fun x => String.eqb (key x) (key d)) l = Some d.
Proof.
  induction l as [|z l IH]; cbn; [tauto|].
  intros N [->|Hin]; [now rewrite String.eqb_refl|].
  inversion N as [|? ? Hz N']; subst.
  destruct (String.eqb (key z) (key d)) eqn:E; [|auto].
  apply String.eqb_eq in E. exfalso. apply Hz. rewrite E. now apply in_map.
Qed.

Lemma NoDup_insert_one {A} (key : A -> string) (l : list A) x :
  NoDup (map key l) -> ~ In (key x) (map key l) ->
  NoDup (map key (insert_one x l)).
Proof.
  unfold insert_one. rewrite map_app. cbn. intros N H.
  apply NoDup_app; trivial.
  - repeat constructor. tauto.
  - intros a Ha [<-|[]]. tauto.
Qed.

Lemma register_user_run new_id hashed user r :
  register_user new_id hashed user r
  = match user_doc_by_email r (UserCreate.email user) with
    | Some _ => (Raise EmailRegistered, r)
    | None =>
        (Return (User.mk new_id (UserCreate.role user) (UserCreate.gender user)),
         Registry.with_users
           (insert_one
              (UserDoc.mk
                 (User.mk new_id (UserCreate.role user) (UserCreate.gender user))
                 (UserCreate.email user) hashed)) r)
    end.
Proof.
  unfold register_user, get_user_by_email.
  now destruct (user_doc_by_email r (UserCreate.email user)).
Qed.

(** X15: [register_user] rejects a request exactly when its e-mail address is
    already stored, and then changes nothing; otherwise it appends a user
    with the role and gender of the request, whatever the role (an
    administrator included).  So no two users ever share an e-mail
    address, and with a new id no two share an id. *)
Theorem register_user_emails_distinct new_id hashed user r :
  (In (UserCreate.email user) (map UserDoc.email (Registry.users r)) ->
   register_user new_id hashed user r = (Raise EmailRegistered, r))
  /\ (~ In (UserCreate.email user) (map UserDoc.email (Registry.users r)) ->
      exists d,
        register_user new_id hashed user r
        = (Return (UserDoc.user d), Registry.with_users (insert_one d) r)
        /\ UserDoc.user d
           = User.mk new_id (UserCreate.role user) (UserCreate.gender user)
        /\ UserDoc.email d = UserCreate.email user
        /\ UserDoc.password d = hashed)
  /\ (emails_distinct r ->
      emails_distinct (snd (register_user new_id hashed user r)))
  /\ (user_ids_distinct r -> user_doc_by_id r new_id = None ->
      user_ids_distinct (snd (register_user new_id hashed user r))).
Proof.
  rewrite register_user_run. unfold user_doc_by_email, user_doc_by_id.
  pose proof (find_none_iff_key UserDoc.email (Registry.users r)
                (UserCreate.email user)) as F.
  destruct (find _ _) as [d|] eqn:E.
  - assert (Hin : In (UserCreate.email user) (map UserDoc.email (Registry.users r))).
    { apply find_some in E. destruct E as [Hin E]. apply String.eqb_eq in E.
      rewrite <- E. now apply in_map. }
    repeat split; trivial. intros H. now destruct H.
  - assert (Hfree : ~ In (UserCreate.email user)
                      (map UserDoc.email (Registry.users r))) by now apply F.
    split; [tauto|]. split; [|split].
    + intros _.
      exists (UserDoc.mk
                (User.mk new_id (UserCreate.role user) (UserCreate.gender user))
                (UserCreate.email user) hashed).
      cbn. auto.
    + intros N. cbn. now apply (NoDup_insert_one UserDoc.email).
    + intros N Hid. cbn. apply (NoDup_insert_one UserDoc.id); trivial.
      now apply find_none_iff_key.
Qed.

Lemma register_user_emails_distinct_witness :
  emails_distinct SampleRegistry.registry
  /\ emails_distinct
       (snd (register_user "n1" "h"
               (UserCreate.mk "n1@x.dz" Gender.MALE "pw" UserRole.ADMIN)
               SampleRegistry.registry)).
Proof.
  assert (N : emails_distinct SampleRegistry.registry).
  { unfold emails_distinct. cbn.
    repeat (constructor; [cbn; intuition discriminate|]). constructor. }
  split; [exact N|].
  exact (proj1 (proj2 (proj2
           (register_user_emails_distinct "n1" "h"
              (UserCreate.mk "n1@x.dz" Gender.MALE "pw" UserRole.ADMIN)
              SampleRegistry.registry))) N).
Defined.

Section AuthLemmas.
Variable verify_password : string -> string -> outcome bool.
Variable create_access_token : Claims.t -> string.
Variable jwt_decode : string -> option Claims.t.

Lemma authenticate_user_run email password r :
  authenticate_user verify_password email password r
  = match user_doc_by_email r email with
    | None => Return None
    | Some d =>
        match verify_password password (UserDoc.password d) with
        | Return true => Return (Some (UserDoc.user d))
        | Return false => Return None
        | Raise e => Raise e
        end
    end.
Proof.
  unfold authenticate_user, get_user_by_email.
  destruct (user_doc_by_email r email) as [d|]; trivial.
  now destruct (verify_password _ _) as [[|]|e].
Qed.

(** X16: after an accepted registration the new user, and nobody else, signs
    in under the new e-mail address: [authenticate_user] returns the new
    user when [verify_password] accepts the password against the stored
    hash, False when it does not, and raises what [verify_password]
    raises (as passlib does for a password with a NUL byte); under every
    other address it answers as before.  It raises nothing of its own:
    whenever it raises, [verify_password] raised that exception on the
    password and the hash stored under the address. *)
Theorem register_then_authenticate new_id hashed user r u r' :
  register_user new_id hashed user r = (Return u, r') ->
  (forall email password,
      authenticate_user verify_password email password r'
      = if String.eqb (UserCreate.email user) email
        then match verify_password password hashed with
             | Return true => Return (Some u)
             | Return false => Return None
             | Raise e => Raise e
             end
        else authenticate_user verify_password email password r)
  /\ (forall email password e,
         authenticate_user verify_password email password r' = Raise e ->
         exists d, user_doc_by_email r' email = Some d
                   /\ verify_password password (UserDoc.password d) = Raise e).
Proof.
  rewrite register_user_run.
  destruct (user_doc_by_email r (UserCreate.email user)) eqn:E; [discriminate|].
  intros [= <- <-]. split.
  - intros email password. rewrite !authenticate_user_run.
    unfold user_doc_by_email in *. cbn [Registry.with_users Registry.users].
    destruct (String.eqb (UserCreate.email user) email) eqn:Em.
    + apply String.eqb_eq in Em. subst email.
      rewrite (find_insert_fresh _ _ _ E). cbn. now rewrite String.eqb_refl.
    + destruct (find (fun d => String.eqb (UserDoc.email d) email) (Registry.users r))
        as [d|] eqn:F.
      * now rewrite (find_insert_old _ _ _ _ F).
      * rewrite (find_insert_fresh _ _ _ F). cbn. now rewrite Em.
  - intros email password e. rewrite authenticate_user_run.
    destruct (user_doc_by_email (Registry.with_users _ _) _) as [d|];
      [|discriminate].
    destruct (verify_password password (UserDoc.password d)) as [[|]|e'] eqn:V;
      try discriminate.
    intros [= <-]. exists d. auto.
Qed.

Lemma login_run username password r :
  login_for_access_token verify_password create_access_token username password r
  = match user_doc_by_email r username with
    | None => Raise BadCredentials
    | Some d =>
        match verify_password password (UserDoc.password d) with
        | Return true =>
            Return (Token.mk
                      (create_access_token
                         (Claims.mk (Some (UserDoc.id d))
                            (Some (role_value (User.role (UserDoc.user d))))))
                      "bearer" (UserDoc.id d)
                      (role_value (User.role (UserDoc.user d))))
        | Return false => Raise BadCredentials
        | Raise e => Raise e
        end
    end.
Proof.
  unfold login_for_access_token. rewrite authenticate_user_run.
  destruct (user_doc_by_email r username) as [d|]; trivial.
  now destruct (verify_password _ _) as [[|]|e].
Qed.

(** X17: a token is issued only to an e-mail address and password that
    [authenticate_user] accepts, and names that user's id and role.  When
    ids are distinct and the token decodes to the payload it was made
    from, [get_current_user] returns the user who signed in.  Whatever the
    payload says about the role, the user returned is the stored one:
    the role of the token is only required to be present. *)
Theorem login_then_current_user username password r tok :
  user_ids_distinct r ->
  login_for_access_token verify_password create_access_token username password r
  = Return tok ->
  exists u,
    authenticate_user verify_password username password r = Return (Some u)
    /\ Token.user_id tok = User.id u
    /\ Token.role tok = role_value (User.role u)
    /\ (jwt_decode (Token.access_token tok)
        = Some (Claims.mk (Some (User.id u)) (Some (role_value (User.role u)))) ->
        get_current_user jwt_decode (Token.access_token tok) r = Return u)
    /\ (forall token role,
           jwt_decode token = Some (Claims.mk (Some (User.id u)) (Some role)) ->
           get_current_user jwt_decode token r = Return u).
Proof.
  intros N. rewrite login_run, authenticate_user_run.
  destruct (user_doc_by_email r username) as [d|] eqn:E; [|discriminate].
  destruct (verify_password _ _) as [[|]|e]; try discriminate.
  intros [= <-]. exists (UserDoc.user d). cbn.
  assert (F : user_doc_by_id r (User.id (UserDoc.user d)) = Some d).
  { apply find_some in E. destruct E as [Hin _].
    exact (find_by_distinct_key UserDoc.id _ d N Hin). }
  assert (G : forall token role,
             jwt_decode token
             = Some (Claims.mk (Some (User.id (UserDoc.user d))) (Some role)) ->
             get_current_user jwt_decode token r = Return (UserDoc.user d)).
  { intros token role D. unfold get_current_user. rewrite D. cbn. now rewrite F. }
  repeat split; trivial. intros D. exact (G _ _ D).
Qed.

End AuthLemmas.

Lemma register_then_authenticate_witness :
  let user := UserCreate.mk "n1@x.dz" Gender.MALE "pw" UserRole.STUDENT in
  let r' := snd (register_user "n1" "hash:pw" user SampleRegistry.registry) in
  authenticate_user SampleRegistry.verify "n1@x.dz" "pw" r'
  = Return (Some (User.mk "n1" UserRole.STUDENT Gender.MALE))
  /\ authenticate_user SampleRegistry.verify "n1@x.dz" "other" r' = Return None
  /\ authenticate_user SampleRegistry.verify "n1@x.dz" SampleRegistry.nul_password r'
     = Raise ValueError.
Proof.
  cbv zeta.
  pose proof (proj1 (register_then_authenticate SampleRegistry.verify "n1" "hash:pw"
                       (UserCreate.mk "n1@x.dz" Gender.MALE "pw" UserRole.STUDENT)
                       SampleRegistry.registry
                       (User.mk "n1" UserRole.STUDENT Gender.MALE)
                       (snd (register_user "n1" "hash:pw"
                               (UserCreate.mk "n1@x.dz" Gender.MALE "pw"
                                  UserRole.STUDENT)
                               SampleRegistry.registry))
                       eq_refl)) as H.
  split; [exact (H "n1@x.dz" "pw")|].
  split; [exact (H "n1@x.dz" "other")|].
  exact (H "n1@x.dz" SampleRegistry.nul_password).
Defined.

Lemma login_then_current_user_witness :
  exists tok,
    login_for_access_token SampleRegistry.verify SampleRegistry.encode
      "a1@x.dz" "a1@x.dz" SampleRegistry.registry = Return tok
    /\ get_current_user SampleRegistry.decode (Token.access_token tok)
         SampleRegistry.registry = Return Sample.admin.
Proof.
  assert (N : user_ids_distinct SampleRegistry.registry).
  { unfold user_ids_distinct. cbn.
    repeat (constructor; [cbn; intuition discriminate|]). constructor. }
  eexists. split; [reflexivity|].
  destruct (login_then_current_user SampleRegistry.verify SampleRegistry.encode
              SampleRegistry.decode "a1@x.dz" "a1@x.dz" SampleRegistry.registry
              _ N eq_refl) as (u & A & _ & _ & G & _).
  cbv in A. injection A as <-. apply G. reflexivity.
Defined.

(** ** Schools *)

Lemma may_register_gate cu :
  negb (is_manager (User.role cu)) && negb (is_admin (User.role cu)) = false
  <-> may_register cu.
Proof.
  unfold may_register. destruct (User.role cu); cbn; split;
    (discriminate || tauto || (intros [H|H]; discriminate) || auto).
Qed.

Lemma find_insert_one {A} (q : A -> bool) (l : list A) x :
  find q (insert_one x l)
  = match find q l with
    | Some y => Some y
    | None => if q x then Some x else None
    end.
Proof.
  destruct (find q l) as [y|] eqn:F.
  - now apply find_insert_old.
  - now apply find_insert_fresh.
Qed.

(** X18: only managers and administrators create schools; the request is not
    examined further, so the manager it names need not be the caller nor
    a stored user.  The document stored is the request under the new id
    (the gender flags are those of the request), and [get_driving_school]
    then returns it under that id unless an older school has the same id;
    every other id answers as before, with status 404 when unknown. *)
Theorem create_driving_school_round_trip new_id school cu r :
  (~ may_register cu ->
   create_driving_school new_id school cu r = (Raise OnlyManagersCreateSchools, r))
  /\ (may_register cu ->
      let r' :=
        Registry.with_driving_schools (insert_one (DrivingSchool_of new_id school)) r in
      create_driving_school new_id school cu r
      = (Return (DrivingSchool_of new_id school), r')
      /\ forall i,
          get_driving_school i r'
          = match get_driving_school i r with
            | Return d => Return d
            | Raise _ =>
                if String.eqb new_id i
                then Return (DrivingSchool_of new_id school)
                else Raise SchoolNotFound
            end).
Proof.
  unfold create_driving_school.
  pose proof (may_register_gate cu) as G.
  destruct (negb (is_manager (User.role cu)) && negb (is_admin (User.role cu))).
  - split; trivial. intros H. apply G in H. discriminate.
  - split; [intros H; destruct H; now apply G|].
    intros _. cbv zeta. split; trivial.
    intros i. unfold get_driving_school, school_doc_by_id.
    cbn [Registry.with_driving_schools Registry.driving_schools].
    rewrite find_insert_one.
    destruct (find _ (Registry.driving_schools r)); trivial.
    change (SchoolDoc.id (DrivingSchool_of new_id school)) with new_id.
    now destruct (String.eqb new_id i).
Qed.

Lemma create_driving_school_round_trip_witness :
  get_driving_school "sc9"
    (snd (create_driving_school "sc9"
            (DrivingSchoolCreate.mk "Oran" 1 2 3 false false "nobody")
            Sample.manager SampleRegistry.registry))
  = Return (DrivingSchool_of "sc9"
              (DrivingSchoolCreate.mk "Oran" 1 2 3 false false "nobody")).
Proof.
  destruct (proj2 (create_driving_school_round_trip "sc9"
                     (DrivingSchoolCreate.mk "Oran" 1 2 3 false false "nobody")
                     Sample.manager SampleRegistry.registry)
              (or_introl eq_refl)) as [E H].
  rewrite E. exact (H "sc9").
Defined.

(** ** Teachers *)

Lemma update_first_fixed {A} (q : A -> bool) (f : A -> A) (l : list A) d :
  find q l = Some d -> f d = d -> update_first q f l = l.
Proof.
  induction l as [|z l IH]; cbn; trivial.
  destruct (q z) eqn:Q.
  - intros [= ->] ->. trivial.
  - intros F E. now rewrite IH.
Qed.

Lemma find_update_first_key {A} (key : A -> string) (f : A -> A) (l : list A) i j :
  (forall x, key (f x) = key x) ->
  find (fun x => String.eqb (key x) j)
    (update_first (fun x => String.eqb (key x) i) f l)
  = match find (fun x => String.eqb (key x) j) l with
    | Some x => Some (if String.eqb (key x) i then f x else x)
    | None => None
    end.
Proof.
  intros K. induction l as [|z l IH]; cbn; trivial.
  destruct (String.eqb (key z) i) eqn:Ei; cbn.
  - rewrite K. destruct (String.eqb (key z) j) eqn:Ej; [now rewrite Ei|].
    destruct (find _ l) as [x|] eqn:F; trivial.
    apply find_some in F. destruct F as [_ Ex].
    apply String.eqb_eq in Ex, Ei.
    destruct (String.eqb (key x) i) eqn:Exi; trivial.
    apply String.eqb_eq in Exi. apply String.eqb_neq in Ej. congruence.
  - destruct (String.eqb (key z) j) eqn:Ej; [now rewrite Ei | apply IH].
Qed.

Lemma create_teacher_run new_id teacher cu r :
  create_teacher new_id teacher cu r
  = if negb (is_manager (User.role cu)) && negb (is_admin (User.role cu))
    then (Raise OnlyManagersCreateTeachers, r)
    else
      match user_doc_by_id r (TeacherCreate.user_id teacher) with
      | None => (Raise InvalidTeacherUser, r)
      | Some user =>
          if negb (UserRole.eqb (User.role (UserDoc.user user)) UserRole.TEACHER)
          then (Raise InvalidTeacherUser, r)
          else
            match school_doc_by_id r (TeacherCreate.driving_school_id teacher) with
            | None => (Raise InvalidSchool, r)
            | Some _ =>
                (Return (Teacher_of new_id teacher),
                 Registry.mk (Registry.users r)
                   (update_first
                      (fun d => String.eqb (SchoolDoc.id d)
                                  (TeacherCreate.driving_school_id teacher))
                      (flagged (TeacherCreate.gender teacher))
                      (Registry.driving_schools r))
                   (insert_one (Teacher_of new_id teacher) (Registry.teachers r)))
            end
      end.
Proof.
  unfold create_teacher.
  destruct (_ && _); trivial.
  destruct (user_doc_by_id _ _) as [user|]; trivial.
  destruct (negb _); trivial.
  destruct (school_doc_by_id _ _) as [school|] eqn:S; trivial.
  unfold school_doc_by_id in S. cbn [Teacher_of Teacher.gender].
  destruct (TeacherCreate.gender teacher); cbn [Gender.eqb andb flagged].
  - destruct (SchoolDoc.has_male_teachers school) eqn:Hm; cbn [negb]; trivial.
    rewrite (update_first_fixed _ _ _ school S); [now destruct r|].
    destruct school; cbn in *; now subst.
  - destruct (SchoolDoc.has_female_teachers school) eqn:Hf; cbn [negb]; trivial.
    rewrite (update_first_fixed _ _ _ school S); [now destruct r|].
    destruct school; cbn in *; now subst.
  - rewrite (update_first_fixed _ _ _ school S); [now destruct r | trivial].
Qed.

(** X19: [create_teacher] accepts exactly when the caller is a manager or an
    administrator, the user named is stored with role teacher and the
    school named is stored; nothing else is examined (not that the
    caller manages the school, not that the user has no teacher record
    yet, not that the gender given is the user's).  A rejected request
    changes nothing.  An accepted one appends the teacher record built
    from the request and sets, on the school, the flag of the gender
    given; nothing is ever unset. *)
Theorem create_teacher_accepts_iff new_id teacher cu r :
  ((exists x r', create_teacher new_id teacher cu r = (Return x, r'))
   <-> may_register cu
       /\ (exists d, user_doc_by_id r (TeacherCreate.user_id teacher) = Some d
                     /\ User.role (UserDoc.user d) = UserRole.TEACHER)
       /\ school_doc_by_id r (TeacherCreate.driving_school_id teacher) <> None)
  /\ (forall e r', create_teacher new_id teacher cu r = (Raise e, r') -> r' = r)
  /\ (forall x r',
         create_teacher new_id teacher cu r = (Return x, r') ->
         x = Teacher_of new_id teacher
         /\ Registry.users r' = Registry.users r
         /\ Registry.teachers r' = (Registry.teachers r ++ [x])%list
         /\ Registry.driving_schools r'
            = update_first
                (fun d => String.eqb (SchoolDoc.id d)
                            (TeacherCreate.driving_school_id teacher))
                (flagged (TeacherCreate.gender teacher))
                (Registry.driving_schools r)).
Proof.
  rewrite create_teacher_run.
  pose proof (may_register_gate cu) as G.
  destruct (negb (is_manager (User.role cu)) && negb (is_admin (User.role cu))).
  { split; [|split]; [|now intros e r' [= _ <-] | discriminate].
    split; [now intros (x & r' & [=]) | intros (H & _)].
    apply G in H. discriminate. }
  assert (Hm : may_register cu) by now apply G.
  destruct (user_doc_by_id r (TeacherCreate.user_id teacher)) as [d|] eqn:U.
  2:{ split; [|split]; [|now intros e r' [= _ <-] | discriminate].
      split; [now intros (x & r' & [=]) | now intros (_ & (d & [=] & _) & _)]. }
  destruct (UserRole.eqb (User.role (UserDoc.user d)) UserRole.TEACHER) eqn:R;
    cbn [negb].
  2:{ split; [|split]; [|now intros e r' [= _ <-] | discriminate].
      split; [now intros (x & r' & [=]) |].
      intros (_ & (d' & [= <-] & Hr) & _). rewrite Hr in R. discriminate. }
  apply UserRole_eqb_eq in R.
  destruct (school_doc_by_id r (TeacherCreate.driving_school_id teacher))
    as [school|] eqn:S.
  2:{ split; [|split]; [|now intros e r' [= _ <-] | discriminate].
      split; [now intros (x & r' & [=]) | now intros (_ & _ & H)]. }
  split; [|split]; [|discriminate|].
  - split; [|eauto]. intros _. split; trivial. split; [eauto | discriminate].
  - intros x r' [= <- <-]. cbn. auto.
Qed.

Lemma create_teacher_accepts_iff_witness :
  exists x r',
    create_teacher "t9"
      (TeacherCreate.mk "sc1" Gender.FEMALE "u2") Sample.admin
      SampleRegistry.registry = (Return x, r').
Proof.
  apply (proj2 (proj1 (create_teacher_accepts_iff "t9"
                         (TeacherCreate.mk "sc1" Gender.FEMALE "u2") Sample.admin
                         SampleRegistry.registry))).
  split; [right; reflexivity|]. split.
  - exists (SampleRegistry.doc Sample.teacher_user2 "u2@x.dz"). split; reflexivity.
  - discriminate.
Defined.

(** ** What the registry guarantees to the course handlers *)

Lemma flagged_id g d : SchoolDoc.id (flagged g d) = SchoolDoc.id d.
Proof. now destruct g. Qed.

Lemma flagged_keeps g d :
  (SchoolDoc.has_male_teachers d = true ->
   SchoolDoc.has_male_teachers (flagged g d) = true)
  /\ (SchoolDoc.has_female_teachers d = true ->
      SchoolDoc.has_female_teachers (flagged g d) = true).
Proof. destruct g; cbn; auto. Qed.

Lemma flagged_sets g d :
  (g = Gender.MALE -> SchoolDoc.has_male_teachers (flagged g d) = true)
  /\ (g = Gender.FEMALE -> SchoolDoc.has_female_teachers (flagged g d) = true).
Proof. destruct g; cbn; split; auto; discriminate. Qed.

(** X20: every teacher record stays backed: whatever [register_user],
    [create_driving_school] and [create_teacher] are asked, afterwards
    each teacher record still names a stored user with role teacher and a
    stored school, and that school has the flag of the record's gender
    set, so a school's flags never miss a teacher it has. *)
Theorem teachers_stay_backed r :
  teachers_backed r ->
  (forall new_id hashed user,
      teachers_backed (snd (register_user new_id hashed user r)))
  /\ (forall new_id school cu,
         teachers_backed (snd (create_driving_school new_id school cu r)))
  /\ (forall new_id teacher cu,
         teachers_backed (snd (create_teacher new_id teacher cu r))).
Proof.
  intros [Bu Bs]. split; [|split].
  - intros new_id hashed user. rewrite register_user_run.
    destruct (user_doc_by_email r (UserCreate.email user)); [now split|].
    split; cbn; [|exact Bs].
    intros x Hx. destruct (Bu x Hx) as (d & Hd & Hr). exists d. split; trivial.
    now apply find_insert_old.
  - intros new_id school cu. unfold create_driving_school.
    destruct (_ && _); [now split|].
    split; cbn; [exact Bu|].
    intros x Hx. destruct (Bs x Hx) as (d & Hd & Hf). exists d. split; trivial.
    now apply find_insert_old.
  - intros new_id teacher cu. rewrite create_teacher_run.
    destruct (_ && _); [now split|].
    destruct (user_doc_by_id r (TeacherCreate.user_id teacher)) as [u|] eqn:U;
      [|now split].
    destruct (UserRole.eqb (User.role (UserDoc.user u)) UserRole.TEACHER) eqn:R;
      cbn [negb]; [|now split].
    apply UserRole_eqb_eq in R.
    destruct (school_doc_by_id r (TeacherCreate.driving_school_id teacher))
      as [school|] eqn:S; [|now split].
    cbn [snd]. split; unfold insert_one, user_doc_by_id, school_doc_by_id in *; cbn.
    + intros x Hx. apply in_app_or in Hx. destruct Hx as [Hx|[<-|[]]]; eauto.
    + intros x Hx.
      rewrite (find_update_first_key SchoolDoc.id); [|apply flagged_id].
      apply in_app_or in Hx. destruct Hx as [Hx|[<-|[]]].
      * destruct (Bs x Hx) as (d & Hd & Hm & Hf). rewrite Hd.
        eexists. split; [reflexivity|].
        destruct (String.eqb (SchoolDoc.id d) _); auto.
        destruct (flagged_keeps (TeacherCreate.gender teacher) d). auto.
      * cbn [Teacher_of Teacher.driving_school_id Teacher.gender]. rewrite S.
        eexists. split; [reflexivity|].
        apply find_some in S. destruct S as [_ ->].
        apply flagged_sets.
Qed.

Lemma teachers_stay_backed_witness :
  teachers_backed SampleRegistry.registry
  /\ teachers_backed
       (snd (create_teacher "t9" (TeacherCreate.mk "sc1" Gender.FEMALE "u2")
               Sample.admin SampleRegistry.registry)).
Proof.
  assert (B : teachers_backed SampleRegistry.registry).
  { split; intros x [<-|[]].
    - exists (SampleRegistry.doc Sample.teacher_user "u1@x.dz"). now split.
    - exists SampleRegistry.school_doc. split; [reflexivity|].
      split; [reflexivity | discriminate]. }
  split; [exact B|].
  exact (proj2 (proj2 (teachers_stay_backed SampleRegistry.registry B))
           "t9" (TeacherCreate.mk "sc1" Gender.FEMALE "u2") Sample.admin).
Defined.

Lemma find_map {A B} (f : A -> B) (q : B -> bool) (l : list A) :
  find q (map f l)
  = match find (fun x => q (f x)) l with Some x => Some (f x) | None => None end.
Proof.
  induction l as [|z l IH]; cbn; trivial. now destruct (q (f z)).
Qed.

Lemma create_course_errors db fr course cu e db' :
  (forall t, In t (DB.teachers db) -> user_by_id db (Teacher.user_id t) <> None) ->
  run (create_course fr course cu) db = (Raise e, db') ->
  exists detail, e = HTTPException 400 detail.
Proof.
  intros B.
  destruct (user_by_id db (CourseCreate.student_id course)) as [s|] eqn:Hs.
  2:{ assert (E : run (create_course fr course cu) db = (Raise InvalidStudent, db))
        by now start_handler.
      rewrite E. intros [= <- _]. now eexists. }
  destruct (UserRole.eqb (User.role s) UserRole.STUDENT) eqn:Hr.
  2:{ assert (E : run (create_course fr course cu) db = (Raise InvalidStudent, db))
        by now start_handler.
      rewrite E. intros [= <- _]. now eexists. }
  destruct (teacher_by_id db (CourseCreate.teacher_id course)) as [t|] eqn:Ht.
  2:{ assert (E : run (create_course fr course cu) db = (Raise InvalidTeacher, db))
        by now start_handler.
      rewrite E. intros [= <- _]. now eexists. }
  destruct (school_by_id db (CourseCreate.driving_school_id course))
    as [sc|] eqn:Hsc.
  2:{ assert (E : run (create_course fr course cu) db = (Raise InvalidSchool, db))
        by now start_handler.
      rewrite E. intros [= <- _]. now eexists. }
  destruct (user_by_id db (Teacher.user_id t)) as [tu|] eqn:Htu.
  2:{ exfalso. apply (B t); trivial.
      unfold teacher_by_id in Ht. now apply find_some in Ht. }
  apply UserRole_eqb_eq in Hr.
  rewrite (create_course_gender_stage db fr course cu s t sc tu
             (Build_resolves _ _ _ _ _ _ Hs Hr Ht Hsc Htu)).
  destruct (negb _); [intros [= <- _]; now eexists|].
  destruct (CourseCreate.type course);
    repeat match goal with
           | |- context [match find ?q ?l with _ => _ end] => destruct (find q l)
           end;
    intros [= <- _] || discriminate; now eexists.
Qed.

(** X21: with every teacher record backed, as the registry keeps them,
    [create_course] never fails on the missing user of a teacher: every
    refusal is an HTTP error with status 400.  Which refusal, if any,
    depends on the gender of the teacher's user; the gender written in
    the teacher record and the school's flags play no part. *)
Theorem enrollment_over_registry r rest fr course cu :
  teachers_backed r ->
  (forall e db',
      run (create_course fr course cu) (Registry.to_db r rest) = (Raise e, db') ->
      exists detail, e = HTTPException 400 detail)
  /\ (forall s t sc tu,
         resolves (Registry.to_db r rest) course s t sc tu ->
         (exists d, user_doc_by_id r (Teacher.user_id t) = Some d
                    /\ UserDoc.user d = tu
                    /\ User.role tu = UserRole.TEACHER)
         /\ (User.gender tu <> User.gender s ->
             run (create_course fr course cu) (Registry.to_db r rest)
             = (Raise GenderMismatch, Registry.to_db r rest))
         /\ (fst (run (create_course fr course cu) (Registry.to_db r rest))
             = Raise GenderMismatch ->
             User.gender tu <> User.gender s)).
Proof.
  intros [Bu Bs].
  assert (U : forall i, user_by_id (Registry.to_db r rest) i
                        = match user_doc_by_id r i with
                          | Some d => Some (UserDoc.user d)
                          | None => None
                          end).
  { intros i. unfold user_by_id, user_doc_by_id. cbn. apply find_map. }
  split.
  - intros e db'. apply create_course_errors.
    intros t Ht. rewrite U. cbn in Ht.
    destruct (Bu t Ht) as (d & -> & _). discriminate.
  - intros s t sc tu R. pose proof R as [Rs Rr Rt Rsc Rtu].
    assert (Hin : In t (Registry.teachers r)).
    { unfold teacher_by_id in Rt. apply find_some in Rt. exact (proj1 Rt). }
    destruct (Bu t Hin) as (d & Hd & Hrole).
    rewrite U, Hd in Rtu. injection Rtu as <-.
    split; [eauto|].
    rewrite (create_course_gender_stage _ fr course cu s t sc _ R).
    destruct (Gender.eqb (User.gender (UserDoc.user d)) (User.gender s)) eqn:G;
      cbn [negb].
    + apply Gender_eqb_eq in G. split; [congruence|].
      destruct (CourseCreate.type course);
        repeat match goal with
               | |- context [match find ?q ?l with _ => _ end] => destruct (find q l)
               end;
        cbn; discriminate.
    + apply Gender_eqb_neq in G. auto.
Qed.

Lemma enrollment_over_registry_witness :
  run (create_course (Sample.fresh "1")
         (CourseCreate.mk CourseType.CODE "s2" "t1" "sc1" CourseStatus.NOT_STARTED
            None None)
         Sample.student_f)
    (Registry.to_db SampleRegistry.registry Sample.db0)
  = (Raise GenderMismatch, Registry.to_db SampleRegistry.registry Sample.db0).
Proof.
  assert (B : teachers_backed SampleRegistry.registry).
  { split; intros x [<-|[]].
    - exists (SampleRegistry.doc Sample.teacher_user "u1@x.dz"). now split.
    - exists SampleRegistry.school_doc. split; [reflexivity|].
      split; [reflexivity | discriminate]. }
  refine (proj1 (proj2 (proj2 (enrollment_over_registry SampleRegistry.registry
                                 Sample.db0 (Sample.fresh "1")
                                 (CourseCreate.mk CourseType.CODE "s2" "t1" "sc1"
                                    CourseStatus.NOT_STARTED None None)
                                 Sample.student_f B)
                          Sample.student_f Sample.teacher Sample.school
                          Sample.teacher_user _)) _).
  - split; reflexivity.
  - discriminate.
Defined.

(** ** The public listings *)

Lemma filter_all {A} (q : A -> bool) (l : list A) :
  (forall x, q x = true) -> filter q l = l.
Proof.
  intros H. induction l as [|z l IH]; cbn; trivial. now rewrite H, IH.
Qed.

Lemma firstn_reaches_last {A} n (l : list A) x :
  (List.length l < n)%nat -> In x (firstn n (l ++ [x])%list).
Proof.
  intros H. rewrite firstn_all2.
  - apply in_or_app. right. now left.
  - rewrite length_app. cbn. lia.
Qed.

Lemma firstn_misses_last {A} n (l : list A) x :
  (n <= List.length l)%nat -> firstn n (l ++ [x])%list = firstn n l.
Proof.
  intros H. rewrite firstn_app.
  replace (n - List.length l)%nat with 0%nat by lia.
  cbn. apply app_nil_r.
Qed.

Lemma filter_length_le {A} (q : A -> bool) (l : list A) :
  (List.length (filter q l) <= List.length l)%nat.
Proof.
  induction l as [|z l IH]; cbn; trivial. destruct (q z); cbn; lia.
Qed.

Lemma key_matches_truthy o v :
  (if truthy o then CourseQuery.key_matches o v else true) = true
  <-> (truthy o = true -> o = Some v).
Proof.
  destruct o as [s|]; cbn; [|split; [discriminate | trivial]].
  destruct (String.eqb s EmptyString) eqn:E; cbn; [split; [discriminate | trivial]|].
  rewrite String.eqb_eq. split; [now intros -> | intros H].
  now injection (H eq_refl).
Qed.

(** X22: what [get_teachers] returns is stored and
    meets the filter asked for, an empty string asking for nothing.  A
    teacher just created is listed, with or without the filter on the
    school and gender given, as long as fewer than 1000 teachers were
    stored; from the thousandth stored teacher on, the unfiltered listing
    no longer shows a new teacher. *)
Theorem teacher_listing new_id teacher cu r x r' :
  create_teacher new_id teacher cu r = (Return x, r') ->
  (forall y, In y (Registry.teachers r) -> Teacher.id y <> new_id) ->
  (forall sid g y,
      In y (get_teachers sid g r') ->
      In y (Registry.teachers r')
      /\ (truthy sid = true -> sid = Some (Teacher.driving_school_id y))
      /\ (forall g0, g = Some g0 -> Teacher.gender y = g0))
  /\ ((List.length (Registry.teachers r) < 1000)%nat ->
      In x (get_teachers None None r')
      /\ In x (get_teachers (Some (TeacherCreate.driving_school_id teacher))
                 (Some (TeacherCreate.gender teacher)) r'))
  /\ ((1000 <= List.length (Registry.teachers r))%nat ->
      ~ In x (get_teachers None None r')).
Proof.
  rewrite create_teacher_run.
  destruct (_ && _); [discriminate|].
  destruct (user_doc_by_id _ _); [|discriminate].
  destruct (negb _); [discriminate|].
  destruct (school_doc_by_id _ _); [|discriminate].
  intros [= <- <-] Fresh. unfold get_teachers.
  cbn [Registry.teachers]. unfold insert_one.
  split; [|split].
  - intros sid g y H. apply In_firstn_filter in H. destruct H as [Hin Q].
    split; trivial. apply andb_true_iff in Q. destruct Q as [Q1 Q2].
    split; [now apply key_matches_truthy|].
    intros g0 ->. now apply Gender_eqb_eq.
  - intros L. split.
    + rewrite filter_all by trivial. now apply firstn_reaches_last.
    + rewrite filter_app. cbn [filter Teacher_of Teacher.driving_school_id
                                 Teacher.gender].
      assert (Q : (if truthy (Some (TeacherCreate.driving_school_id teacher))
                   then CourseQuery.key_matches
                          (Some (TeacherCreate.driving_school_id teacher))
                          (TeacherCreate.driving_school_id teacher)
                   else true)
                  && Gender.eqb (TeacherCreate.gender teacher)
                       (TeacherCreate.gender teacher) = true).
      { apply andb_true_iff. split; [now apply key_matches_truthy|].
        now apply Gender_eqb_eq. }
      rewrite Q. apply firstn_reaches_last.
      eapply Nat.le_lt_trans; [apply filter_length_le | exact L].
  - intros L H. rewrite filter_all in H by trivial.
    rewrite firstn_misses_last in H by trivial.
    apply In_firstn in H. now apply (Fresh _ H).
Qed.

Lemma teacher_listing_witness :
  In (Teacher_of "t9" (TeacherCreate.mk "sc1" Gender.FEMALE "u2"))
    (get_teachers (Some "sc1") (Some Gender.FEMALE)
       (snd (create_teacher "t9" (TeacherCreate.mk "sc1" Gender.FEMALE "u2")
               Sample.admin SampleRegistry.registry))).
Proof.
  refine (proj2 (proj1 (proj2 (teacher_listing "t9"
                                 (TeacherCreate.mk "sc1" Gender.FEMALE "u2")
                                 Sample.admin SampleRegistry.registry
                                 _ _ eq_refl _)) _)).
  - intros y [<-|[]]. discriminate.
  - cbn. lia.
Defined.

(** X23: [get_driving_schools] returns stored schools of the state asked for,
    an empty string asking for all.  A school just created is listed
    under its state, and in the unfiltered listing, as long as fewer than
    1000 schools were stored. *)
Theorem school_listing new_id school cu r d r' :
  create_driving_school new_id school cu r = (Return d, r') ->
  (forall st y,
      In y (get_driving_schools st r') ->
      In y (Registry.driving_schools r')
      /\ (truthy st = true -> st = Some (SchoolDoc.state y)))
  /\ ((List.length (Registry.driving_schools r) < 1000)%nat ->
      In d (get_driving_schools None r')
      /\ In d (get_driving_schools (Some (DrivingSchoolCreate.state school)) r')).
Proof.
  unfold create_driving_school. destruct (_ && _); [discriminate|].
  intros [= <- <-]. unfold get_driving_schools.
  cbn [Registry.driving_schools Registry.with_driving_schools]. unfold insert_one.
  split.
  - intros st y H. apply In_firstn_filter in H. destruct H as [Hin Q].
    split; trivial. now apply key_matches_truthy.
  - intros L. split.
    + rewrite filter_all by trivial. now apply firstn_reaches_last.
    + rewrite filter_app. cbn [filter DrivingSchool_of SchoolDoc.state].
      assert (Q : (if truthy (Some (DrivingSchoolCreate.state school))
                   then CourseQuery.key_matches
                          (Some (DrivingSchoolCreate.state school))
                          (DrivingSchoolCreate.state school)
                   else true) = true) by now apply key_matches_truthy.
      rewrite Q. apply firstn_reaches_last.
      eapply Nat.le_lt_trans; [apply filter_length_le | exact L].
Qed.

Lemma school_listing_witness :
  In (DrivingSchool_of "sc9" (DrivingSchoolCreate.mk "Oran" 1 2 3 false false "m1"))
    (get_driving_schools (Some "Oran")
       (snd (create_driving_school "sc9"
               (DrivingSchoolCreate.mk "Oran" 1 2 3 false false "m1")
               Sample.manager SampleRegistry.registry))).
Proof.
  refine (proj2 (proj2 (school_listing "sc9"
                          (DrivingSchoolCreate.mk "Oran" 1 2 3 false false "m1")
                          Sample.manager SampleRegistry.registry _ _ eq_refl) _)).
  cbn. lia.
Defined.

(** ** Refusals of the two update handlers *)

(** X24: [update_exam] and [update_payment] never answer a refused call
    with an HTTP error.  Their parameter [status] hides the [status]
    module of fastapi, so every refusal (a caller without permission, an
    unknown exam or payment, a missing course) raises [AttributeError]
    before anything is written; the codes 403 and 404 written in the two
    handlers are never sent. *)
Theorem update_refusals_raise_attribute_error db :
  (forall eid st score fb cu e db',
      run (update_exam eid st score fb cu) db = (Raise e, db') ->
      e = AttributeError /\ db' = db)
  /\ (forall pid st cu e db',
         run (update_payment pid st cu) db = (Raise e, db') ->
         e = AttributeError /\ db' = db).
Proof.
  split.
  - intros eid st score fb cu e db'.
    destruct (not_staff (User.role cu)) eqn:Hrole.
    { assert (E : run (update_exam eid st score fb cu) db
                  = (Raise status_attribute_error, db)) by now start_handler.
      rewrite E. now intros [= <- <-]. }
    destruct (exam_by_id db eid) as [exam|] eqn:He.
    2:{ assert (E : run (update_exam eid st score fb cu) db
                    = (Raise status_attribute_error, db)) by now start_handler.
        rewrite E. now intros [= <- <-]. }
    destruct (course_by_id db (Exam.course_id exam)) as [course|] eqn:Hc.
    2:{ assert (E : run (update_exam eid st score fb cu) db
                    = (Raise status_attribute_error, db)) by now start_handler.
        rewrite E. now intros [= <- <-]. }
    destruct (UserRole.eqb (User.role cu) UserRole.TEACHER) eqn:Hr.
    + apply UserRole_eqb_eq in Hr.
      destruct (not_own_course (teacher_by_user_id db (User.id cu)) course) eqn:Hown.
      * assert (E : run (update_exam eid st score fb cu) db
                    = (Raise status_attribute_error, db)).
        { start_handler. cbn in Hrole. now use_lookups. }
        rewrite E. now intros [= <- <-].
      * rewrite (update_exam_run db eid st score fb cu exam course He Hc);
          [discriminate | now split].
    + rewrite (update_exam_run db eid st score fb cu exam course He Hc);
        [discriminate|].
      split; trivial. intros E. rewrite E in Hr. discriminate.
  - intros pid st cu e db'.
    destruct (payment_by_id db pid) as [payment|] eqn:Hp.
    2:{ assert (E : run (update_payment pid st cu) db
                    = (Raise status_attribute_error, db)) by now start_handler.
        rewrite E. now intros [= <- <-]. }
    destruct (course_by_id db (Payment.course_id payment)) as [course|] eqn:Hc.
    2:{ assert (E : run (update_payment pid st cu) db
                    = (Raise status_attribute_error, db)) by now start_handler.
        rewrite E. now intros [= <- <-]. }
    destruct (negb (is_admin (User.role cu)) && negb (is_manager (User.role cu))
              && negb (String.eqb (User.id cu) (Course.student_id course))) eqn:G.
    + assert (E : run (update_payment pid st cu) db
                  = (Raise status_attribute_error, db)).
      { start_handler. now rewrite G. }
      rewrite E. now intros [= <- <-].
    + apply may_update_payment_gate in G.
      now rewrite (update_payment_run db pid st cu payment course Hp Hc G).
Qed.

Lemma update_refusals_raise_attribute_error_witness :
  (exists e,
      run (update_exam "e0" ExamStatus.PASSED None None Sample.student)
        (SampleCourses.db_course CourseStatus.IN_PROGRESS)
      = (Raise e, SampleCourses.db_course CourseStatus.IN_PROGRESS)
      /\ e = AttributeError)
  /\ (exists e,
         run (update_payment "no-such-payment" PaymentStatus.COMPLETED Sample.admin)
           (SampleCourses.db_course CourseStatus.IN_PROGRESS)
         = (Raise e, SampleCourses.db_course CourseStatus.IN_PROGRESS)
         /\ e = AttributeError).
Proof.
  split; eexists; (split; [reflexivity|]).
  - exact (proj1 (proj1 (update_refusals_raise_attribute_error
                           (SampleCourses.db_course CourseStatus.IN_PROGRESS))
                    "e0" ExamStatus.PASSED None None Sample.student
                    _ _ eq_refl)).
  - exact (proj1 (proj2 (update_refusals_raise_attribute_error
                           (SampleCourses.db_course CourseStatus.IN_PROGRESS))
                    "no-such-payment" PaymentStatus.COMPLETED Sample.admin
                    _ _ eq_refl)).
Defined.
